(** * Retrieval pipeline of quick-research-ai: a shallow embedding

    The development follows the backend sources:

    - [lib/redisClient.js]   the vector index ([cosineSimilarity],
      [upsertVector], [queryTopK], [deleteVector]);
    - [lib/sanityClient.js]  the document store ([saveDocument],
      [getDocument]);
    - [lib/lightningClient.js] the embedding and generation provider
      ([createEmbedding], [generateAnswer], [generateMockEmbedding],
      [generateMockAnswer]);
    - [lib/ingest.js], [lib/query.js] the two pipelines;
    - [lib/parallelClient.js] the workflow client;
    - [server.js] the handlers of [POST /api/ingest], [POST /api/query]
      and [POST /api/parallel/start].

    Conventions of the embedding.

    - A JavaScript number that holds a vector component or a score is a
      real number ([R]) in the pipelines: arithmetic is exact there, so
      rounding, overflow and NaN of IEEE doubles are outside that model.
      What depends on them is stated over the module [Double], which
      repeats [cosineSimilarity] and [generateMockEmbedding] over
      binary64 numbers.  The integer hash of [generateMockEmbedding] is
      a [Z] with the 32-bit wrap-around written out.  A count ([k], an
      index) is a [nat].
    - A JavaScript string is a [string]; one [ascii] stands for one
      code unit.
    - A thrown [Error] is [Throw message]; an [async] function that
      touches a collaborator is a function from [World] to a result and
      the next [World].  Logging to the console is left out.
    - The Redis database and the Sanity dataset are finite maps.  A
      value stored in Redis is kept as the object that [JSON.parse]
      gives back.  The Redis connection is taken to be up; a failing
      [client.create] or [client.getDocument] of Sanity, a failing
      request to the Lightning API and a failing [pdfParse] are part of
      the [Environment].
    - Optional parameters are passed by the callers of this repository
      ([source], [metadata]) or stand for their default ([topK = 3] in
      the query route), so the functions take them as plain arguments.
    - [World] carries the list of the calls made to the collaborators;
      the sources do not keep it, it serves to state in which order and
      whether the collaborators are called. *)

From Stdlib Require Import PrimFloat.
From Stdlib Require Import Reals Lra Lia ZArith List Ascii String.
From Stdlib Require Import DecimalString Permutation Sorted.
From stdpp Require Import gmap strings.

Local Open Scope string_scope.

(** ** Results of fallible code *)

Inductive Result (A : Type) : Type :=
| Ok (value : A)
| Throw (message : string).
Arguments Ok {A} value.
Arguments Throw {A} message.

Definition bind_result {A B} (r : Result A) (k : A -> Result B) : Result B :=
  match r with
  | Ok a => k a
  | Throw m => Throw m
  end.

(** ** JavaScript string primitives *)

Module JS.

(** [s.substring(0, n)] *)
Definition substring0 (n : nat) (s : string) : string := String.substring 0 n s.

(** [s.split(sep)] for a one-character separator; the result is never
    empty. *)
Fixpoint split (sep : ascii) (s : string) : list string :=
  match s with
  | EmptyString => [EmptyString]
  | String c rest =>
      if Ascii.eqb c sep then EmptyString :: split sep rest
      else match split sep rest with
           | [] => [String c EmptyString]
           | piece :: pieces => String c piece :: pieces
           end
  end.

(** [a || b] on strings: the empty string is falsy. *)
Definition or_else (a b : string) : string :=
  if String.eqb a "" then b else a.

(** [a || b] where [a] may be [undefined]. *)
Definition or_default (a : option string) (b : string) : string :=
  match a with
  | Some s => or_else s b
  | None => b
  end.

(** White space and line terminators removed by [trim], among the
    code units below 256: TAB, LF, VT, FF, CR, SP, NBSP. *)
Definition is_white_space (c : ascii) : bool :=
  let n := nat_of_ascii c in
  (Nat.eqb n 9 || Nat.eqb n 10 || Nat.eqb n 11 || Nat.eqb n 12
   || Nat.eqb n 13 || Nat.eqb n 32 || Nat.eqb n 160)%bool.

Fixpoint trimStart (s : string) : string :=
  match s with
  | EmptyString => EmptyString
  | String c rest => if is_white_space c then trimStart rest else s
  end.

Fixpoint trimEnd (s : string) : string :=
  match s with
  | EmptyString => EmptyString
  | String c rest =>
      match trimEnd rest with
      | EmptyString => if is_white_space c then EmptyString else String c EmptyString
      | kept => String c kept
      end
  end.

Definition trim (s : string) : string := trimEnd (trimStart s).

(** [s.replace(pat, rep)] for a string pattern: the first occurrence
    only. *)
Fixpoint replace (pat rep s : string) : string :=
  if String.prefix pat s
  then rep ++ String.substring (String.length pat) (String.length s) s
  else match s with
       | EmptyString => EmptyString
       | String c rest => String c (replace pat rep rest)
       end.

(** A string used as a condition: empty is falsy. *)
Definition truthy (s : string) : bool := negb (String.eqb s "").

(** [`${n}`] for a non-negative integer. *)
Definition of_nat (n : nat) : string := NilZero.string_of_uint (Nat.to_uint n).

End JS.

Definition newline : ascii := ascii_of_nat 10.

(** ** [ingest.js]: title and snippet (lines 17-18) *)

Definition derive_title (text : string) : string :=
  JS.or_else (JS.substring0 100 (hd EmptyString (JS.split newline text))) "Untitled".

Definition derive_snippet (text : string) : string :=
  JS.substring0 200 text ++ (if Nat.ltb 200 (String.length text) then "..." else "").

(** ** [redisClient.js]: cosine similarity *)

Local Open Scope R_scope.

(** The loop of [cosineSimilarity]: one pass over the indices, three
    accumulators. *)
Definition cosine_step (vecA vecB : list R) (acc : R * R * R) (i : nat) : R * R * R :=
  let '(dotProduct, magA, magB) := acc in
  (dotProduct + nth i vecA 0 * nth i vecB 0,
   magA + nth i vecA 0 * nth i vecA 0,
   magB + nth i vecB 0 * nth i vecB 0).

Definition cosine_loop (vecA vecB : list R) : R * R * R :=
  fold_left (cosine_step vecA vecB) (seq 0 (length vecA)) (0, 0, 0).

(** [magnitude === 0] is the equality of real numbers.  In double
    arithmetic a sum of squares can overflow to [Infinity], and
    [0 * Infinity] is [NaN], which that test lets through; the model,
    exact on the reals, has no such values. *)
Definition cosineSimilarity (vecA vecB : list R) : Result R :=
  if Nat.eqb (length vecA) (length vecB) then
    let '(dotProduct, magA, magB) := cosine_loop vecA vecB in
    let magnitude := sqrt magA * sqrt magB in
    Ok (if Req_dec_T magnitude 0 then 0 else dotProduct / magnitude)
  else Throw "Vectors must have same length".

(** [Array.prototype.sort(compare)]: a stable sort; [compare a b > 0]
    moves [a] behind [b].  For a consistent comparator the language
    fixes the result, which is the one computed here by insertion. *)
Section ArraySort.
Context {A : Type} (compare : A -> A -> R).

Fixpoint sort_insert (x : A) (sorted : list A) : list A :=
  match sorted with
  | [] => [x]
  | y :: rest =>
      if Rlt_dec 0 (compare x y) then y :: sort_insert x rest
      else x :: y :: rest
  end.

Fixpoint Array_sort (l : list A) : list A :=
  match l with
  | [] => []
  | x :: rest => sort_insert x (Array_sort rest)
  end.
End ArraySort.

(** ** Data model *)

(** The JSON value stored under a key [doc:<id>]. *)
Record StoredVector := {
  vector : list R;
  metadata : gmap string string;
  timestamp : Z;
}.

(** An entry of the array returned by [queryTopK]:
    [{ id, score, metadata }]. *)
Record Hit := {
  hit_id : string;
  hit_score : R;
  hit_metadata : gmap string string;
}.

(** The document handed to [client.create] by [saveDocument]. *)
Record Document := {
  _type : string;
  title : option string;
  contentSnippet : option string;
  fullText : option string;
  source : option string;
  createdAt : string;
}.

(** A document of the dataset: the attributes plus the identifier that
    Sanity assigned. *)
Record SanityDoc := {
  _id : string;
  attributes : Document;
}.

(** The argument of [saveDocument]. *)
Record NewDocument := {
  new_title : string;
  new_contentSnippet : string;
  new_fullText : string;
  new_source : string;
}.

(** An entry of [contexts] in [queryKnowledge]: [{ text, score, title }]. *)
Record Context := {
  ctx_text : string;
  ctx_score : R;
  ctx_title : option string;
}.

Record UpsertResult := { upsert_id : string; upsert_key : string }.

Record IngestResult := { sanityId : string; redisId : string; ingest_title : string }.

Record QueryResult := { answer : string; contexts : list (string * R) }.

(** Calls to the collaborators, recorded in the order they are made. *)
Inductive Call : Type :=
| CallSaveDocument (doc : NewDocument)
| CallGetDocument (docId : string)
| CallCreateEmbedding (text : string)
| CallGenerateAnswer (prompt : string)
| CallUpsertVector (id : string) (vec : list R) (meta : gmap string string)
| CallQueryTopK (queryVector : list R) (k : nat)
| CallDeleteVector (id : string).

(** The state the backend acts on: the Redis database, the Sanity
    dataset, the clock read by [Date.now()], and the calls made so far. *)
Record World := {
  redis : gmap string StoredVector;
  sanity : gmap string SanityDoc;
  clock : Z;
  calls : list Call;
}.

(** What the process cannot decide: its configuration and the answers of
    the remote services. *)
Class Environment := {
  (** [process.env.LIGHTNING_API_KEY] *)
  LIGHTNING_API_KEY : option string;
  (** [POST /embeddings]: [data.data[0].embedding], or the failure. *)
  lightning_embeddings : string -> Result (list R);
  (** [POST /chat/completions]: [data.choices[0].message.content]. *)
  lightning_chat_completions : string -> Result string;
  (** [client.create]: the identifier Sanity assigns, or the failure. *)
  sanity_create : gmap string SanityDoc -> Document -> Result string;
  (** [client.getDocument]: a transport fault for this identifier. *)
  sanity_fault : string -> option string;
  (** [pdfParse(buffer)].text *)
  pdfParse : string -> Result string;
  (** [score.toFixed(3)] *)
  toFixed3 : R -> string;
  (** [new Date(ms).toISOString()] *)
  toISOString : Z -> string;
  (** capture group 1 of [/Question:\s*(.+?)(?:\n|$)/] *)
  match_question : string -> option string;
}.

(** [client.keys]: Redis lists every key of the database once, in an
    order of its own. *)
Class RedisServer := {
  KEYS : gmap string StoredVector -> list string;
  KEYS_NoDup : forall db, NoDup (KEYS db);
  KEYS_elem : forall db key, key ∈ KEYS db <-> is_Some (db !! key);
}.

(** ** Computations over the world *)

Definition M (A : Type) : Type := World -> Result A * World.

Definition ret {A} (a : A) : M A := fun w => (Ok a, w).

Definition throw {A} (message : string) : M A := fun w => (Throw message, w).

Definition bind {A B} (c : M A) (k : A -> M B) : M B :=
  fun w =>
    match c w with
    | (Ok a, w') => k a w'
    | (Throw m, w') => (Throw m, w')
    end.

(** [try { body } catch (error) { handler(error.message) }] *)
Definition try_catch {A} (body : M A) (handler : string -> M A) : M A :=
  fun w =>
    match body w with
    | (Ok a, w') => (Ok a, w')
    | (Throw m, w') => handler m w'
    end.

Definition lift {A} (r : Result A) : M A := fun w => (r, w).

Definition record_call (c : Call) : M unit :=
  fun w => (Ok tt, {| redis := redis w; sanity := sanity w; clock := clock w;
                      calls := calls w ++ [c] |}).

Definition Date_now : M Z := fun w => (Ok (clock w), w).

Notation "'do' x <- c ; k" := (bind c (fun x => k))
  (at level 10, x name, c at level 100, k at level 200).

(** ** [redisClient.js]: the vector index *)

(** [client.set(key, value)] *)
Definition client_set (key : string) (value : StoredVector) : M unit :=
  fun w => (Ok tt, {| redis := <[key := value]> (redis w); sanity := sanity w;
                      clock := clock w; calls := calls w |}).

(** [client.get(key)]: [null] for a missing key. *)
Definition client_get (key : string) : M (option StoredVector) :=
  fun w => (Ok (redis w !! key), w).

(** [client.del(key)] *)
Definition client_del (key : string) : M unit :=
  fun w => (Ok tt, {| redis := delete key (redis w); sanity := sanity w;
                      clock := clock w; calls := calls w |}).

(** [client.keys(prefix + '*')] *)
Definition client_keys {server : RedisServer} (prefix : string) : M (list string) :=
  fun w => (Ok (List.filter (String.prefix prefix) (KEYS (redis w))), w).

Definition upsertVector (id : string) (vec : list R) (meta : gmap string string)
  : M UpsertResult :=
  try_catch
    (do _ <- record_call (CallUpsertVector id vec meta);
     let key := "doc:" ++ id in
     do now <- Date_now;
     let value := {| vector := vec; metadata := meta; timestamp := now |} in
     do _ <- client_set key value;
     ret {| upsert_id := id; upsert_key := key |})
    (fun message => throw ("Failed to store vector: " ++ message)).

(** The comparator of [queryTopK]: [(a, b) => b.score - a.score]. *)
Definition by_score_desc (a b : Hit) : R := hit_score b - hit_score a.

(** The [for (const key of keys)] loop of [queryTopK]. *)
Fixpoint similarities_loop (queryVector : list R) (keys : list string)
    (similarities : list Hit) : M (list Hit) :=
  match keys with
  | [] => ret similarities
  | key :: rest =>
      do data <- client_get key;
      match data with
      | None => similarities_loop queryVector rest similarities
      | Some parsed =>
          do similarity <- lift (cosineSimilarity queryVector (vector parsed));
          similarities_loop queryVector rest
            (similarities ++ [{| hit_id := JS.replace "doc:" "" key;
                                 hit_score := similarity;
                                 hit_metadata := metadata parsed |}])
      end
  end.

Definition queryTopK {server : RedisServer} (queryVector : list R) (k : nat) : M (list Hit) :=
  try_catch
    (do _ <- record_call (CallQueryTopK queryVector k);
     do keys <- client_keys "doc:";
     if Nat.eqb (length keys) 0 then ret []
     else
       do similarities <- similarities_loop queryVector keys [];
       let sorted := Array_sort by_score_desc similarities in
       let topK := firstn k sorted in
       ret topK)
    (fun message => throw ("Failed to query vectors: " ++ message)).

Definition deleteVector (id : string) : M unit :=
  try_catch
    (do _ <- record_call (CallDeleteVector id);
     let key := "doc:" ++ id in
     client_del key)
    (fun message => throw ("Failed to delete vector: " ++ message)).

(** ** [sanityClient.js]: the document store *)

(** [client.create(document)] *)
Definition client_create {env : Environment} (document : Document) : M SanityDoc :=
  fun w =>
    match sanity_create (sanity w) document with
    | Throw m => (Throw m, w)
    | Ok id =>
        let result := {| _id := id; attributes := document |} in
        (Ok result, {| redis := redis w; sanity := <[id := result]> (sanity w);
                       clock := clock w; calls := calls w |})
    end.

(** [client.getDocument(docId)]: [undefined] for an unknown identifier. *)
Definition client_getDocument {env : Environment} (docId : string) : M (option SanityDoc) :=
  fun w =>
    match sanity_fault docId with
    | Some m => (Throw m, w)
    | None => (Ok (sanity w !! docId), w)
    end.

Definition saveDocument {env : Environment} (doc : NewDocument) : M SanityDoc :=
  try_catch
    (do _ <- record_call (CallSaveDocument doc);
     do now <- Date_now;
     let document :=
       {| _type := "researchDoc";
          title := Some (JS.or_else (new_title doc) "Untitled Document");
          contentSnippet := Some (new_contentSnippet doc);
          fullText := Some (new_fullText doc);
          source := Some (new_source doc);
          createdAt := toISOString now |} in
     do result <- client_create document;
     ret result)
    (fun message => throw ("Failed to save document to Sanity: " ++ message)).

Definition getDocument {env : Environment} (docId : string) : M (option SanityDoc) :=
  try_catch
    (do _ <- record_call (CallGetDocument docId);
     do doc <- client_getDocument docId;
     ret doc)
    (fun message => throw ("Failed to fetch document: " ++ message)).

(** ** [lightningClient.js]: embeddings and answers *)

(** [ToInt32]: the value of a bitwise operation, in [-2^31, 2^31). *)
Definition to_int32 (z : Z) : Z := ((z + 2 ^ 31) mod 2 ^ 32 - 2 ^ 31)%Z.

Definition charCode (c : ascii) : Z := Z.of_nat (nat_of_ascii c).

(** One round of the hash loop:
    [hash = ((hash << 5) - hash) + text.charCodeAt(i); hash = hash & hash]. *)
Definition hash_step (hash : Z) (c : ascii) : Z :=
  let hash := (to_int32 (Z.shiftl (to_int32 hash) 5) - hash + charCode c)%Z in
  to_int32 (Z.land (to_int32 hash) (to_int32 hash)).

Definition text_hash (text : string) : Z :=
  fold_left hash_step (list_ascii_of_string text) 0%Z.

(** [Math.sin(seed) * 0.5 + Math.cos(seed * 0.7) * 0.5] with
    [seed = hash + i]. *)
Definition mock_component (hash : Z) (i : nat) : R :=
  let seed := IZR (hash + Z.of_nat i) in
  sin seed * (5 / 10) + cos (seed * (7 / 10)) * (5 / 10).

Definition sum_of_squares (vec : list R) : R :=
  fold_left (fun sum val => sum + val * val) vec 0.

(** Exact on the reals; in double arithmetic the division by the
    magnitude gives a vector of norm 1 up to rounding. *)
Definition generateMockEmbedding (text : string) : list R :=
  let dimension := 384%nat in
  let hash := text_hash text in
  let vec := map (mock_component hash) (seq 0 dimension) in
  let magnitude := sqrt (sum_of_squares vec) in
  map (fun val => val / magnitude) vec.

Definition double_quote : string := String (ascii_of_nat 34) EmptyString.

Definition generateMockAnswer {env : Environment} (prompt : string) : string :=
  let question :=
    match match_question prompt with
    | Some q => q
    | None => "Unknown question"
    end in
  "Based on the provided contexts, I can answer your question about "
    ++ double_quote ++ question ++ double_quote ++ ". "
    ++ "[MOCK ANSWER] This is a demonstration response. In production, this would be generated by Lightning AI's LLM. "
    ++ "The system has successfully retrieved relevant context from the vector database and would use it to generate an accurate answer.".

(** [!LIGHTNING_API_KEY] *)
Definition api_key_missing {env : Environment} : bool :=
  match LIGHTNING_API_KEY with
  | None => true
  | Some key => negb (JS.truthy key)
  end.

Definition createEmbedding {env : Environment} (text : string) : M (list R) :=
  do _ <- record_call (CallCreateEmbedding text);
  try_catch
    (if api_key_missing then ret (generateMockEmbedding text)
     else
       do embedding <- lift (lightning_embeddings text);
       ret embedding)
    (fun _ => ret (generateMockEmbedding text)).

Definition generateAnswer {env : Environment} (prompt : string) : M string :=
  do _ <- record_call (CallGenerateAnswer prompt);
  try_catch
    (if api_key_missing then ret (generateMockAnswer prompt)
     else
       do content <- lift (lightning_chat_completions prompt);
       ret content)
    (fun _ => ret (generateMockAnswer prompt)).

(** ** [ingest.js]: the ingest pipeline *)

Definition ingest_metadata (title source snippet : string) : gmap string string :=
  <["title" := title]> (<["source" := source]> (<["snippet" := snippet]> ∅)).

Definition ingestDocument {env : Environment} (text source : string) : M IngestResult :=
  try_catch
    (let title := derive_title text in
     let contentSnippet := derive_snippet text in
     do sanityDoc <- saveDocument {| new_title := title;
                                     new_contentSnippet := contentSnippet;
                                     new_fullText := text;
                                     new_source := source |};
     do embedding <- createEmbedding text;
     do redisResult <- upsertVector (_id sanityDoc) embedding
                         (ingest_metadata title source contentSnippet);
     ret {| sanityId := _id sanityDoc;
            redisId := upsert_id redisResult;
            ingest_title := title |})
    (fun message => throw ("Failed to ingest document: " ++ message)).

(** ** [query.js]: the query pipeline *)

Definition nl : string := String newline EmptyString.

(** The context built from the fetched document. *)
Definition context_of_document (doc : Hit) (fullDoc : SanityDoc) : Context :=
  {| ctx_text :=
       JS.or_else
         (JS.or_default (contentSnippet (attributes fullDoc))
            (match fullText (attributes fullDoc) with
             | Some full => JS.substring0 500 full
             | None => ""
             end))
         "No content";
     ctx_score := hit_score doc;
     ctx_title := title (attributes fullDoc) |}.

(** The context built from the metadata stored with the vector. *)
Definition context_of_metadata (doc : Hit) : Context :=
  {| ctx_text := JS.or_default (hit_metadata doc !! "snippet") "Content unavailable";
     ctx_score := hit_score doc;
     ctx_title := Some (JS.or_default (hit_metadata doc !! "title") "Untitled") |}.

(** The [for (const doc of similarDocs)] loop of [queryKnowledge]. *)
Fixpoint contexts_loop {env : Environment} (similarDocs : list Hit) (acc : list Context)
  : M (list Context) :=
  match similarDocs with
  | [] => ret acc
  | doc :: rest =>
      do ctx <- try_catch
                  (do fullDoc <- getDocument (hit_id doc);
                   match fullDoc with
                   | Some found => ret (context_of_document doc found)
                   | None =>
                       throw "Cannot read properties of undefined (reading 'contentSnippet')"
                   end)
                  (fun _ => ret (context_of_metadata doc));
      contexts_loop rest (acc ++ [ctx])
  end.

Fixpoint context_lines {env : Environment} (idx : nat) (ctxs : list Context) : list string :=
  match ctxs with
  | [] => []
  | ctx :: rest =>
      ("Context " ++ JS.of_nat (idx + 1) ++ " (relevance: " ++ toFixed3 (ctx_score ctx)
         ++ "):" ++ nl ++ ctx_text ctx) :: context_lines (S idx) rest
  end.

(** [pieces.join(sep)] *)
Fixpoint join (sep : string) (pieces : list string) : string :=
  match pieces with
  | [] => ""
  | [piece] => piece
  | piece :: rest => piece ++ sep ++ join sep rest
  end.

Definition build_prompt {env : Environment} (ctxs : list Context) (question : string) : string :=
  let contextText := join (nl ++ nl) (context_lines 0 ctxs) in
  "You are a helpful research assistant. Answer the user's question based on the provided contexts."
    ++ nl ++ nl ++ "Context:" ++ nl ++ contextText ++ nl ++ nl
    ++ "Question: " ++ question ++ nl ++ nl
    ++ "Provide a clear, concise answer based on the contexts above. If the contexts don't contain enough information, say so.".

Definition no_documents_answer : string :=
  "No relevant documents found. Please ingest some documents first.".

Definition queryKnowledge {env : Environment} {server : RedisServer} (question : string) (topK : nat)
  : M QueryResult :=
  try_catch
    (do queryEmbedding <- createEmbedding question;
     do similarDocs <- queryTopK queryEmbedding topK;
     if Nat.eqb (length similarDocs) 0
     then ret {| answer := no_documents_answer; contexts := [] |}
     else
       do ctxs <- contexts_loop similarDocs [];
       let prompt := build_prompt ctxs question in
       do generated <- generateAnswer prompt;
       ret {| answer := generated;
              contexts := map (fun c => (ctx_text c, ctx_score c)) ctxs |})
    (fun message => throw ("Failed to process query: " ++ message)).

(** ** [server.js]: [POST /api/ingest] *)

Record UploadedFile := {
  originalname : string;
  mimetype : string;
  buffer : string;
}.

(** [req.file] and [req.body.text]. *)
Record IngestRequest := {
  req_file : option UploadedFile;
  req_text : option string;
}.

Inductive ResponseBody : Type :=
| ErrorBody (error : string)
| IngestSuccess (sanityId redisId message : string).

Record Response := { status : nat; body : ResponseBody }.

(** The first part of the handler: either a response sent early, or the
    [text] and [source] it goes on with.  [pdfParse] may throw. *)
Definition read_request {env : Environment} (req : IngestRequest)
  : Result (Response + string * string) :=
  match req_file req with
  | Some file =>
      let source := originalname file in
      if String.eqb (mimetype file) "application/pdf" then
        bind_result (pdfParse (buffer file)) (fun text => Ok (inr (text, source)))
      else if String.eqb (mimetype file) "text/plain" then
        Ok (inr (buffer file, source))
      else
        Ok (inl {| status := 400;
                   body := ErrorBody "Unsupported file type. Use PDF or TXT." |})
  | None =>
      match req_text req with
      | Some text =>
          if JS.truthy text then Ok (inr (text, "pasted_text"))
          else Ok (inl {| status := 400; body := ErrorBody "No file or text provided" |})
      | None => Ok (inl {| status := 400; body := ErrorBody "No file or text provided" |})
      end
  end.

Definition internal_error (message : string) : Response :=
  {| status := 500; body := ErrorBody (JS.or_else message "Failed to ingest document") |}.

Definition post_api_ingest {env : Environment} (req : IngestRequest) : World -> Response * World :=
  fun w =>
    match read_request req with
    | Throw message => (internal_error message, w)
    | Ok (inl early) => (early, w)
    | Ok (inr (text, source)) =>
        if negb (JS.truthy (JS.trim text))
        then ({| status := 400; body := ErrorBody "Empty content" |}, w)
        else
          match ingestDocument text source w with
          | (Ok result, w') =>
              ({| status := 200;
                  body := IngestSuccess (sanityId result) (redisId result)
                            "Document ingested and vectorized successfully" |}, w')
          | (Throw message, w') => (internal_error message, w')
          end
    end.

(** ** Notions used to state the properties *)

(** The dot product and the Euclidean norm of the mathematics. *)
Fixpoint dot (a b : list R) : R :=
  match a, b with
  | x :: a', y :: b' => x * y + dot a' b'
  | _, _ => 0
  end.

Definition norm (v : list R) : R := sqrt (dot v v).

(** Component-wise sum of the three accumulators of [cosine_loop]. *)
Definition triple_plus (p q : R * R * R) : R * R * R :=
  let '(a, b, c) := p in let '(x, y, z) := q in (a + x, b + y, c + z).

(** The keys that hold vector records. *)
Definition is_index_key (key : string) : bool := String.prefix "doc:" key.

(** The vector records of a database. *)
Definition vector_record (db : gmap string StoredVector) (key : string)
    (stored : StoredVector) : Prop :=
  db !! key = Some stored /\ is_index_key key = true.

(** The index holds at least one record and all its vectors have
    length [d]. *)
Definition established_dimension (db : gmap string StoredVector) (d : nat) : Prop :=
  (exists key stored, vector_record db key stored)
  /\ forall key stored, vector_record db key stored -> length (vector stored) = d.

(** Every vector of the index has the length of [q]. *)
Definition dimension_agrees (db : gmap string StoredVector) (q : list R) : Prop :=
  forall key stored, vector_record db key stored -> length (vector stored) = length q.

(** The hit that [queryTopK] builds for one key. *)
Definition hit_of (q : list R) (key : string) (stored : StoredVector) : Result Hit :=
  bind_result (cosineSimilarity q (vector stored))
    (fun similarity => Ok {| hit_id := JS.replace "doc:" "" key;
                             hit_score := similarity;
                             hit_metadata := metadata stored |}).

(** The hits of the keys, in the order of the keys. *)
Fixpoint scan (db : gmap string StoredVector) (q : list R) (keys : list string)
  : Result (list Hit) :=
  match keys with
  | [] => Ok []
  | key :: rest =>
      match db !! key with
      | None => scan db q rest
      | Some stored =>
          bind_result (hit_of q key stored)
            (fun hit => bind_result (scan db q rest) (fun hits => Ok (hit :: hits)))
      end
  end.

(** The keys of the index in the order Redis lists them. *)
Definition index_keys {server : RedisServer} (db : gmap string StoredVector) : list string :=
  List.filter is_index_key (KEYS db).

(** [a] has the score [s]. *)
Definition has_score (s : R) (a : Hit) : bool :=
  if Req_dec_T (hit_score a) s then true else false.

(** [a] may stand before [b] in a descending ranking. *)
Definition ranks_above (a b : Hit) : Prop := hit_score b <= hit_score a.

(** The world after a call was recorded. *)
Definition logged (c : Call) (w : World) : World :=
  {| redis := redis w; sanity := sanity w; clock := clock w; calls := calls w ++ [c] |}.

(** The world at another time. *)
Definition at_time (t : Z) (w : World) : World :=
  {| redis := redis w; sanity := sanity w; clock := t; calls := calls w |}.

(** The vector [createEmbedding] resolves to. *)
Definition embedding_of {env : Environment} (text : string) : list R :=
  if api_key_missing then generateMockEmbedding text
  else match lightning_embeddings text with
       | Ok embedding => embedding
       | Throw _ => generateMockEmbedding text
       end.

(** The document [saveDocument] hands to [client.create] at time [now]. *)
Definition document_of {env : Environment} (doc : NewDocument) (now : Z) : Document :=
  {| _type := "researchDoc";
     title := Some (JS.or_else (new_title doc) "Untitled Document");
     contentSnippet := Some (new_contentSnippet doc);
     fullText := Some (new_fullText doc);
     source := Some (new_source doc);
     createdAt := toISOString now |}.

(** The argument of [saveDocument] in [ingestDocument]. *)
Definition ingested_document (text source : string) : NewDocument :=
  {| new_title := derive_title text;
     new_contentSnippet := derive_snippet text;
     new_fullText := text;
     new_source := source |}.

(** The string [generateAnswer] resolves to. *)
Definition answer_of {env : Environment} (prompt : string) : string :=
  if api_key_missing then generateMockAnswer prompt
  else match lightning_chat_completions prompt with
       | Ok content => content
       | Throw _ => generateMockAnswer prompt
       end.

(** The world after several calls were recorded. *)
Definition logged_all (cs : list Call) (w : World) : World :=
  {| redis := redis w; sanity := sanity w; clock := clock w; calls := calls w ++ cs |}.

(** The context [queryKnowledge] builds for one hit in the world [w]. *)
Definition context_for {env : Environment} (w : World) (doc : Hit) : Context :=
  match sanity_fault (hit_id doc) with
  | Some _ => context_of_metadata doc
  | None =>
      match sanity w !! hit_id doc with
      | Some found => context_of_document doc found
      | None => context_of_metadata doc
      end
  end.

(** [getDocument(docId)] yields no document: a transport fault, or an
    identifier the dataset does not know. *)
Definition document_unavailable {env : Environment} (w : World) (docId : string) : Prop :=
  sanity_fault docId <> None \/ sanity w !! docId = None.

(** Every vector record is keyed by the identifier of a document of the
    dataset. *)
Definition index_joined (w : World) : Prop :=
  forall key stored, vector_record (redis w) key stored ->
    exists id, key = "doc:" ++ id /\ is_Some (sanity w !! id).

(** No character of [s] is a line feed. *)
Definition single_line (s : string) : Prop :=
  forall n, String.get n s <> Some newline.

(** Every character of [s] is white space. *)
Fixpoint blank (s : string) : bool :=
  match s with
  | EmptyString => true
  | String c rest => (JS.is_white_space c && blank rest)%bool
  end.

(** A Redis server that lists the keys in the order of the finite map. *)
Program Definition map_order_server : RedisServer :=
  {| KEYS := fun db => elements (dom db : gset string) |}.
Next Obligation. intros db. simpl. apply NoDup_elements. Qed.
Next Obligation.
  intros db key. etransitivity; [apply elem_of_elements | apply elem_of_dom].
Qed.

(** An environment without an API key, whose dataset names the new
    document ["d1"]. *)
Definition mock_environment : Environment :=
  {| LIGHTNING_API_KEY := None;
     lightning_embeddings := fun _ => Throw "fetch failed";
     lightning_chat_completions := fun _ => Throw "fetch failed";
     sanity_create := fun _ _ => Ok "d1";
     sanity_fault := fun _ => None;
     pdfParse := fun content => Ok content;
     toFixed3 := fun _ => "0.000";
     toISOString := fun _ => "1970-01-01T00:00:00.000Z";
     match_question := fun _ => None |}.

(** An environment with an API key whose provider answers every text
    with the same two-component embedding. *)
Definition remote_environment : Environment :=
  {| LIGHTNING_API_KEY := Some "key";
     lightning_embeddings := fun _ => Ok [1; 0];
     lightning_chat_completions := fun _ => Ok "answer";
     sanity_create := fun _ _ => Ok "d1";
     sanity_fault := fun _ => None;
     pdfParse := fun content => Ok content;
     toFixed3 := fun _ => "0.000";
     toISOString := fun _ => "1970-01-01T00:00:00.000Z";
     match_question := fun _ => None |}.

Definition empty_world : World :=
  {| redis := ∅; sanity := ∅; clock := 0; calls := [] |}.


(** ** Sample worlds *)

(** An index of two records: ["a"] along the first axis, ["b"] along the
    second. *)
Definition two_records : World :=
  snd (upsertVector "b" [0; 1] ∅ (snd (upsertVector "a" [1; 0] ∅ empty_world))).

(** ** Sample environments *)

(** An environment whose dataset refuses every new document. *)
Definition offline_environment : Environment :=
  {| LIGHTNING_API_KEY := None;
     lightning_embeddings := fun _ => Throw "fetch failed";
     lightning_chat_completions := fun _ => Throw "fetch failed";
     sanity_create := fun _ _ => Throw "network error";
     sanity_fault := fun _ => Some "network error";
     pdfParse := fun _ => Throw "Invalid PDF structure";
     toFixed3 := fun _ => "0.000";
     toISOString := fun _ => "1970-01-01T00:00:00.000Z";
     match_question := fun _ => None |}.

(** An environment with an API key whose provider fails on the text
    ["outage"] and answers every other text with a two-component
    embedding. *)
Definition flaky_environment : Environment :=
  {| LIGHTNING_API_KEY := Some "key";
     lightning_embeddings :=
       fun text => if String.eqb text "outage" then Throw "503" else Ok [1; 0];
     lightning_chat_completions := fun _ => Ok "answer";
     sanity_create := fun _ _ => Ok "d1";
     sanity_fault := fun _ => None;
     pdfParse := fun content => Ok content;
     toFixed3 := fun _ => "0.000";
     toISOString := fun _ => "1970-01-01T00:00:00.000Z";
     match_question := fun _ => None |}.

(** ** [server.js]: [POST /api/query] *)

(** The field [q] of the request body: a string, or a JSON value of
    another type. *)
Inductive BodyValue : Type :=
| BodyString (s : string)
| BodyOther.

Record QueryRequest := { req_q : option BodyValue }.

Inductive QueryResponseBody : Type :=
| QueryError (error : string)
| QueryAnswer (reply : string) (ctxs : list (string * R)).

Record QueryResponse := { query_status : nat; query_body : QueryResponseBody }.

Definition q_required : string :=
  "Query parameter " ++ double_quote ++ "q" ++ double_quote ++ " is required".

(** [!q || typeof q !== 'string' || !q.trim()] fails: the question the
    handler goes on with. *)
Definition accepted_question (req : QueryRequest) : option string :=
  match req_q req with
  | Some (BodyString q) =>
      if (JS.truthy q && JS.truthy (JS.trim q))%bool then Some q else None
  | Some BodyOther => None
  | None => None
  end.

Definition post_api_query {env : Environment} {server : RedisServer} (req : QueryRequest)
  : World -> QueryResponse * World :=
  fun w =>
    match accepted_question req with
    | None => ({| query_status := 400; query_body := QueryError q_required |}, w)
    | Some q =>
        match queryKnowledge (JS.trim q) 3 w with
        | (Ok result, w') =>
            ({| query_status := 200;
                query_body := QueryAnswer (answer result) (contexts result) |}, w')
        | (Throw message, w') =>
            ({| query_status := 500;
                query_body := QueryError (JS.or_else message "Failed to process query") |},
             w')
        end
    end.

(** ** [parallelClient.js] and [POST /api/parallel/start] *)

(** [process.env.PARALLEL_API_KEY], [process.env.PARALLEL_WORKFLOW_ID] *)
Class ParallelConfig := {
  PARALLEL_API_KEY : option string;
  PARALLEL_WORKFLOW_ID : option string;
}.

(** [!value] for a variable of the environment. *)
Definition unset (value : option string) : bool :=
  match value with
  | None => true
  | Some s => negb (JS.truthy s)
  end.

(** [`${n}`] for an integer. *)
Definition string_of_Z (z : Z) : string := NilZero.string_of_int (Z.to_int z).

(** The object [startParallelWorkflow] resolves to; [payload] and
    [timestamp] are there in the configured case only. *)
Record WorkflowStart := {
  workflowId : string;
  workflow_status : string;
  workflow_payload : option string;
  workflow_message : string;
  workflow_timestamp : option string;
}.

Definition startParallelWorkflow {cfg : ParallelConfig} {env : Environment}
    (payload : string) : M WorkflowStart :=
  try_catch
    (if unset PARALLEL_API_KEY then
       do now <- Date_now;
       ret {| workflowId := "mock-workflow-" ++ string_of_Z now;
              workflow_status := "started";
              workflow_payload := None;
              workflow_message := "Mock workflow started (Parallel API not configured)";
              workflow_timestamp := None |}
     else
       match PARALLEL_WORKFLOW_ID with
       | Some id =>
           if JS.truthy id then
             do now <- Date_now;
             ret {| workflowId := id;
                    workflow_status := "mock_started";
                    workflow_payload := Some payload;
                    workflow_message :=
                      "Workflow would start here with Parallel Web Agent API";
                    workflow_timestamp := Some (toISOString now) |}
           else throw "PARALLEL_WORKFLOW_ID not configured"
       | None => throw "PARALLEL_WORKFLOW_ID not configured"
       end)
    (fun message => throw ("Failed to start workflow: " ++ message)).

Record WorkflowStatus := {
  checked_workflowId : string;
  checked_status : string;
  checked_message : string;
}.

Definition checkWorkflowStatus {cfg : ParallelConfig} (id : string) : M WorkflowStatus :=
  try_catch
    (if unset PARALLEL_API_KEY then
       ret {| checked_workflowId := id;
              checked_status := "mock_completed";
              checked_message := "Mock status check (Parallel API not configured)" |}
     else
       ret {| checked_workflowId := id;
              checked_status := "unknown";
              checked_message := "Status check not yet implemented" |})
    (fun message => throw ("Failed to check status: " ++ message)).

Inductive ParallelResponseBody : Type :=
| ParallelError (error : string)
| ParallelStarted (started : WorkflowStart).

Record ParallelResponse := { parallel_status : nat; parallel_body : ParallelResponseBody }.

Definition post_api_parallel_start {cfg : ParallelConfig} {env : Environment}
    (body : string) : World -> ParallelResponse * World :=
  fun w =>
    match startParallelWorkflow body w with
    | (Ok result, w') =>
        ({| parallel_status := 200; parallel_body := ParallelStarted result |}, w')
    | (Throw message, w') =>
        ({| parallel_status := 500;
            parallel_body := ParallelError (JS.or_else message "Failed to start workflow") |},
         w')
    end.

(** A configuration with an API key and no workflow. *)
Definition key_without_workflow : ParallelConfig :=
  {| PARALLEL_API_KEY := Some "key"; PARALLEL_WORKFLOW_ID := None |}.

(** ** The polynomial behind the hash of [generateMockEmbedding] *)

(** [31^(n-1) c_1 + ... + 31 c_(n-1) + c_n], continued from [start],
    without wrap-around. *)
Definition polynomial31 (start : Z) (chars : list ascii) : Z :=
  fold_left (fun h c => (31 * h + charCode c)%Z) chars start.
(** ** A state with three records, and a store that fails for one *)

(** Three records under [a], [b] and [c]; the last two hold the same
    vector. *)
Definition three_records : World :=
  snd (upsertVector "c" [0; 1] (ingest_metadata "Title c" "notes.txt" "Snippet c")
         (snd (upsertVector "b" [0; 1] (ingest_metadata "Title b" "notes.txt" "Snippet b")
                 (snd (upsertVector "a" [1; 0] ∅ empty_world))))).

Definition stored_c : SanityDoc :=
  {| _id := "c";
     attributes := {| _type := "researchDoc";
                      title := Some "Stored title c";
                      contentSnippet := Some "Stored snippet c";
                      fullText := Some "Stored text c";
                      source := Some "notes.txt";
                      createdAt := "1970-01-01T00:00:00.000Z" |} |}.

(** The index of [three_records] beside a dataset that holds the
    document of [c] only. *)
Definition degraded_world : World :=
  {| redis := redis three_records; sanity := {[ "c" := stored_c ]}; clock := 0;
     calls := [] |}.

(** The three records as hits for the query [[0; 1]], in the order of
    a search on a server that lists the keys as [doc:c], [doc:a],
    [doc:b]. *)
Definition ranked_three : list Hit :=
  [ {| hit_id := "c"; hit_score := 1;
       hit_metadata := ingest_metadata "Title c" "notes.txt" "Snippet c" |};
    {| hit_id := "b"; hit_score := 1;
       hit_metadata := ingest_metadata "Title b" "notes.txt" "Snippet b" |};
    {| hit_id := "a"; hit_score := 0; hit_metadata := ∅ |} ].

(** An environment whose provider embeds every text as [[0; 1]], whose
    document store fails for the identifier [b], and whose number
    formatter tells the score 1 from the others. *)
Definition degraded_environment : Environment :=
  {| LIGHTNING_API_KEY := Some "key";
     lightning_embeddings := fun _ => Ok [0; 1];
     lightning_chat_completions := fun _ => Ok "answer";
     sanity_create := fun _ _ => Ok "d1";
     sanity_fault := fun id => if String.eqb id "b" then Some "timeout" else None;
     pdfParse := fun content => Ok content;
     toFixed3 := fun score => if Req_dec_T score 1 then "1.000" else "0.000";
     toISOString := fun _ => "1970-01-01T00:00:00.000Z";
     match_question := fun _ => None |}.

(** * Double precision

    The two functions that compute scores and components, over the
    binary64 numbers that JavaScript computes with: every operation
    rounds to nearest, a sum of squares can overflow to [Infinity], and
    [0 * Infinity] is [NaN].  A decimal literal stands for the nearest
    double, as it does in the source. *)

#[local] Set Warnings "-inexact-float".

Module Double.

(** An integer as a number; exact below [2^53]. *)
Fixpoint of_positive (p : positive) : float :=
  match p with
  | xH => 1%float
  | xO q => (2 * of_positive q)%float
  | xI q => (2 * of_positive q + 1)%float
  end.

Definition of_Z (z : Z) : float :=
  match z with
  | Z0 => 0%float
  | Zpos p => of_positive p
  | Zneg p => (- of_positive p)%float
  end.

(** [vec[i]]; outside the array it is [undefined], which arithmetic
    turns into [NaN]. *)
Definition at_index (vec : list float) (i : nat) : float := nth i vec nan.

(** ** [redisClient.js]: cosine similarity *)

Definition cosine_step (vecA vecB : list float) (acc : float * float * float) (i : nat)
  : float * float * float :=
  let '(dotProduct, magA, magB) := acc in
  ((dotProduct + at_index vecA i * at_index vecB i)%float,
   (magA + at_index vecA i * at_index vecA i)%float,
   (magB + at_index vecB i * at_index vecB i)%float).

Definition cosine_loop (vecA vecB : list float) : float * float * float :=
  fold_left (cosine_step vecA vecB) (seq 0 (length vecA)) (0%float, 0%float, 0%float).

(** [magnitude === 0] is the comparison of doubles: [NaN] equals
    nothing, and [-0] equals [0]. *)
Definition cosineSimilarity (vecA vecB : list float) : Result float :=
  if Nat.eqb (length vecA) (length vecB) then
    let '(dotProduct, magA, magB) := cosine_loop vecA vecB in
    let magnitude := (PrimFloat.sqrt magA * PrimFloat.sqrt magB)%float in
    Ok (if PrimFloat.eqb magnitude 0%float then 0%float
        else (dotProduct / magnitude)%float)
  else Throw "Vectors must have same length".

(** ** [lightningClient.js]: the mock embedding *)

(** [Math.sin] and [Math.cos]: the language leaves their values to the
    engine. *)
Class MathLibrary := {
  Math_sin : float -> float;
  Math_cos : float -> float;
}.

(** [Math.sin(seed) * 0.5 + Math.cos(seed * 0.7) * 0.5] with
    [seed = hash + i]. *)
Definition mock_component {math : MathLibrary} (hash : Z) (i : nat) : float :=
  let seed := of_Z (hash + Z.of_nat i) in
  (Math_sin seed * 0.5 + Math_cos (seed * 0.7) * 0.5)%float.

Definition sum_of_squares (vec : list float) : float :=
  fold_left (fun sum val => (sum + val * val)%float) vec 0%float.

Definition generateMockEmbedding {math : MathLibrary} (text : string) : list float :=
  let dimension := 384%nat in
  let hash := text_hash text in
  let vec := map (mock_component hash) (seq 0 dimension) in
  let magnitude := PrimFloat.sqrt (sum_of_squares vec) in
  map (fun val => (val / magnitude)%float) vec.

(** ** A math library for one text

    The text ["a"] has the hash 97, so its embedding asks for the sine
    of the integers from 97 to 480 and for the cosine of their products
    with 0.7.  Each row holds such an integer with the double nearest to
    its sine and the double nearest to that cosine. *)
Definition sines_and_cosines : list (Z * float * float) :=
  [
   (97%Z, 0x1.84b7e421ba11dp-2, 0x1.64a9013f86283p-2);
   (98%Z, (-0x1.25924f08a2e14p-1), 0x1.bd9487ab8ab2ep-1);
   (99%Z, (-0x1.ff9809c58a487p-1), 0x1.f7445870fc771p-1);
   (100%Z, (-0x1.03425b78c4db8p-1), 0x1.44426a225e6efp-1);
   (101%Z, 0x1.cedfd91384c8bp-2, (-0x1.d027206c2c131p-7));
   (102%Z, 0x1.fd59efec23502p-1, (-0x1.4f5a71a7ab013p-1));
   (103%Z, 0x1.3ef85daba63d3p-1, (-0x1.f9bb78a8fe512p-1));
   (104%Z, (-0x1.4957621cf9da7p-2), (-0x1.b641ec8771a01p-1));
   (105%Z, (-0x1.f0ea002cd0aeep-1), (-0x1.4953a460378b4p-2));
   (106%Z, (-0x1.744c0592c2045p-1), 0x1.74bfc3deb132bp-2);
   (107%Z, 0x1.7a6ed9ee49821p-3, 0x1.c1c1f139178e9p-1);
   (108%Z, 0x1.da87f48431a81p-1, 0x1.f59cd42348acfp-1);
   (109%Z, 0x1.a22c1641816b9p-1, 0x1.3d8d27bcb4e4fp-1);
   (110%Z, (-0x1.6a6f9eeecf8cdp-5), (-0x1.fb7eb311ccfefp-6));
   (111%Z, (-0x1.baa67ccafbe5cp-1), (-0x1.55cf9c92e026cp-1));
   (112%Z, (-0x1.c7ad80fcadb94p-1), (-0x1.fb00f2b34e60bp-1));
   (113%Z, (-0x1.8e0e9d393042cp-4), (-0x1.b1bea2088b705p-1));
   (114%Z, 0x1.91e8f312c6732p-1, (-0x1.38fa3a3bd4f24p-2));
   (115%Z, 0x1.e41019a03d0b0p-1, 0x1.84bb8be4dc5fep-2);
   (116%Z, 0x1.e4aeba85cd9e8p-3, 0x1.c5cecd4d5c732p-1);
   (117%Z, (-0x1.612016a8df401p-1), 0x1.f3d1018c6d4b3p-1);
   (118%Z, (-0x1.f6c26f488fab2p-1), 0x1.36c0e97d754a0p-1);
   (119%Z, (-0x1.7c515b551b824p-2), (-0x1.87628d532e044p-5));
   (120%Z, 0x1.2945de7fc4772p-1, (-0x1.5c2c0a241e522p-1));
   (121%Z, 0x1.ff64b589de8c6p-1, (-0x1.fc21ba907ddf0p-1));
   (122%Z, 0x1.feaea93847b55p-2, (-0x1.ad1bf2c3b23a3p-1));
   (123%Z, (-0x1.d6f0f0cf4fe86p-2), (-0x1.288a28fdc2b1ep-2));
   (124%Z, (-0x1.fdcaaf4b7bce1p-1), 0x1.949b312a2eb7fp-2);
   (125%Z, (-0x1.3b69a7b274c9dp-1), 0x1.c9bad0dc9231ep-1);
   (126%Z, 0x1.51e91d70fee7cp-2, 0x1.f1e101f461cf1p-1);
   (127%Z, 0x1.f1fc9173d3292p-1, 0x1.2fde2d5942fa5p-1);
   (128%Z, 0x1.712bdad393474p-1, (-0x1.0874b69bb904fp-4));
   (129%Z, (-0x1.8c3bc71b9c7c4p-3), (-0x1.626f447e8f6a0p-1));
   (130%Z, (-0x1.dc36d8dbbbfabp-1), (-0x1.fd1dbb59c94f5p-1));
   (131%Z, (-0x1.9f8a7aaa26609p-1), (-0x1.a85a349cc1492p-1));
   (132%Z, 0x1.b2dc59d7e4da5p-5, (-0x1.1804a1387de3ep-2));
   (133%Z, 0x1.bce91460916f2p-1, 0x1.a45d8d9021e5ep-2);
   (134%Z, 0x1.c597f002d2105p-1, 0x1.cd85b33b8972dp-1);
   (135%Z, 0x1.69f5488cea313p-4, 0x1.efccf941691d8p-1);
   (136%Z, (-0x1.94b3a949182c8p-1), 0x1.28e572e580433p-1);
   (137%Z, (-0x1.e291412cab80ap-1), (-0x1.4d25028011cbbp-4));
   (138%Z, (-0x1.d30d1022ae4b1p-3), (-0x1.6898d7984abbcp-1));
   (139%Z, 0x1.64649d6e02e50p-1, (-0x1.fdf4e2d1df66bp-1));
   (140%Z, 0x1.f5e1f8ff139e2p-1, (-0x1.a379bfb70c4f7p-1));
   (141%Z, 0x1.73e331c47cbcep-2, (-0x1.076ad50c32b65p-2));
   (142%Z, (-0x1.2cf37799127b4p-1), 0x1.b4017d16cbaa0p-2);
   (143%Z, (-0x1.ff271f8622330p-1), 0x1.d12f2e24ed41ap-1);
   (144%Z, (-0x1.f6ce5d5db1e36p-2), 0x1.ed950df5785eap-1);
   (145%Z, 0x1.def89677625fcp-2, 0x1.21d73b4f12639p-1);
   (146%Z, 0x1.fe31351c0f73dp-1, (-0x1.91bd319e82071p-4));
   (147%Z, 0x1.37d49e37a0480p-1, (-0x1.6ea85142baf35p-1));
   (148%Z, (-0x1.5a7411bf11dbbp-2), (-0x1.fea7216633060p-1));
   (149%Z, (-0x1.f30525c9501c8p-1), (-0x1.9e7aee6efe60cp-1));
   (150%Z, (-0x1.6e04488be0841p-1), (-0x1.ed7bf021286cep-3));
   (151%Z, 0x1.9e00c1cc9067dp-3, 0x1.c385ddf200511p-2);
   (152%Z, 0x1.dddc300c5fb86p-1, 0x1.d4b6fdbe5907bp-1);
   (153%Z, 0x1.9ce08973cfeefp-1, 0x1.eb39692b6d71dp-1);
   (154%Z, (-0x1.fb405bef1b165p-5), 0x1.1ab40951082f2p-1);
   (155%Z, (-0x1.bf22bf8a71ad8p-1), (-0x1.d6384cfdb0ce2p-4));
   (156%Z, (-0x1.c3794607d9c26p-1), (-0x1.749d4132e1c89p-1));
   (157%Z, (-0x1.45d4b16176506p-4), (-0x1.ff346a301bc08p-1));
   (158%Z, 0x1.97764187e888ap-1, (-0x1.995e1d538f8e9p-1));
   (159%Z, 0x1.e108baf34f306p-1, (-0x1.cbfe7e7d32776p-3));
   (160%Z, 0x1.c16207a53bc04p-3, 0x1.d2e9909e4c5d2p-2);
   (161%Z, (-0x1.67a1fe47056bfp-1), 0x1.d81ce09d41ccbp-1);
   (162%Z, (-0x1.f4f771c2d5a77p-1), 0x1.e8ba369415552p-1);
   (163%Z, (-0x1.6b6d92b916200p-2), 0x1.137c612b239e0p-1);
   (164%Z, 0x1.309b0771db310p-1, (-0x1.0d48afdf8421ap-3));
   (165%Z, 0x1.fedf48f68cd3dp-1, (-0x1.7a77390978a79p-1));
   (166%Z, 0x1.eee3fbd2950e2p-2, (-0x1.ff9cb2f5c4e6ep-1));
   (167%Z, (-0x1.e6f6a0d0e2cf4p-2), (-0x1.9423ab1f91fabp-1));
   (168%Z, (-0x1.fe8d7f4f7578cp-1), (-0x1.aa5fc1b43e4c1p-3));
   (169%Z, (-0x1.3439539fbe478p-1), 0x1.e22b77f5c3951p-2);
   (170%Z, 0x1.62f8132a24d0cp-2, 0x1.db6097cbb24c1p-1);
   (171%Z, 0x1.f403b7dec79d0p-1, 0x1.e617a473029a4p-1);
   (172%Z, 0x1.6ad55eee30699p-1, 0x1.0c30c898477c2p-1);
   (173%Z, (-0x1.afbd6ec420391p-3), (-0x1.2f61bbbd46db9p-3));
   (174%Z, (-0x1.df77f1a2b68e6p-1), (-0x1.8035cc5aedc60p-1));
   (175%Z, (-0x1.9a2e504bf7bfbp-1), (-0x1.ffdff42aeb00cp-1));
   (176%Z, 0x1.21cd18c157dfep-4, (-0x1.8ecbf8b2d697ep-1));
   (177%Z, 0x1.c15372db9cd26p-1, (-0x1.88a228b6ea87bp-3));
   (178%Z, 0x1.c1518dee1c716p-1, 0x1.f14a7944a4cf2p-2);
   (179%Z, 0x1.21ad91364ca2ep-4, 0x1.de81e6ccd98ecp-1);
   (180%Z, (-0x1.9a30ada329793p-1), 0x1.e351e39b342f3p-1);
   (181%Z, (-0x1.df768ed398ee2p-1), 0x1.04d1c6c4c986cp-1);
   (182%Z, (-0x1.afadfbc5423d4p-3), (-0x1.5164d24d44d50p-3));
   (183%Z, 0x1.6ad82891681acp-1, (-0x1.85d890b73cf42p-1));
   (184%Z, 0x1.f402de4809008p-1, (-0x1.fffe28f167a74p-1));
   (185%Z, 0x1.62f0a9a26c61cp-2, (-0x1.8957690b2a2d9p-1));
   (186%Z, (-0x1.343c7b466b0d9p-1), (-0x1.66c824b1a32ecp-3));
   (187%Z, (-0x1.fe8d334bf9ec5p-1), 0x1.0022be2ee7f40p-1);
   (188%Z, (-0x1.e6efad3b85db4p-2), 0x1.e18093a16ba26p-1);
   (189%Z, 0x1.eeeae6d24b4edp-2, 0x1.e069276b8cb6ep-1);
   (190%Z, 0x1.fedf8c0bcfa6ap-1, 0x1.fabfc8895398ep-2);
   (191%Z, 0x1.3097da6f815cbp-1, (-0x1.734f7d5b7e62dp-3));
   (192%Z, (-0x1.6b74f5f8d7afbp-2), (-0x1.8b5f1db1a3e0ap-1));
   (193%Z, (-0x1.f4f842991dc71p-1), (-0x1.fff74f198bb64p-1));
   (194%Z, (-0x1.679f2e52bb37fp-1), (-0x1.83c6613d2b3fep-1));
   (195%Z, 0x1.c17172efe98e7p-3, (-0x1.44d428df61d4cp-3));
   (196%Z, 0x1.e10a155c90578p-1, 0x1.078db5d78670ap-1);
   (197%Z, 0x1.9773dd0a9c774p-1, 0x1.e45c66cbd4476p-1);
   (198%Z, (-0x1.45f4338a8eb02p-4), 0x1.dd5da5cb1aafep-1);
   (199%Z, (-0x1.c37b23151f3a8p-1), 0x1.ebb75613605ccp-2);
   (200%Z, (-0x1.bf20d2c67047fp-1), (-0x1.951f48786cf83p-3));
   (201%Z, (-0x1.fb014358e6928p-5), (-0x1.90c90ce830fb5p-1));
   (202%Z, 0x1.9ce2df98c327dp-1, (-0x1.ffcb672247cfbp-1));
   (203%Z, 0x1.dddac4de83690p-1, (-0x1.7e19486cf8f07p-1));
   (204%Z, 0x1.9df14768d56aap-3, (-0x1.22c8aa5c4864ep-3));
   (205%Z, (-0x1.6e070bcfb57afp-1), 0x1.0ee59a2a91c52p-1);
   (206%Z, (-0x1.f3044376783c7p-1), 0x1.e7152b543b1e9p-1);
   (207%Z, (-0x1.5a6ca215718a4p-2), 0x1.da2f972531c2ap-1);
   (208%Z, 0x1.37d7c0726d105p-1, 0x1.dc8b4cb2e042ap-2);
   (209%Z, 0x1.fe30e02be179ap-1, (-0x1.b6d1c1267eb44p-3));
   (210%Z, 0x1.def19a70101a7p-2, (-0x1.9615fa0b2c533p-1));
   (211%Z, (-0x1.f6d53fa43c22cp-2), (-0x1.ff7a74392329bp-1));
   (212%Z, (-0x1.ff2759abd3daep-1), (-0x1.785087c6bc36dp-1));
   (213%Z, (-0x1.2cf0454b5a0afp-1), (-0x1.00a81ff8171dcp-3));
   (214%Z, 0x1.73ea8e9658b0ap-2, 0x1.1629e317e0041p-1);
   (215%Z, 0x1.f5e2c110b4f77p-1, 0x1.e9aaaecc59043p-1);
   (216%Z, 0x1.6461c73716d4cp-1, 0x1.d6df3665553ffp-1);
   (217%Z, (-0x1.d31c736a004d8p-3), 0x1.cd3cc58669188p-2);
   (218%Z, (-0x1.e29293291d834p-1), (-0x1.d86477076fdadp-3));
   (219%Z, (-0x1.94b13db1faa0ep-1), (-0x1.9b4582e45a580p-1));
   (220%Z, 0x1.6a14c4b2477e7p-4, (-0x1.ff047c3a00aedp-1));
   (221%Z, 0x1.c599c5264b2bap-1, (-0x1.726c8a770ad3cp-1));
   (222%Z, 0x1.bce71fcff127ep-1, (-0x1.bcea04110c77ap-4));
   (223%Z, 0x1.b29d39058ac55p-5, 0x1.1d5a09fa92eefp-1);
   (224%Z, (-0x1.9f8cc990dbe32p-1), 0x1.ec1cc1531e8a8p-1);
   (225%Z, (-0x1.dc35655669c07p-1), 0x1.d36cc0f2f48f6p-1);
   (226%Z, (-0x1.8c2c45a27da12p-3), 0x1.bdccdc2ba5df9p-2);
   (227%Z, 0x1.712e97a9d604cp-1, (-0x1.f9d4fc0979cc2p-3));
   (228%Z, 0x1.f1fba6696c181p-1, (-0x1.a057475e17b5ap-1));
   (229%Z, 0x1.51e1a7cba52d9p-2, (-0x1.fe6987aeb26f5p-1));
   (230%Z, (-0x1.3b6cc4714a7b3p-1), (-0x1.6c6dbda325cc5p-1));
   (231%Z, (-0x1.fdca51704f850p-1), (-0x1.78639476ff283p-4));
   (232%Z, (-0x1.d6e9ec79e510ap-2), 0x1.247589a2d6553p-1);
   (233%Z, 0x1.feb582a24d6f9p-2, 0x1.ee6b35982b2adp-1);
   (234%Z, 0x1.ff64e6bed479ep-1, 0x1.cfd876acf9601p-1);
   (235%Z, 0x1.2942a6f7170c8p-1, 0x1.ae3caeaad0826p-2);
   (236%Z, (-0x1.7c58b19344206p-2), (-0x1.0d90724a2d96ap-2));
   (237%Z, (-0x1.f6c32e9186fa0p-1), (-0x1.a54ae98a4d666p-1));
   (238%Z, (-0x1.611d3a3de21eep-1), (-0x1.fda9a1ce5b67cp-1));
   (239%Z, 0x1.e4be157ac15c2p-3, (-0x1.6654906112f47p-1));
   (240%Z, 0x1.e4116329187fdp-1, (-0x1.33c1e6d285fb5p-4));
   (241%Z, 0x1.91e6806e44c08p-1, 0x1.2b7bde5f844a5p-1);
   (242%Z, (-0x1.8e2e12b9292a3p-4), 0x1.f095e0df14c3bp-1);
   (243%Z, (-0x1.c7af4e2cf1a57p-1), 0x1.cc2299e52820fp-1);
   (244%Z, (-0x1.baa48077c6eb5p-1), 0x1.9e8d5d61fdaa4p-2);
   (245%Z, (-0x1.6a30772472a79p-5), (-0x1.1e22e3db17478p-2));
   (246%Z, 0x1.a22e5dde1f32ep-1, (-0x1.aa200da93d67ap-1));
   (247%Z, 0x1.da8678aedd1bbp-1, (-0x1.fcc4d87c9fbabp-1));
   (248%Z, 0x1.7a5f51af644b5p-3, (-0x1.602173af92817p-1));
   (249%Z, (-0x1.744ebbed640abp-1), (-0x1.de13e599caa06p-5));
   (250%Z, (-0x1.f0e90c6f91418p-1), 0x1.326c8607ace1bp-1);
   (251%Z, (-0x1.494fe6a233e9ep-2), 0x1.f29c9b027f93fp-1);
   (252%Z, 0x1.3efb74de89e71p-1, 0x1.c84b6f5b535dbp-1);
   (253%Z, 0x1.fd598927daa14p-1, 0x1.8ec00af03d4bap-2);
   (254%Z, 0x1.ced8cc9408c1cp-2, (-0x1.2ea09fa80935bp-2));
   (255%Z, (-0x1.0345c3adeff43p-1), (-0x1.aed65a3026791p-1));
   (256%Z, (-0x1.ff983208c7d3bp-1), (-0x1.fbbb3c48a34c1p-1));
   (257%Z, (-0x1.258f125584f8cp-1), (-0x1.59d4da6df1af0p-1));
   (258%Z, 0x1.84bf33a683659p-2, (-0x1.5481635834b03p-5));
   (259%Z, 0x1.f799869b3d2ffp-1, 0x1.39470004020c0p-1);
   (260%Z, 0x1.5dd1982e6f843p-1, 0x1.f47f3e7705f96p-1);
   (261%Z, (-0x1.f655fe9aa46b4p-3), 0x1.c4533e3861b02p-1);
   (262%Z, (-0x1.e5867daeee25bp-1), 0x1.7ed5dc2092944p-2);
   (263%Z, (-0x1.8f13b3955a8dep-1), (-0x1.3f0874214e649p-2));
   (264%Z, 0x1.b23f644524624p-4, (-0x1.b36d77cfbf546p-1));
   (265%Z, 0x1.c9bbb3759a433p-1, (-0x1.fa8ce06bd6f99p-1));
   (266%Z, 0x1.b8590058eab96p-1, (-0x1.536f3953b9f14p-1));
   (267%Z, 0x1.21bc71944d103p-5, (-0x1.95ac77dad9598p-6));
   (268%Z, (-0x1.a4c78efe04119p-1), 0x1.400acd582660cp-1);
   (269%Z, (-0x1.d8ce078c79454p-1), 0x1.f63da84df0255p-1);
   (270%Z, (-0x1.688ac6f57f6d0p-3), 0x1.c03a5009276fdp-1);
   (271%Z, 0x1.7767688dfee39p-1, 0x1.6ecff7d4c1e50p-2);
   (272%Z, 0x1.efcc7b0add184p-1, (-0x1.4f59314d0a780p-2));
   (273%Z, 0x1.40b78a99162eap-2, (-0x1.b7e5117a8884fp-1));
   (274%Z, (-0x1.4283bf762db42p-1), (-0x1.f939dac89462ap-1));
   (275%Z, (-0x1.fcde8995995b5p-1), (-0x1.4cf106e83ea56p-1));
   (276%Z, (-0x1.c6be6429fe3dap-2), (-0x1.047198bcd97dcp-7));
   (277%Z, 0x1.072b92ca76395p-1, 0x1.46b770abddaa9p-1);
   (278%Z, 0x1.ffc13a824e7adp-1, 0x1.f7d7b837bb678p-1);
   (279%Z, 0x1.21d59a680d4c0p-1, 0x1.bc00f0b913d20p-1);
   (280%Z, (-0x1.8d1de9ae2b417p-2), 0x1.5eaf86eff9d09p-2);
   (281%Z, (-0x1.f865c4e147ac8p-1), (-0x1.5f91a8dd3af90p-2));
   (282%Z, (-0x1.5a7ef1f46edb7p-1), (-0x1.bc3cd46af4198p-1));
   (283%Z, 0x1.03f1ea3a0665dp-2, (-0x1.f7c243e88862ep-1));
   (284%Z, 0x1.e6f1db3ee5242p-1, (-0x1.465abb7a08be0p-1));
   (285%Z, 0x1.8c38e5a67f594p-1, 0x1.228897f2887a2p-7);
   (286%Z, (-0x1.d64800252b588p-4), 0x1.4d4c6e541fc8ep-1);
   (287%Z, (-0x1.cbbeea7bba2d9p-1), 0x1.f94d508670c52p-1);
   (288%Z, (-0x1.b604ab3beb6f6p-1), 0x1.b7a76e8cb21d6p-1);
   (289%Z, (-0x1.b28538b22aff8p-6), 0x1.4e75b44155cb4p-2);
   (290%Z, 0x1.a7584f99124afp-1, (-0x1.6fb0ae4597d9ap-2));
   (291%Z, 0x1.d70c1ac4b849bp-1, (-0x1.c074702963901p-1));
   (292%Z, 0x1.56af0101bc58fp-3, (-0x1.f62636faec7bfp-1));
   (293%Z, (-0x1.7a788da59d510p-1), (-0x1.3facd11621791p-1));
   (294%Z, (-0x1.eea5f7f071655p-1), 0x1.a4b6e0b1fe0a4p-6);
   (295%Z, (-0x1.3818bfd22e510p-2), 0x1.53c94c5c0bc4ap-1);
   (296%Z, 0x1.4605921511d2bp-1, 0x1.fa9e562fcafe1p-1);
   (297%Z, 0x1.fc595531169cdp-1, 0x1.b32e1a1bffac5p-1);
   (298%Z, 0x1.be9adcd6f2f33p-2, 0x1.3e23ac6e3d3bdp-2);
   (299%Z, (-0x1.0b0c1aa3695e4p-1), (-0x1.7fb516d1549d0p-2));
   (300%Z, (-0x1.ffdfff58b88ccp-1), (-0x1.c48b9691fa932p-1));
   (301%Z, (-0x1.1e16524e54d16p-1), (-0x1.f465d1d28f0dcp-1));
   (302%Z, 0x1.9574a8b05946fp-2, (-0x1.38e7c37f3d409p-1));
   (303%Z, 0x1.f927e54af347dp-1, 0x1.5c05810a2dd12p-5);
   (304%Z, 0x1.5725589f96825p-1, 0x1.5a2d928dbbac7p-1);
   (305%Z, (-0x1.0cb39e728ca0bp-2), 0x1.fbcab0cf2b7e8p-1);
   (306%Z, (-0x1.e853748f446d5p-1), 0x1.ae95464c965e0p-1);
   (307%Z, (-0x1.8956254a0f9b9p-1), 0x1.2dba9ddca1b1bp-2);
   (308%Z, 0x1.fa472d54e8a28p-4, (-0x1.8f9db9b8bf5bep-2));
   (309%Z, 0x1.cdb8e8e9ea1c0p-1, (-0x1.c881fbda46eaap-1));
   (310%Z, 0x1.b3a78d16b1200p-1, (-0x1.f28134e3aad2ap-1));
   (311%Z, 0x1.2188d7293bfb3p-6, (-0x1.320c1024c624cp-1));
   (312%Z, (-0x1.a9e0928326fc6p-1), 0x1.e596614e932b4p-5);
   (313%Z, (-0x1.d540bb5dc51c4p-1), 0x1.6078ca7af812fp-1);
   (314%Z, (-0x1.44cc5b86299e5p-3), 0x1.fcd24aa75e61ap-1);
   (315%Z, 0x1.7d821b74df21ap-1, 0x1.a9dd484bacd50p-1);
   (316%Z, 0x1.ed7589087f0d1p-1, 0x1.1d3bb89d1addfp-2);
   (317%Z, 0x1.2f73b29065f23p-2, (-0x1.9f697036baefcp-2));
   (318%Z, (-0x1.4980dab948e40p-1), (-0x1.cc575696bce18p-1));
   (319%Z, (-0x1.fbc9eea645013p-1), (-0x1.f07883418d820p-1));
   (320%Z, (-0x1.b66e6064e90fdp-2), (-0x1.2b1a3619c808ep-1));
   (321%Z, 0x1.0ee7475093608p-1, 0x1.37820e1ba8b14p-4);
   (322%Z, 0x1.fff47fee09eb8p-1, 0x1.66aa7f85ca1cbp-1);
   (323%Z, 0x1.1a514d45d9720p-1, 0x1.fdb510a42d430p-1);
   (324%Z, (-0x1.9dc345dc1084fp-2), 0x1.a5067787ec266p-1);
   (325%Z, (-0x1.f9dfe3f37ea7cp-1), 0x1.0ca82e54e5918p-2);
   (326%Z, (-0x1.53c4dd634bc3bp-1), (-0x1.af17159e159cap-2));
   (327%Z, 0x1.156fef00b9673p-2, (-0x1.d00b5fc00775ep-1));
   (328%Z, 0x1.e9ab428878a21p-1, (-0x1.ee4be29c0ddc4p-1));
   (329%Z, 0x1.866b815135b3dp-1, (-0x1.2412b60bbdf4fp-1));
   (330%Z, (-0x1.0f1e19803a9a4p-3), 0x1.7c225fb05e914p-4);
   (331%Z, (-0x1.cfa9a49a1b638p-1), 0x1.6cc23ee8eca43p-1);
   (332%Z, (-0x1.b141b20c3faa2p-1), 0x1.fe72f25bc0b45p-1);
   (333%Z, (-0x1.210d4dfc616d7p-7), 0x1.a0112dab1bba1p-1);
   (334%Z, 0x1.ac604abbb837ep-1, 0x1.f802644f87117p-3);
   (335%Z, 0x1.d36bf28e4d40fp-1, (-0x1.bea5876eb718cp-2));
   (336%Z, 0x1.32e332582037fp-3, (-0x1.d39dd2b82ca53p-1));
   (337%Z, (-0x1.808402635e0c1p-1), (-0x1.ebfb7b3cd17a5p-1));
   (338%Z, (-0x1.ec3b346e27bb1p-1), (-0x1.1cf6123941af2p-1));
   (339%Z, (-0x1.26c88f36cabc4p-2), 0x1.c0a72dd559802p-4);
   (340%Z, 0x1.4cf5878278afep-1, 0x1.72bf97c01a6e0p-1);
   (341%Z, 0x1.fb3058d5711e3p-1, 0x1.ff0be20fd069bp-1);
   (342%Z, 0x1.ae3918cbe0ed3p-2, 0x1.9afdc693a42fbp-1);
   (343%Z, (-0x1.12bd05053e9a9p-1), 0x1.d68ff14382a72p-3);
   (344%Z, (-0x1.fffebbd8fd68ep-1), (-0x1.ce13a56aa8161p-2));
   (345%Z, (-0x1.16869ea98f6a9p-1), (-0x1.d70e6d4f849a6p-1));
   (346%Z, 0x1.a609968a155dcp-2, (-0x1.e987780462327p-1));
   (347%Z, 0x1.fa8dbd2a2e3d8p-1, (-0x1.15c4ce689ed0ep-1));
   (348%Z, 0x1.505d91964a85dp-1, 0x1.0285c17c28662p-3);
   (349%Z, (-0x1.1e26af0a0d34dp-2), 0x1.78a21b103a42dp-1);
   (350%Z, (-0x1.eaf93e45387c5p-1), 0x1.ff7fd4aea1d45p-1);
   (351%Z, (-0x1.837908b59dd2cp-1), 0x1.95cca04de8dcdp-1);
   (352%Z, 0x1.21132c4406b21p-3, 0x1.b4fb6f41c1ee6p-3);
   (353%Z, 0x1.d1911395cc128p-1, (-0x1.dd6051aaee3fep-2));
   (354%Z, 0x1.aed3266c78677p-1, (-0x1.da5cefc9843c6p-1));
   (355%Z, (-0x1.f9bd0307d1de3p-16), (-0x1.e6f0066713c3ap-1));
   (356%Z, (-0x1.aed76b6e17c62p-1), (-0x1.0e7f6fde48bcap-1));
   (357%Z, (-0x1.d18dc9bd517dfp-1), 0x1.24a535f054f6cp-3);
   (358%Z, (-0x1.20f3e16e6c05dp-3), 0x1.7e695bcf66f90p-1);
   (359%Z, 0x1.837e32fffdc26p-1, 0x1.ffcec1d3d544dp-1);
   (360%Z, 0x1.eaf7006f5e879p-1, 0x1.907e1b0d797dbp-1);
   (361%Z, 0x1.1e178247aa797p-2, 0x1.93474c7d582e4p-3);
   (362%Z, (-0x1.506386b235eebp-1), (-0x1.ec8a70b43e008p-2));
   (363%Z, (-0x1.fa8c96d332bf1p-1), (-0x1.dd891ce159f70p-1));
   (364%Z, (-0x1.a5fb303101941p-2), (-0x1.e4355669b97a7p-1));
   (365%Z, 0x1.168d40109b6ddp-1, (-0x1.07267d5335bfcp-1));
   (366%Z, 0x1.fffeb2e506e30p-1, 0x1.46af7c05990dap-3);
   (367%Z, 0x1.12b659f17dea4p-1, 0x1.8414eeecd3f22p-1);
   (368%Z, (-0x1.ae47703dc888fp-2), 0x1.fff8a3c90163ap-1);
   (369%Z, (-0x1.fb316d725f38ap-1), 0x1.8b1299261b5e6p-1);
   (370%Z, (-0x1.4cef86b24c434p-1), 0x1.7175f97360c2ap-3);
   (371%Z, 0x1.26d7b1d09acd3p-2, (-0x1.fb90e98b7f686p-2));
   (372%Z, 0x1.ec3d6112a836bp-1, (-0x1.e092b9ce5d0c8p-1));
   (373%Z, 0x1.807eca992916ep-1, (-0x1.e1579a9e2c9bcp-1));
   (374%Z, (-0x1.330272c1e26fap-3), (-0x1.ff74fdd63cb19p-2));
   (375%Z, (-0x1.d36f2c163a18cp-1), 0x1.68a21d02d09e7p-3);
   (376%Z, (-0x1.ac5bf6b3daf4dp-1), 0x1.89a46b588d068p-1);
   (377%Z, 0x1.230705ed09dc8p-7, 0x1.fffd77861d0dep-1);
   (378%Z, 0x1.b145e7f1b5086p-1, 0x1.858a7f04abf93p-1);
   (379%Z, 0x1.cfa64a81f5948p-1, 0x1.4f89e8bdcb1a2p-3);
   (380%Z, 0x1.0efec4df739b3p-3, (-0x1.053952e511e18p-1));
   (381%Z, (-0x1.86709e013b3b9p-1), (-0x1.e3798e484ed6ep-1));
   (382%Z, (-0x1.e9a8f38cc798fp-1), (-0x1.de57081fa33d3p-1));
   (383%Z, (-0x1.1560b863ae8bep-2), (-0x1.f077fc5546d22p-2));
   (384%Z, 0x1.53cac6ac5f643p-1, 0x1.8a7aa3e4f4028p-3);
   (385%Z, 0x1.f9deabe85d13ap-1, 0x1.8f176a0b10f38p-1);
   (386%Z, 0x1.9db4d0e5c0565p-2, 0x1.ffdd3cb1b77e1p-1);
   (387%Z, (-0x1.1a57e4de255c9p-1), 0x1.7fe63327db7e3p-1);
   (388%Z, (-0x1.fff4651254520p-1), 0x1.2d858ee60145ep-3);
   (389%Z, (-0x1.0ee092b25b1b5p-1), (-0x1.0c9748d926200p-1));
   (390%Z, 0x1.b67ca8a60139ep-2, (-0x1.e63d648b6d7ddp-1));
   (391%Z, 0x1.fbcaf183996e4p-1, (-0x1.db33d68ed86a7p-1));
   (392%Z, 0x1.497ace53ae50cp-1, (-0x1.e1570bdab25ffp-2));
   (393%Z, (-0x1.2f82cab3ecf72p-2), 0x1.ac369d8ca087ap-3);
   (394%Z, (-0x1.ed77a4707bf1dp-1), 0x1.946d860cc6758p-1);
   (395%Z, (-0x1.7d7cd6459fd95p-1), 0x1.ff97f5a0fec68p-1);
   (396%Z, 0x1.44eb90e39cc1bp-3, 0x1.7a261e18c2643p-1);
   (397%Z, 0x1.d543e4849579ap-1, 0x1.0b6b623767f4cp-3);
   (398%Z, 0x1.a9dc2f8b4515dp-1, (-0x1.13e1ce215fedep-1));
   (399%Z, (-0x1.2285ab860e23cp-6), (-0x1.e8de095c58362p-1));
   (400%Z, (-0x1.b3abb3ca5df71p-1), (-0x1.d7ee400e05588p-1));
   (401%Z, (-0x1.cdb57ea34f030p-1), (-0x1.d21344b776b07p-2));
   (402%Z, (-0x1.fa0871bebed51p-4), 0x1.cdd398eb79535p-3);
   (403%Z, 0x1.895b34457b31ap-1, 0x1.99a65c7d4b594p-1);
   (404%Z, 0x1.e851147996c08p-1, 0x1.ff2da7579499bp-1);
   (405%Z, 0x1.0ca45e48f6c89p-2, 0x1.744aaa635021ep-1);
   (406%Z, (-0x1.572b35f7784b4p-1), 0x1.d27bb523859d4p-4);
   (407%Z, (-0x1.f9269b91edd31p-1), (-0x1.1b185ba556459p-1));
   (408%Z, (-0x1.9566256707860p-2), (-0x1.eb5b4c0bc4a6cp-1));
   (409%Z, 0x1.1e1cdff607937p-1, (-0x1.d486813cac51fp-1));
   (410%Z, 0x1.ffdfd295cdc77p-1, (-0x1.c2adc1c20f084p-2));
   (411%Z, 0x1.0b055c9d27998p-1, 0x1.ef4f273166e6bp-3);
   (412%Z, (-0x1.bea9159de6673p-2), 0x1.9ec18c9a9c155p-1);
   (413%Z, (-0x1.fc5a4649a0346p-1), 0x1.fe9e5987315b7p-1);
   (414%Z, (-0x1.45ff7a3917702p-1), 0x1.6e54448e9529ep-1);
   (415%Z, 0x1.3827cd31eba02p-2, 0x1.8dfee276ed355p-4);
   (416%Z, 0x1.eea802111915ap-1, (-0x1.223a6bbe9b338p-1));
   (417%Z, 0x1.7a733b2c632e9p-1, (-0x1.edb4fe7a04c03p-1));
   (418%Z, (-0x1.56ce2ab2a2828p-3), (-0x1.d0fcd933353d9p-1));
   (419%Z, (-0x1.d70f337a3188fp-1), (-0x1.b327a04202670p-2));
   (420%Z, (-0x1.a753ddc7b1b46p-1), 0x1.08536dfcd54dep-2);
   (421%Z, 0x1.b38200614fcb2p-6, 0x1.a3beb7c814e8cp-1);
   (422%Z, 0x1.b608c2a87f3cdp-1, 0x1.fdea168f1599bp-1);
   (423%Z, 0x1.cbbb701832d0cp-1, 0x1.68435b14e7ae7p-1);
   (424%Z, 0x1.d609337c80b07p-4, 0x1.4965416768cf5p-4);
   (425%Z, (-0x1.8c3de6d357d2fp-1), (-0x1.29477a42681b8p-1));
   (426%Z, (-0x1.e6ef6a1b6d137p-1), (-0x1.efeaf51a5d828p-1));
   (427%Z, (-0x1.03e2a0d233bbbp-2), (-0x1.cd51897e5cd59p-1));
   (428%Z, 0x1.5a84c33d020efp-1, (-0x1.a381ffdb3cbc1p-2));
   (429%Z, 0x1.f8646980fb527p-1, 0x1.18ec26bbe2a90p-2);
   (430%Z, 0x1.8d0f585c5c4d3p-2, 0x1.a89d81954ad2ap-1);
   (431%Z, (-0x1.21dc1dfd80df1p-1), 0x1.fd10eb7b49d80p-1);
   (432%Z, (-0x1.ffc0fbd9145e3p-1), 0x1.62185e5be5204p-1);
   (433%Z, (-0x1.0724cb7ec9568p-1), 0x1.04b3c909162aap-4);
   (434%Z, 0x1.c6cc8d2dc72f0p-2, (-0x1.303f048b2e852p-1));
   (435%Z, 0x1.fcdf68e482317p-1, (-0x1.f1fd06f62ddfcp-1));
   (436%Z, 0x1.427d9c431cb45p-1, (-0x1.c984d61a75e62p-1));
   (437%Z, (-0x1.40c68ce7c063fp-2), (-0x1.93be02793e9f2p-2));
   (438%Z, (-0x1.efce73d9b6aebp-1), 0x1.29708a521837cp-2);
   (439%Z, (-0x1.776208e61d9bcp-1), 0x1.ad5d8fc4bc4a7p-1);
   (440%Z, 0x1.68a9e459d6a83p-3, 0x1.fc12e803acd22p-1);
   (441%Z, 0x1.d8d10fc0b52fbp-1, 0x1.5bd3c0ac4f419p-1);
   (442%Z, 0x1.a4c30e69f6fd9p-1, 0x1.7fdee453aa1c3p-5);
   (443%Z, (-0x1.223acc8c13ad2p-5), (-0x1.372089820d3d4p-1));
   (444%Z, (-0x1.b85d0869636cap-1), (-0x1.f3eb0dafe5b61p-1));
   (445%Z, (-0x1.c9b8290702645p-1), (-0x1.c597056e7da8ap-1));
   (446%Z, (-0x1.b20087cc6b7cep-4), (-0x1.83dccc3a208a3p-2));
   (447%Z, 0x1.8f18a6d9eda4ep-1, 0x1.39df66b46f602p-2);
   (448%Z, 0x1.e583fb8a35814p-1, 0x1.b1fe8a5259917p-1);
   (449%Z, 0x1.f63759eb80b3cp-3, 0x1.faf01e8ad042ep-1);
   (450%Z, (-0x1.5dd75d49d5509p-1), 0x1.5575f629c6aecp-1);
   (451%Z, (-0x1.f798199aa1909p-1), 0x1.ec74dbd48f017p-6);
   (452%Z, (-0x1.84b0949703ab0p-2), (-0x1.3deb89a8279a5p-1));
   (453%Z, 0x1.25958bb7470c8p-1, (-0x1.f5b4e585ccc9bp-1));
   (454%Z, 0x1.ff97e17a801c7p-1, (-0x1.c1886047035a4p-1));
   (455%Z, 0x1.033ef33fa5ef4p-1, (-0x1.73df83596e7c0p-2));
   (456%Z, (-0x1.cee6e58bf252dp-2), 0x1.4a378b66c5cf5p-2);
   (457%Z, (-0x1.fd5a56a8a81eep-1), 0x1.b6801b79e31d2p-1);
   (458%Z, (-0x1.3ef54673e5b62p-1), 0x1.f9a8a41ca42bap-1);
   (459%Z, 0x1.495edd92ba73fp-2, 0x1.4eff74ca630b5p-1);
   (460%Z, 0x1.f0eaf3e27cc62p-1, 0x1.b21094bf395cap-7);
   (461%Z, 0x1.74494f327301bp-1, (-0x1.449f871fe03b9p-1));
   (462%Z, (-0x1.7a7e622769c9fp-3), (-0x1.f75a6d5499216p-1));
   (463%Z, (-0x1.da8970524a396p-1), (-0x1.bd5931d0e31dep-1));
   (464%Z, (-0x1.a229ce9e839dbp-1), (-0x1.63c7501adc6c1p-2));
   (465%Z, 0x1.6aaec6b3a5f1ep-5, 0x1.5a77c991e6fa5p-2);
   (466%Z, 0x1.baa8791771515p-1, 0x1.bae1efbd1f05ap-1);
   (467%Z, 0x1.c7abb3c577667p-1, 0x1.f83c906cf0f59p-1);
   (468%Z, 0x1.8def27b325d5ep-4, 0x1.4870b44e28f24p-1);
   (469%Z, (-0x1.91eb65b127970p-1), (-0x1.d39fe37bf3cf7p-9));
   (470%Z, (-0x1.e40ed0100067dp-1), (-0x1.4b3c05b5f512fp-1));
   (471%Z, (-0x1.e49f5f8976476p-3), (-0x1.f8db8699d524fp-1));
   (472%Z, 0x1.6122f30e7a378p-1, (-0x1.b909c793d56e0p-1));
   (473%Z, 0x1.f6c1aff7ee35fp-1, (-0x1.53955cb4d3ed6p-2));
   (474%Z, 0x1.7c4a0511269a3p-2, 0x1.6a9ef4197728ep-2);
   (475%Z, (-0x1.29491603e9b28p-1), 0x1.bf23b5e9e3fabp-1);
   (476%Z, (-0x1.ff64844d1cc67p-1), 0x1.f6abfdd5a0346p-1);
   (477%Z, (-0x1.fea7cfc678e91p-2), 0x1.41ca2e365fb2dp-1);
   (478%Z, 0x1.d6f7f51d8cc7cp-2, (-0x1.4dec082dbb4f6p-6));
   (479%Z, 0x1.fdcb0d1ee27eep-1, (-0x1.51c08aea7c95bp-1));
   (480%Z, 0x1.3b668aeed01d9p-1, (-0x1.fa38157614e47p-1))
  ]%float.

Definition row_seed (row : Z * float * float) : float := of_Z (fst (fst row)).

(** [Math.sin] and [Math.cos] read from the table; [NaN] elsewhere. *)
Definition tabulated : MathLibrary :=
  {| Math_sin := fun x =>
       match find (fun row => PrimFloat.eqb (row_seed row) x) sines_and_cosines with
       | Some row => snd (fst row)
       | None => nan
       end;
     Math_cos := fun x =>
       match find (fun row => PrimFloat.eqb (row_seed row * 0.7)%float x)
               sines_and_cosines with
       | Some row => snd row
       | None => nan
       end |}.

End Double.

(** * Properties *)

(** ** Strings *)

Lemma append_cons (c : ascii) (s t : string) : String c s ++ t = String c (s ++ t).
Proof. reflexivity. Qed.

Lemma append_empty (t : string) : "" ++ t = t.
Proof. reflexivity. Qed.

Lemma substring0_split (n : nat) (s : string) :
  exists tail, s = JS.substring0 n s ++ tail
    /\ String.length (JS.substring0 n s) = Nat.min n (String.length s).
Proof.
  unfold JS.substring0. revert n.
  induction s as [|c s IH]; intros n.
  - exists "". destruct n; simpl; auto.
  - destruct n as [|n]; simpl.
    + exists (String c s). auto.
    + destruct (IH n) as [tail [Heq Hlen]].
      exists tail. rewrite append_cons. split; [f_equal; exact Heq | f_equal; exact Hlen].
Qed.

Lemma split_nonempty (sep : ascii) (s : string) : JS.split sep s <> [].
Proof.
  destruct s as [|c s]; simpl; [discriminate|].
  destruct (Ascii.eqb c sep); [discriminate|].
  destruct (JS.split sep s); discriminate.
Qed.

(** The first piece of [split] is the text up to the first separator. *)
Lemma split_first_piece (s : string) :
  let line := hd EmptyString (JS.split newline s) in
  single_line line
  /\ (s = line \/ exists rest, s = line ++ nl ++ rest).
Proof.
  induction s as [|c s [Hsingle Hshape]]; simpl.
  - split; [intros [|n]; discriminate | left; reflexivity].
  - destruct (Ascii.eqb c newline) eqn:Hc; simpl.
    + apply Ascii.eqb_eq in Hc. subst c.
      split; [intros [|n]; discriminate | right; exists s; reflexivity].
    + pose proof (split_nonempty newline s) as Hne.
      destruct (JS.split newline s) as [|piece pieces]; [contradiction|].
      simpl in *. split.
      * intros [|n]; simpl.
        -- intros Heq. injection Heq as ->. rewrite Ascii.eqb_refl in Hc. discriminate.
        -- apply Hsingle.
      * destruct Hshape as [-> | [rest ->]]; [left; reflexivity|].
        right. exists rest. reflexivity.
Qed.

Lemma substring0_all (n : nat) (s : string) :
  (String.length s <= n)%nat -> JS.substring0 n s = s.
Proof.
  unfold JS.substring0. revert n.
  induction s as [|c s IH]; intros n Hlen.
  - destruct n; reflexivity.
  - destruct n as [|n]; simpl in *; [lia|].
    f_equal. apply IH. lia.
Qed.

Lemma append_empty_r (s : string) : s ++ "" = s.
Proof. induction s as [|c s IH]; [reflexivity|]. rewrite append_cons, IH. reflexivity. Qed.

(** C9. The title is the first line of the text cut to at most 100
    characters, or ["Untitled"] when that is empty; the snippet is the
    first 200 characters of the text, followed by the marker ["..."]
    exactly when the text has more than 200 characters. *)
Theorem title_and_snippet_derivation (text : string) :
  exists line kept dropped head tail,
    single_line line
    /\ (text = line \/ exists rest, text = line ++ nl ++ rest)
    /\ line = kept ++ dropped
    /\ String.length kept = Nat.min 100 (String.length line)
    /\ derive_title text = (if String.eqb kept "" then "Untitled" else kept)
    /\ text = head ++ tail
    /\ String.length head = Nat.min 200 (String.length text)
    /\ ((String.length text <= 200)%nat -> derive_snippet text = text)
    /\ ((200 < String.length text)%nat -> derive_snippet text = head ++ "...").
Proof.
  destruct (split_first_piece text) as [Hsingle Hshape].
  set (line := hd EmptyString (JS.split newline text)) in *.
  destruct (substring0_split 100 line) as [dropped [Hline Hkept]].
  destruct (substring0_split 200 text) as [tail [Htext Hhead]].
  exists line, (JS.substring0 100 line), dropped, (JS.substring0 200 text), tail.
  repeat split; try assumption.
  - intros Hlen. unfold derive_snippet.
    destruct (Nat.ltb_spec 200 (String.length text)) as [Hlt|_]; [lia|].
    rewrite append_empty_r. apply substring0_all. exact Hlen.
  - intros Hlen. unfold derive_snippet.
    destruct (Nat.ltb_spec 200 (String.length text)) as [_|Hle]; [reflexivity|lia].
Qed.

Example derive_title_first_line :
  derive_title ("Quantum computing" ++ nl ++ "uses superposition.") = "Quantum computing".
Proof. reflexivity. Qed.

Example derive_title_default : derive_title (nl ++ "body") = "Untitled".
Proof. reflexivity. Qed.

Example derive_snippet_short : derive_snippet "short text" = "short text".
Proof. reflexivity. Qed.

Example split_keeps_empty_pieces :
  JS.split newline ("a" ++ nl ++ nl ++ "b") = ["a"; ""; "b"].
Proof. reflexivity. Qed.

Example trim_both_ends : JS.trim ("  a b " ++ nl) = "a b".
Proof. reflexivity. Qed.

Example replace_first_occurrence : JS.replace "doc:" "" "doc:doc:x" = "doc:x".
Proof. reflexivity. Qed.

(** ** Cosine similarity *)

(** The loop, started at any index and with any accumulator, adds the
    three sums over the rest of the vectors. *)
Lemma cosine_fold_suffix (a b : list R) :
  length a = length b ->
  forall (pa pb : list R) (acc : R * R * R),
    length pa = length pb ->
    fold_left (cosine_step (pa ++ a) (pb ++ b)) (seq (length pa) (length a)) acc
    = triple_plus acc (dot a b, dot a a, dot b b).
Proof.
  revert b. induction a as [|x a IH]; intros [|y b] Hlen pa pb [[d ma] mb] Hp;
    simpl in Hlen; try discriminate.
  - simpl. f_equal; [f_equal|]; ring.
  - injection Hlen as Hlen. simpl seq. simpl fold_left.
    replace (nth (length pa) (pa ++ x :: a) 0) with x
      by (rewrite List.app_nth2, Nat.sub_diag by lia; reflexivity).
    replace (nth (length pa) (pb ++ y :: b) 0) with y
      by (rewrite Hp, List.app_nth2, Nat.sub_diag by lia; reflexivity).
    specialize (IH b Hlen (pa ++ [x])%list (pb ++ [y])%list).
    rewrite <- !List.app_assoc in IH. simpl in IH.
    rewrite !List.length_app in IH. simpl in IH.
    replace (length pa + 1)%nat with (S (length pa)) in IH by lia.
    rewrite IH by lia.
    simpl. f_equal; [f_equal|]; ring.
Qed.

Lemma cosine_loop_sums (a b : list R) :
  length a = length b -> cosine_loop a b = (dot a b, dot a a, dot b b).
Proof.
  intros Hlen. unfold cosine_loop.
  pose proof (cosine_fold_suffix a b Hlen [] [] (0, 0, 0) eq_refl) as Hfold.
  simpl in Hfold. rewrite Hfold.
  f_equal; [f_equal|]; ring.
Qed.

Lemma dot_self_nonneg (v : list R) : 0 <= dot v v.
Proof.
  induction v as [|x v IH]; simpl; [lra|].
  pose proof (Rle_0_sqr x) as Hx. unfold Rsqr in Hx. lra.
Qed.

(** The value computed for vectors of equal length, in terms of the
    dot product and the norms. *)
Lemma cosineSimilarity_value (q v : list R) :
  length q = length v ->
  cosineSimilarity q v
  = Ok (if Req_dec_T (norm q * norm v) 0 then 0 else dot q v / (norm q * norm v)).
Proof.
  intros Hlen. unfold cosineSimilarity.
  rewrite (proj2 (Nat.eqb_eq _ _) Hlen), (cosine_loop_sums q v Hlen).
  reflexivity.
Qed.

(** In exact arithmetic the score of two vectors of equal length is
    [dot q v / (norm q * norm v)] when both norms are non-zero and is [0]
    when one of them is zero; the quotient is the result only when its
    divisor is not zero.  The doubles of the code differ where a sum of
    squares leaves their range; that case is settled over [Double]. *)
Lemma cosineSimilarity_formula (q v : list R) :
  length q = length v ->
  exists s,
    cosineSimilarity q v = Ok s
    /\ (norm q <> 0 -> norm v <> 0 -> s = dot q v / (norm q * norm v))
    /\ (norm q = 0 \/ norm v = 0 -> s = 0)
    /\ (norm q * norm v <> 0 \/ s = 0).
Proof.
  intros Hlen. rewrite (cosineSimilarity_value q v Hlen).
  destruct (Req_dec_T (norm q * norm v) 0) as [Hzero|Hnonzero].
  - exists 0. split; [reflexivity|]. split; [|split; [reflexivity|right; reflexivity]].
    intros Hq Hv. apply Rmult_integral in Hzero. tauto.
  - exists (dot q v / (norm q * norm v)). split; [reflexivity|].
    split; [reflexivity|]. split; [|left; exact Hnonzero].
    intros [Hq|Hv]; exfalso; apply Hnonzero.
    + rewrite Hq. ring.
    + rewrite Hv. ring.
Qed.

Lemma cosineSimilarity_formula_witness :
  exists s,
    cosineSimilarity [3; 4] [4; 3] = Ok s
    /\ (norm [3; 4] <> 0 -> norm [4; 3] <> 0
        -> s = dot [3; 4] [4; 3] / (norm [3; 4] * norm [4; 3]))
    /\ (norm [3; 4] = 0 \/ norm [4; 3] = 0 -> s = 0)
    /\ (norm [3; 4] * norm [4; 3] <> 0 \/ s = 0).
Proof. apply (cosineSimilarity_formula [3; 4] [4; 3]). reflexivity. Defined.

Lemma cosineSimilarity_length_mismatch (q v : list R) :
  length q <> length v -> cosineSimilarity q v = Throw "Vectors must have same length".
Proof.
  intros Hlen. unfold cosineSimilarity.
  destruct (Nat.eqb_spec (length q) (length v)); [contradiction|reflexivity].
Qed.

Lemma cosineSimilarity_defined (q v : list R) :
  length q = length v -> exists s, cosineSimilarity q v = Ok s.
Proof.
  intros Hlen. rewrite (cosineSimilarity_value q v Hlen). eauto.
Qed.

Lemma norm_unit_x : norm [1; 0] = 1.
Proof. unfold norm. simpl. replace (1 * 1 + (0 * 0 + 0)) with 1 by ring. apply sqrt_1. Qed.

Lemma norm_unit_y : norm [0; 1] = 1.
Proof. unfold norm. simpl. replace (0 * 0 + (1 * 1 + 0)) with 1 by ring. apply sqrt_1. Qed.

Example cosine_parallel : cosineSimilarity [0; 1] [0; 1] = Ok 1.
Proof.
  rewrite cosineSimilarity_value by reflexivity. rewrite norm_unit_y.
  destruct (Req_dec_T (1 * 1) 0) as [Hzero|_]; [lra|].
  f_equal. simpl. field.
Qed.

Example cosine_orthogonal : cosineSimilarity [0; 1] [1; 0] = Ok 0.
Proof.
  rewrite cosineSimilarity_value by reflexivity. rewrite norm_unit_x, norm_unit_y.
  destruct (Req_dec_T (1 * 1) 0) as [Hzero|_]; [lra|].
  f_equal. simpl. field.
Qed.

Example cosine_zero_vector : cosineSimilarity [0; 0] [3; 4] = Ok 0.
Proof.
  rewrite cosineSimilarity_value by reflexivity.
  assert (Hz : norm [0; 0] = 0).
  { unfold norm. simpl. replace (0 * 0 + (0 * 0 + 0)) with 0 by ring. apply sqrt_0. }
  rewrite Hz.
  destruct (Req_dec_T (0 * norm [3; 4]) 0) as [_|Hnz]; [reflexivity|].
  exfalso. apply Hnz. ring.
Qed.

(** ** The vector index *)

Lemma upsertVector_effect (id : string) (vec : list R) (meta : gmap string string)
    (w : World) :
  upsertVector id vec meta w
  = (Ok {| upsert_id := id; upsert_key := "doc:" ++ id |},
     {| redis := <["doc:" ++ id :=
                    {| vector := vec; metadata := meta; timestamp := clock w |}]> (redis w);
        sanity := sanity w;
        clock := clock w;
        calls := calls w ++ [CallUpsertVector id vec meta] |}).
Proof. reflexivity. Qed.

Lemma similarities_loop_scan (q : list R) (keys : list string) :
  forall (acc : list Hit) (w : World),
    similarities_loop q keys acc w
    = (bind_result (scan (redis w) q keys) (fun hits => Ok (acc ++ hits)%list), w).
Proof.
  induction keys as [|key keys IH]; intros acc w; simpl.
  - unfold ret. rewrite List.app_nil_r. reflexivity.
  - unfold bind, client_get. simpl.
    destruct (redis w !! key) as [stored|]; [|apply IH].
    unfold lift, hit_of.
    destruct (cosineSimilarity q (vector stored)) as [s|m]; simpl; [|reflexivity].
    rewrite IH.
    destruct (scan (redis w) q keys) as [hits|m]; simpl; [|reflexivity].
    rewrite <- List.app_assoc. reflexivity.
Qed.

(** The result of the search, read off the database. *)
Lemma queryTopK_effect {server : RedisServer} (q : list R) (k : nat) (w : World) :
  queryTopK q k w
  = (match index_keys (redis w) with
     | [] => Ok []
     | _ :: _ =>
         match scan (redis w) q (index_keys (redis w)) with
         | Ok similarities => Ok (firstn k (Array_sort by_score_desc similarities))
         | Throw m => Throw ("Failed to query vectors: " ++ m)
         end
     end,
     logged (CallQueryTopK q k) w).
Proof.
  unfold queryTopK, try_catch, bind, record_call, client_keys, index_keys, is_index_key.
  simpl.
  destruct (List.filter (String.prefix "doc:") (KEYS (redis w))) as [|key keys] eqn:Hkeys;
    [reflexivity|].
  cbn -[similarities_loop scan Array_sort firstn].
  rewrite similarities_loop_scan.
  cbn -[similarities_loop scan Array_sort firstn].
  destruct (scan (redis w) q (key :: keys)) as [hits|m]; reflexivity.
Qed.

Lemma index_keys_spec {server : RedisServer} (db : gmap string StoredVector) (key : string) :
  In key (index_keys db) <-> exists stored, vector_record db key stored.
Proof.
  unfold index_keys, vector_record. rewrite List.filter_In.
  rewrite <- list_elem_of_In, KEYS_elem. unfold is_Some.
  split.
  - intros [[stored Hstored] Hkey]. eauto.
  - intros [stored [Hstored Hkey]]. eauto.
Qed.

(** When all dimensions agree, the scan yields one hit per key. *)
Lemma scan_agreeing (db : gmap string StoredVector) (q : list R) (keys : list string) :
  dimension_agrees db q ->
  Forall (fun key => exists stored, vector_record db key stored) keys ->
  exists hits,
    scan db q keys = Ok hits
    /\ Forall2 (fun key hit =>
                  exists stored, vector_record db key stored /\ hit_of q key stored = Ok hit)
         keys hits.
Proof.
  intros Hagree Hkeys. induction Hkeys as [|key keys [stored Hrec] _ [hits [Hscan Hall]]].
  - exists []. split; [reflexivity | constructor].
  - simpl. rewrite (proj1 Hrec).
    destruct (cosineSimilarity_defined q (vector stored)) as [s Hs].
    { symmetry. eapply Hagree. exact Hrec. }
    unfold hit_of at 1. rewrite Hs, Hscan. simpl.
    eexists. split; [reflexivity|].
    constructor; [|exact Hall].
    exists stored. split; [exact Hrec|]. unfold hit_of. rewrite Hs. reflexivity.
Qed.

(** A record whose dimension differs makes the scan throw. *)
Lemma scan_mismatch (db : gmap string StoredVector) (q : list R) (keys : list string) :
  keys <> [] ->
  Forall (fun key => exists stored,
            vector_record db key stored /\ length (vector stored) <> length q) keys ->
  scan db q keys = Throw "Vectors must have same length".
Proof.
  intros Hne Hkeys. destruct Hkeys as [|key keys [stored [Hrec Hlen]] _]; [contradiction|].
  simpl. rewrite (proj1 Hrec). unfold hit_of.
  rewrite cosineSimilarity_length_mismatch by (intros Heq; apply Hlen; symmetry; exact Heq).
  reflexivity.
Qed.

(** ** Ranking *)

Lemma sort_insert_perm (x : Hit) (sorted : list Hit) :
  Permutation (sort_insert by_score_desc x sorted) (x :: sorted).
Proof.
  induction sorted as [|y rest IH]; simpl; [reflexivity|].
  destruct (Rlt_dec 0 (by_score_desc x y)); [|reflexivity].
  rewrite IH. apply perm_swap.
Qed.

Lemma Array_sort_perm (l : list Hit) : Permutation (Array_sort by_score_desc l) l.
Proof.
  induction l as [|x l IH]; simpl; [reflexivity|].
  rewrite sort_insert_perm. constructor. exact IH.
Qed.

Lemma sort_insert_sorted (x : Hit) (sorted : list Hit) :
  StronglySorted ranks_above sorted ->
  StronglySorted ranks_above (sort_insert by_score_desc x sorted).
Proof.
  induction 1 as [|y rest Hsorted IH Hall]; simpl.
  - repeat constructor.
  - unfold by_score_desc at 1.
    destruct (Rlt_dec 0 (hit_score y - hit_score x)) as [Hlt|Hge].
    + constructor; [exact IH|].
      rewrite List.Forall_forall. intros z Hz.
      apply (Permutation_in _ (sort_insert_perm x rest)) in Hz.
      destruct Hz as [<-|Hz]; [unfold ranks_above; lra|].
      rewrite List.Forall_forall in Hall. apply Hall. exact Hz.
    + constructor; [constructor; assumption|].
      constructor; [unfold ranks_above; lra|].
      rewrite List.Forall_forall in Hall |- *. intros z Hz.
      specialize (Hall z Hz). unfold ranks_above in *. lra.
Qed.

Lemma Array_sort_sorted (l : list Hit) :
  StronglySorted ranks_above (Array_sort by_score_desc l).
Proof.
  induction l as [|x l IH]; simpl; [constructor|].
  apply sort_insert_sorted. exact IH.
Qed.

(** An inserted hit only moves behind hits of strictly greater score:
    among the hits of one score the order is kept. *)
Lemma sort_insert_stable (s : R) (x : Hit) (sorted : list Hit) :
  List.filter (has_score s) (sort_insert by_score_desc x sorted)
  = List.filter (has_score s) (x :: sorted).
Proof.
  induction sorted as [|y rest IH]; [reflexivity|].
  simpl sort_insert. unfold by_score_desc at 1.
  destruct (Rlt_dec 0 (hit_score y - hit_score x)) as [Hlt|Hge]; [|reflexivity].
  simpl in *. rewrite IH. unfold has_score.
  destruct (Req_dec_T (hit_score x) s), (Req_dec_T (hit_score y) s);
    try reflexivity.
  lra.
Qed.

Lemma Array_sort_stable (s : R) (l : list Hit) :
  List.filter (has_score s) (Array_sort by_score_desc l) = List.filter (has_score s) l.
Proof.
  induction l as [|x l IH]; [reflexivity|].
  simpl Array_sort. rewrite sort_insert_stable. simpl. rewrite IH. reflexivity.
Qed.

Lemma index_keys_records {server : RedisServer} (db : gmap string StoredVector) :
  Forall (fun key => exists stored, vector_record db key stored) (index_keys db).
Proof. rewrite List.Forall_forall. intros key. apply index_keys_spec. Qed.


Lemma sort_insert_tie (x y : Hit) (rest : list Hit) :
  hit_score x = hit_score y ->
  sort_insert by_score_desc x (y :: rest) = x :: y :: rest.
Proof.
  intros Htie. simpl. unfold by_score_desc.
  destruct (Rlt_dec 0 (hit_score y - hit_score x)) as [Hlt|_]; [lra|reflexivity].
Qed.

Lemma search_three_records (w : World) (k : nat) :
  redis w = redis three_records ->
  fst (queryTopK (server := map_order_server) [0; 1] k w) = Ok (firstn k ranked_three).
Proof.
  intros Hdb.
  assert (Hkeys : index_keys (server := map_order_server) (redis three_records)
                  = ["doc:c"; "doc:a"; "doc:b"]) by (vm_compute; reflexivity).
  assert (Ha : redis three_records !! "doc:a"
               = Some {| vector := [1; 0]; metadata := ∅; timestamp := 0 |})
    by (vm_compute; reflexivity).
  assert (Hb : redis three_records !! "doc:b"
               = Some {| vector := [0; 1];
                         metadata := ingest_metadata "Title b" "notes.txt" "Snippet b";
                         timestamp := 0 |})
    by (vm_compute; reflexivity).
  assert (Hc : redis three_records !! "doc:c"
               = Some {| vector := [0; 1];
                         metadata := ingest_metadata "Title c" "notes.txt" "Snippet c";
                         timestamp := 0 |})
    by (vm_compute; reflexivity).
  rewrite queryTopK_effect, Hdb, Hkeys. cbn [fst scan].
  rewrite Ha, Hb, Hc. unfold hit_of. cbn [vector metadata].
  rewrite cosine_parallel, cosine_orthogonal.
  cbn [bind_result Array_sort]. simpl (sort_insert _ _ []).
  cbn [sort_insert]. unfold by_score_desc. cbn [hit_score].
  destruct (Rlt_dec 0 (1 - 0)) as [_|Hno]; [|lra].
  cbn [sort_insert]. cbn [hit_score].
  destruct (Rlt_dec 0 (1 - 1)) as [Hyes|_]; [lra|reflexivity].
Qed.

Lemma three_records_agree : dimension_agrees (redis three_records) [0; 1].
Proof.
  intros key stored [Hstored _]. unfold three_records in Hstored. simpl in Hstored.
  repeat (apply lookup_insert_Some in Hstored;
          destruct Hstored as [[_ <-]|[_ Hstored]]; [reflexivity|]).
  rewrite lookup_empty in Hstored. discriminate.
Qed.



(** A search on two records: the nearer one comes first, and [k] cuts
    the list. *)
Example search_ranks_nearest_first :
  let w1 := snd (upsertVector "a" [1; 0] ∅ empty_world) in
  let w2 := snd (upsertVector "b" [0; 1] ∅ w1) in
  fst (queryTopK (server := map_order_server) [0; 1] 1 w2)
  = Ok [ {| hit_id := "b"; hit_score := 1; hit_metadata := ∅ |} ]
  /\ fst (queryTopK (server := map_order_server) [0; 1] 3 w2)
     = Ok [ {| hit_id := "b"; hit_score := 1; hit_metadata := ∅ |};
            {| hit_id := "a"; hit_score := 0; hit_metadata := ∅ |} ].
Proof.
  intros w1 w2.
  assert (Hkeys : index_keys (server := map_order_server) (redis w2) = ["doc:a"; "doc:b"])
    by (vm_compute; reflexivity).
  assert (Ha : redis w2 !! "doc:a"
               = Some {| vector := [1; 0]; metadata := ∅; timestamp := 0 |})
    by (vm_compute; reflexivity).
  assert (Hb : redis w2 !! "doc:b"
               = Some {| vector := [0; 1]; metadata := ∅; timestamp := 0 |})
    by (vm_compute; reflexivity).
  assert (Hsorted : forall k,
            fst (queryTopK (server := map_order_server) [0; 1] k w2)
            = Ok (firstn k [ {| hit_id := "b"; hit_score := 1; hit_metadata := ∅ |};
                             {| hit_id := "a"; hit_score := 0; hit_metadata := ∅ |} ])).
  { intros k. rewrite queryTopK_effect, Hkeys. cbn [fst scan].
    rewrite Ha, Hb. unfold hit_of. cbn [vector metadata].
    rewrite cosine_parallel, cosine_orthogonal.
    cbn [bind_result Array_sort]. simpl (sort_insert _ _ []).
    cbn [sort_insert]. unfold by_score_desc at 1. cbn [hit_score].
    destruct (Rlt_dec 0 (1 - 0)) as [_|Hno]; [reflexivity|lra]. }
  split; apply Hsorted.
Qed.

(** ** Keys and identifiers *)

Lemma prefix_append (p s : string) : String.prefix p (p ++ s) = true.
Proof.
  induction p as [|c p IH].
  - destruct s; reflexivity.
  - change (String c p ++ s) with (String c (p ++ s)). simpl.
    destruct (ascii_dec c c) as [_|Hne]; [exact IH|contradiction].
Qed.

Lemma prefix_inv (p s : string) :
  String.prefix p s = true -> exists rest, s = p ++ rest.
Proof.
  revert s. induction p as [|c p IH]; intros s Hp.
  - exists s. reflexivity.
  - destruct s as [|c' s]; simpl in Hp; [discriminate|].
    destruct (ascii_dec c c') as [<-|_]; [|discriminate].
    destruct (IH s Hp) as [rest ->]. exists rest. reflexivity.
Qed.

Lemma substring_skip (p rest : string) (n : nat) :
  (String.length rest <= n)%nat ->
  String.substring (String.length p) n (p ++ rest) = rest.
Proof.
  intros Hn. induction p as [|c p IH].
  - rewrite append_empty. apply (substring0_all n rest Hn).
  - rewrite append_cons. simpl. exact IH.
Qed.

Lemma append_length (s t : string) :
  String.length (s ++ t) = (String.length s + String.length t)%nat.
Proof.
  induction s as [|c s IH]; [reflexivity|].
  rewrite append_cons. simpl. rewrite IH. reflexivity.
Qed.

(** Removing the prefix of a key gives back the identifier. *)
Lemma replace_key_prefix (id : string) : JS.replace "doc:" "" ("doc:" ++ id) = id.
Proof.
  assert (Hunfold : forall s, String.prefix "doc:" s = true ->
            JS.replace "doc:" "" s
            = "" ++ String.substring (String.length "doc:") (String.length s) s).
  { intros s Hs. destruct s as [|c s]; [discriminate Hs|].
    cbn [JS.replace]. rewrite Hs. reflexivity. }
  rewrite Hunfold by apply prefix_append.
  rewrite append_empty. apply substring_skip. rewrite append_length. lia.
Qed.

Lemma index_key_shape (key : string) :
  is_index_key key = true -> key = "doc:" ++ JS.replace "doc:" "" key.
Proof.
  intros Hkey. destruct (prefix_inv _ _ Hkey) as [id ->].
  rewrite replace_key_prefix. reflexivity.
Qed.

Lemma append_inj_l (p s t : string) : p ++ s = p ++ t -> s = t.
Proof.
  induction p as [|c p IH]; intros Heq; [exact Heq|].
  rewrite !append_cons in Heq. injection Heq as Heq. apply IH. exact Heq.
Qed.

(** ** C1: dimensions *)

(** C1, as stated, for [upsert]: on an index whose dimension is 2, the
    upsert of a vector of length 3 succeeds and changes the stored
    records. *)
Lemma upsert_accepts_any_dimension :
  let w := snd (upsertVector "a" [1; 0] ∅ empty_world) in
  established_dimension (redis w) 2
  /\ length [1; 0; 0] <> 2%nat
  /\ exists r w',
       upsertVector "b" [1; 0; 0] ∅ w = (Ok r, w')
       /\ redis w' <> redis w.
Proof.
  intros w. split; [|split; [simpl; lia|]].
  - split.
    + exists "doc:a", {| vector := [1; 0]; metadata := ∅; timestamp := 0 |}.
      split; reflexivity.
    + intros key stored [Hstored _]. subst w. simpl in Hstored.
      apply lookup_insert_Some in Hstored.
      destruct Hstored as [[_ <-]|[_ Hempty]]; [reflexivity|].
      rewrite lookup_empty in Hempty. discriminate.
  - eexists _, _. split; [apply upsertVector_effect|].
    intros Heq.
    apply (f_equal (fun db : gmap string StoredVector => db !! "doc:b")) in Heq.
    vm_compute in Heq. discriminate.
Qed.

(** C1 (as amended). On an index with an established dimension, a search
    whose query vector has another length throws the error of
    [cosineSimilarity] and leaves the stored records as they are; an
    upsert checks no dimension: it succeeds and stores the record under
    its key. *)
Theorem dimension_mismatch_guard {server : RedisServer} (w : World) (d : nat) :
  established_dimension (redis w) d ->
  (forall q k,
      length q <> d ->
      exists w',
        queryTopK q k w
        = (Throw "Failed to query vectors: Vectors must have same length", w')
        /\ redis w' = redis w)
  /\ (forall id vec meta,
        exists r w',
          upsertVector id vec meta w = (Ok r, w')
          /\ redis w'
             = <["doc:" ++ id :=
                  {| vector := vec; metadata := meta; timestamp := clock w |}]> (redis w)).
Proof.
  intros [[key0 [stored0 Hrec0]] Hdim]. split.
  - intros q k Hlen. exists (logged (CallQueryTopK q k) w).
    rewrite queryTopK_effect. split; [|reflexivity].
    f_equal.
    assert (Hin : In key0 (index_keys (redis w))) by (apply index_keys_spec; eauto).
    destruct (index_keys (redis w)) as [|key keys] eqn:Hkeys; [contradiction|].
    rewrite scan_mismatch; [reflexivity|discriminate|].
    rewrite <- Hkeys. rewrite List.Forall_forall. intros key' Hkey'.
    apply index_keys_spec in Hkey'. destruct Hkey' as [stored Hrec].
    exists stored. split; [exact Hrec|].
    rewrite (Hdim key' stored Hrec). intros Heq. apply Hlen. symmetry. exact Heq.
  - intros id vec meta. eexists _, _. split; [apply upsertVector_effect|reflexivity].
Qed.

Lemma dimension_mismatch_guard_witness :
  let w := snd (upsertVector "a" [1; 0] ∅ empty_world) in
  established_dimension (redis w) 2
  /\ (forall q k,
         length q <> 2%nat ->
         exists w',
           queryTopK (server := map_order_server) q k w
           = (Throw "Failed to query vectors: Vectors must have same length", w')
           /\ redis w' = redis w)
  /\ (forall id vec meta,
         exists r w',
           upsertVector id vec meta w = (Ok r, w')
           /\ redis w'
              = <["doc:" ++ id :=
                   {| vector := vec; metadata := meta; timestamp := clock w |}]> (redis w)).
Proof.
  intros w.
  assert (Hdim : established_dimension (redis w) 2).
  { split.
    - exists "doc:a", {| vector := [1; 0]; metadata := ∅; timestamp := 0 |}.
      split; reflexivity.
    - intros key stored [Hstored _]. subst w. simpl in Hstored.
      apply lookup_insert_Some in Hstored.
      destruct Hstored as [[_ <-]|[_ Hempty]]; [reflexivity|].
      rewrite lookup_empty in Hempty. discriminate. }
  split; [exact Hdim|].
  apply (dimension_mismatch_guard (server := map_order_server) w 2 Hdim).
Defined.

(** ** C3: overwriting *)

Lemma scan_In (db : gmap string StoredVector) (q : list R) (keys : list string) :
  forall hits hit,
    scan db q keys = Ok hits -> In hit hits ->
    exists key stored,
      In key keys /\ db !! key = Some stored /\ hit_of q key stored = Ok hit.
Proof.
  induction keys as [|key keys IH]; intros hits hit Hscan Hin; simpl in Hscan.
  - injection Hscan as <-. contradiction.
  - destruct (db !! key) as [stored|] eqn:Hstored.
    + destruct (hit_of q key stored) as [first|m] eqn:Hfirst; simpl in Hscan;
        [|discriminate].
      destruct (scan db q keys) as [others|m] eqn:Hothers; simpl in Hscan;
        [|discriminate].
      injection Hscan as <-. destruct Hin as [<-|Hin].
      * exists key, stored. simpl. auto.
      * destruct (IH others hit eq_refl Hin) as [key' [stored' [Hk [Hs Hh]]]].
        exists key', stored'. simpl. auto.
    + destruct (IH hits hit Hscan Hin) as [key' [stored' [Hk [Hs Hh]]]].
      exists key', stored'. simpl. auto.
Qed.

Lemma firstn_In_inv {A : Type} (n : nat) (l : list A) (x : A) :
  In x (firstn n l) -> In x l.
Proof.
  revert n. induction l as [|y l IH]; intros [|n]; simpl; try contradiction.
  intros [<-|Hin]; [left; reflexivity | right; apply (IH n Hin)].
Qed.

(** Every hit of a search comes from a vector record of the database. *)
Lemma queryTopK_hit_origin {server : RedisServer} (q : list R) (k : nat) (w : World)
    (hits : list Hit) (hit : Hit) :
  fst (queryTopK q k w) = Ok hits -> In hit hits ->
  exists stored,
    redis w !! ("doc:" ++ hit_id hit) = Some stored
    /\ hit_metadata hit = metadata stored
    /\ cosineSimilarity q (vector stored) = Ok (hit_score hit).
Proof.
  rewrite queryTopK_effect. cbn [fst]. intros Hres Hin.
  destruct (index_keys (redis w)) as [|key0 keys0] eqn:Hkeys.
  { injection Hres as <-. contradiction. }
  rewrite <- Hkeys in Hres.
  destruct (scan (redis w) q (index_keys (redis w))) as [sims|m] eqn:Hscan;
    [|discriminate].
  injection Hres as <-.
  apply firstn_In_inv in Hin.
  apply (Permutation_in _ (Array_sort_perm sims)) in Hin.
  destruct (scan_In _ _ _ _ _ Hscan Hin) as [key [stored [Hkey [Hstored Hhit]]]].
  unfold index_keys in Hkey. apply List.filter_In in Hkey. destruct Hkey as [_ Hkey].
  unfold hit_of in Hhit.
  destruct (cosineSimilarity q (vector stored)) as [s|m] eqn:Hs; [|discriminate].
  simpl in Hhit. injection Hhit as <-. simpl.
  exists stored. rewrite <- (index_key_shape key Hkey). auto.
Qed.

(** The result of a search depends on the database alone. *)
Lemma queryTopK_same_database {server : RedisServer} (q : list R) (k : nat) (w w' : World) :
  redis w = redis w' -> fst (queryTopK q k w) = fst (queryTopK q k w').
Proof. intros Hdb. rewrite !queryTopK_effect. cbn [fst]. rewrite Hdb. reflexivity. Qed.

(** C3. Two upserts under one identifier leave the record of the second
    one, the database is the one reached by the second upsert alone, and
    a search then answers for that identifier with the second vector and
    payload only. *)
Theorem upsert_overwrites {server : RedisServer} (w : World) (id : string)
    (v1 v2 : list R) (p1 p2 : gmap string string) (t2 : Z) :
  let w1 := snd (upsertVector id v1 p1 w) in
  let w2 := snd (upsertVector id v2 p2 (at_time t2 w1)) in
  let direct := snd (upsertVector id v2 p2 (at_time t2 w)) in
  redis w2 !! ("doc:" ++ id)
  = Some {| vector := v2; metadata := p2; timestamp := t2 |}
  /\ redis w2 = redis direct
  /\ (forall q k, fst (queryTopK q k w2) = fst (queryTopK q k direct))
  /\ (forall q k hits hit,
        fst (queryTopK q k w2) = Ok hits -> In hit hits -> hit_id hit = id ->
        hit_metadata hit = p2 /\ cosineSimilarity q v2 = Ok (hit_score hit)).
Proof.
  intros w1 w2 direct.
  assert (Hlookup : redis w2 !! ("doc:" ++ id)
                    = Some {| vector := v2; metadata := p2; timestamp := t2 |}).
  { subst w2 w1. simpl. apply lookup_insert_eq. }
  assert (Hdb : redis w2 = redis direct).
  { subst w2 w1 direct. simpl. apply insert_insert_eq. }
  split; [exact Hlookup|]. split; [exact Hdb|].
  split; [intros q k; apply queryTopK_same_database; exact Hdb|].
  intros q k hits hit Hres Hin Hid.
  destruct (queryTopK_hit_origin q k w2 hits hit Hres Hin) as [stored [Hs [Hm Hc]]].
  rewrite Hid, Hlookup in Hs. injection Hs as <-. auto.
Qed.

(** The database keeps no trace of the order of two upserts made at one
    reading of the clock: whatever the server, the two orders of
    insertion give the same answers. *)
Lemma insertion_order_not_recorded {server : RedisServer} (w : World) (a b : string)
    (va vb : list R) (pa pb : gmap string string) (q : list R) (k : nat) :
  a <> b ->
  let a_then_b := snd (upsertVector b vb pb (snd (upsertVector a va pa w))) in
  let b_then_a := snd (upsertVector a va pa (snd (upsertVector b vb pb w))) in
  redis a_then_b = redis b_then_a
  /\ fst (queryTopK q k a_then_b) = fst (queryTopK q k b_then_a).
Proof.
  intros Hne a_then_b b_then_a.
  assert (Hdb : redis a_then_b = redis b_then_a).
  { subst a_then_b b_then_a. simpl. apply insert_insert_ne.
    intros Heq. apply Hne. symmetry. apply (append_inj_l "doc:" _ _ Heq). }
  split; [exact Hdb|].
  rewrite !queryTopK_effect. cbn [fst]. rewrite Hdb. reflexivity.
Qed.

(** ** Deleting *)

Lemma deleteVector_effect (id : string) (w : World) :
  deleteVector id w
  = (Ok tt,
     {| redis := delete ("doc:" ++ id) (redis w);
        sanity := sanity w;
        clock := clock w;
        calls := calls w ++ [CallDeleteVector id] |}).
Proof. reflexivity. Qed.

(** Deleting an identifier the index does not hold changes nothing. *)
Lemma deleteVector_absent (id : string) (w : World) :
  redis w !! ("doc:" ++ id) = None ->
  redis (snd (deleteVector id w)) = redis w.
Proof. intros Habsent. rewrite deleteVector_effect. simpl. apply delete_id, Habsent. Qed.

Lemma deleteVector_keeps_index_joined (id : string) (w : World) :
  index_joined w -> index_joined (snd (deleteVector id w)).
Proof.
  intros Hjoin key stored [Hstored Hkey].
  rewrite deleteVector_effect in Hstored. simpl in Hstored.
  apply lookup_delete_Some in Hstored. destruct Hstored as [_ Hstored].
  apply (Hjoin key stored). split; assumption.
Qed.

(** ** The collaborators as seen by the pipelines *)

Lemma createEmbedding_effect {env : Environment} (text : string) (w : World) :
  createEmbedding text w = (Ok (embedding_of text), logged (CallCreateEmbedding text) w).
Proof.
  unfold createEmbedding, embedding_of, bind, try_catch, record_call, lift, ret, logged.
  destruct api_key_missing; [reflexivity|].
  destruct (lightning_embeddings text); reflexivity.
Qed.

Lemma generateAnswer_effect {env : Environment} (prompt : string) (w : World) :
  generateAnswer prompt w = (Ok (answer_of prompt), logged (CallGenerateAnswer prompt) w).
Proof.
  unfold generateAnswer, answer_of, bind, try_catch, record_call, lift, ret, logged.
  destruct api_key_missing; [reflexivity|].
  destruct (lightning_chat_completions prompt); reflexivity.
Qed.

Lemma getDocument_effect {env : Environment} (docId : string) (w : World) :
  getDocument docId w
  = (match sanity_fault docId with
     | Some m => Throw ("Failed to fetch document: " ++ m)
     | None => Ok (sanity w !! docId)
     end,
     logged (CallGetDocument docId) w).
Proof.
  unfold getDocument, bind, try_catch, record_call, client_getDocument, ret, throw, logged.
  simpl. destruct (sanity_fault docId); reflexivity.
Qed.

(** One step of a pipeline: the first [bind] runs a collaborator whose
    effect is known. *)
Ltac step_with effect := unfold bind at 1; rewrite effect.

Tactic Notation "step_in" hyp(H) "with" constr(effect) :=
  unfold bind at 1 in H; rewrite effect in H.

Lemma logged_all_nil (w : World) : logged_all [] w = w.
Proof. destruct w. unfold logged_all. simpl. rewrite List.app_nil_r. reflexivity. Qed.

Lemma logged_all_cons (c : Call) (cs : list Call) (w : World) :
  logged_all cs (logged c w) = logged_all (c :: cs) w.
Proof.
  unfold logged_all, logged. simpl. rewrite <- List.app_assoc. reflexivity.
Qed.

(** The loop fetches every hit once, in order, and never throws. *)
Lemma contexts_loop_effect {env : Environment} (hits : list Hit) :
  forall (acc : list Context) (w : World),
    contexts_loop hits acc w
    = (Ok (acc ++ map (context_for w) hits)%list,
       logged_all (map (fun hit => CallGetDocument (hit_id hit)) hits) w).
Proof.
  induction hits as [|hit hits IH]; intros acc w.
  - simpl. unfold ret. rewrite List.app_nil_r, logged_all_nil. reflexivity.
  - cbn [contexts_loop]. unfold bind at 1. unfold try_catch at 1. unfold bind at 1.
    rewrite getDocument_effect.
    assert (Hstep : forall ctx,
               contexts_loop hits (acc ++ [ctx]) (logged (CallGetDocument (hit_id hit)) w)
               = (Ok (acc ++ ctx :: map (context_for w) hits)%list,
                  logged_all (map (fun h => CallGetDocument (hit_id h)) (hit :: hits)) w)).
    { intros ctx. rewrite IH. rewrite <- List.app_assoc. simpl.
      rewrite logged_all_cons. reflexivity. }
    cbn [map]. unfold context_for at 1.
    destruct (sanity_fault (hit_id hit)) as [m|]; [apply Hstep|].
    destruct (sanity w !! hit_id hit) as [found|]; apply Hstep.
Qed.

Lemma firstn_sorted (n : nat) (l : list Hit) :
  StronglySorted ranks_above l -> StronglySorted ranks_above (firstn n l).
Proof.
  intros Hsorted. revert n.
  induction Hsorted as [|x l Hsorted IH Hall]; intros [|n]; simpl; try constructor.
  - apply IH.
  - rewrite List.Forall_forall in Hall |- *. intros y Hy.
    apply Hall. apply (firstn_In_inv n l y Hy).
Qed.

(** The hits of a search are in descending order of score. *)
Lemma queryTopK_sorted {server : RedisServer} (q : list R) (k : nat) (w : World) (hits : list Hit) :
  fst (queryTopK q k w) = Ok hits -> StronglySorted ranks_above hits.
Proof.
  rewrite queryTopK_effect. cbn [fst].
  destruct (index_keys (redis w)) as [|key keys].
  - intros [= <-]. constructor.
  - destruct (scan (redis w) q (key :: keys)) as [sims|m]; [|discriminate].
    intros [= <-]. apply firstn_sorted, Array_sort_sorted.
Qed.

(** ** The query pipeline *)

Lemma queryTopK_result {server : RedisServer} (q : list R) (k : nat) (w w0 : World)
    (r : Result (list Hit)) :
  fst (queryTopK q k w0) = r -> redis w = redis w0 ->
  queryTopK q k w = (r, logged (CallQueryTopK q k) w).
Proof.
  intros <- Hdb. rewrite !queryTopK_effect. cbn [fst]. rewrite Hdb. reflexivity.
Qed.

(** The text and title that [queryKnowledge] takes from the payload of a
    hit, and from a document of the store: the first candidate that is
    there and not empty, else the default. *)
Lemma context_of_metadata_fields (hit : Hit) :
  ctx_score (context_of_metadata hit) = hit_score hit
  /\ ctx_text (context_of_metadata hit)
     = match hit_metadata hit !! "snippet" with
       | Some snippet => if String.eqb snippet "" then "Content unavailable" else snippet
       | None => "Content unavailable"
       end
  /\ ctx_title (context_of_metadata hit)
     = Some match hit_metadata hit !! "title" with
            | Some stored_title => if String.eqb stored_title "" then "Untitled"
                                   else stored_title
            | None => "Untitled"
            end.
Proof. repeat split; reflexivity. Qed.

Lemma context_of_document_fields (hit : Hit) (found : SanityDoc) :
  ctx_score (context_of_document hit found) = hit_score hit
  /\ ctx_text (context_of_document hit found)
     = (let snippet := match contentSnippet (attributes found) with
                       | Some stored_snippet => stored_snippet
                       | None => ""
                       end in
        let head := match fullText (attributes found) with
                    | Some full => JS.substring0 500 full
                    | None => ""
                    end in
        if String.eqb snippet "" then
          if String.eqb head "" then "No content" else head
        else snippet)
  /\ ctx_title (context_of_document hit found) = title (attributes found).
Proof.
  split; [reflexivity|]. split; [|reflexivity].
  unfold context_of_document. cbn [ctx_text]. cbv zeta.
  destruct (contentSnippet (attributes found)) as [snippet|]; cbn [JS.or_default].
  - unfold JS.or_else at 2. destruct (String.eqb_spec snippet "") as [->|Hsnippet].
    + reflexivity.
    + unfold JS.or_else. destruct (String.eqb_spec snippet ""); [contradiction|reflexivity].
  - reflexivity.
Qed.

Lemma map_context_for {env : Environment} (w : World) (hits : list Hit) :
  Forall2 (fun hit ctx =>
             ctx_score ctx = hit_score hit
             /\ (document_unavailable w (hit_id hit) ->
                 ctx_text ctx
                 = match hit_metadata hit !! "snippet" with
                   | Some snippet =>
                       if String.eqb snippet "" then "Content unavailable" else snippet
                   | None => "Content unavailable"
                   end
                 /\ ctx_title ctx
                    = Some match hit_metadata hit !! "title" with
                           | Some stored_title =>
                               if String.eqb stored_title "" then "Untitled"
                               else stored_title
                           | None => "Untitled"
                           end)
             /\ (forall found,
                    sanity_fault (hit_id hit) = None ->
                    sanity w !! hit_id hit = Some found ->
                    ctx_text ctx
                    = (let snippet := match contentSnippet (attributes found) with
                                      | Some stored_snippet => stored_snippet
                                      | None => ""
                                      end in
                       let head := match fullText (attributes found) with
                                   | Some full => JS.substring0 500 full
                                   | None => ""
                                   end in
                       if String.eqb snippet "" then
                         if String.eqb head "" then "No content" else head
                       else snippet)
                    /\ ctx_title ctx = title (attributes found)))
    hits (map (context_for w) hits).
Proof.
  induction hits as [|hit hits IH]; simpl; constructor; [|exact IH].
  destruct (context_of_metadata_fields hit) as [Hscore [Htext Htitle]].
  unfold context_for, document_unavailable.
  destruct (sanity_fault (hit_id hit)) as [m|].
  - split; [exact Hscore|]. split; [auto|]. intros found Hfault. discriminate.
  - destruct (sanity w !! hit_id hit) as [found|].
    + destruct (context_of_document_fields hit found) as [Hscore' [Htext' Htitle']].
      split; [exact Hscore'|]. split.
      * intros [Hfault|Hmissing]; [contradiction|discriminate].
      * intros found' _ [= <-]. auto.
    + split; [exact Hscore|]. split; [auto|]. intros found _ Hfound. discriminate.
Qed.

(** A query whose search returns hits: the result and the world. *)
Lemma queryKnowledge_with_hits {env : Environment} {server : RedisServer} (w : World)
    (question : string) (k : nat) (hits : list Hit) :
  fst (queryTopK (embedding_of question) k w) = Ok hits ->
  hits <> [] ->
  queryKnowledge question k w
  = (Ok {| answer := answer_of (build_prompt (map (context_for w) hits) question);
           contexts := map (fun c => (ctx_text c, ctx_score c))
                         (map (context_for w) hits) |},
     logged (CallGenerateAnswer (build_prompt (map (context_for w) hits) question))
       (logged_all (map (fun hit => CallGetDocument (hit_id hit)) hits)
          (logged (CallQueryTopK (embedding_of question) k)
             (logged (CallCreateEmbedding question) w)))).
Proof.
  intros Hsearch Hne.
  unfold queryKnowledge, try_catch.
  step_with createEmbedding_effect.
  step_with (queryTopK_result _ _ (logged (CallCreateEmbedding question) w) w
               (Ok hits) Hsearch eq_refl).
  destruct hits as [|hit hits]; [contradiction|].
  cbn [length Nat.eqb].
  step_with contexts_loop_effect. cbn [app].
  step_with generateAnswer_effect. unfold ret. reflexivity.
Qed.



Lemma empty_index_search {server : RedisServer} (q : list R) (k : nat) (w : World) :
  (forall key stored, ~ vector_record (redis w) key stored) ->
  fst (queryTopK q k w) = Ok [].
Proof.
  intros Hempty. rewrite queryTopK_effect. cbn [fst].
  destruct (index_keys (redis w)) as [|key keys] eqn:Hkeys; [reflexivity|].
  assert (Hin : In key (index_keys (redis w))) by (rewrite Hkeys; left; reflexivity).
  apply index_keys_spec in Hin. destruct Hin as [stored Hrec].
  destruct (Hempty key stored Hrec).
Qed.

(** C5. A query whose search returns no hit, as every query on an empty
    index does, returns the fixed answer with no contexts as an ordinary
    result; after the embedding of the question and the search it calls
    no collaborator, and it leaves the index and the document store as
    they are. *)
Theorem query_without_hits {env : Environment} {server : RedisServer} (w : World)
    (question : string) (k : nat) :
  fst (queryTopK (embedding_of question) k w) = Ok []
  \/ (forall key stored, ~ vector_record (redis w) key stored) ->
  exists w',
    queryKnowledge question k w
    = (Ok {| answer := "No relevant documents found. Please ingest some documents first.";
             contexts := [] |}, w')
    /\ calls w'
       = (calls w ++ [CallCreateEmbedding question;
                      CallQueryTopK (embedding_of question) k])%list
    /\ redis w' = redis w
    /\ sanity w' = sanity w.
Proof.
  intros Hsearch.
  assert (Hnone : fst (queryTopK (embedding_of question) k w) = Ok []).
  { destruct Hsearch as [Hnone|Hempty]; [exact Hnone|].
    apply empty_index_search. exact Hempty. }
  eexists. split; [|split; [|split]].
  - unfold queryKnowledge, try_catch.
    step_with createEmbedding_effect.
    step_with (queryTopK_result _ _ (logged (CallCreateEmbedding question) w) w
                 (Ok []) Hnone eq_refl).
    reflexivity.
  - simpl. rewrite <- List.app_assoc. reflexivity.
  - reflexivity.
  - reflexivity.
Qed.

Lemma query_without_hits_witness :
  (fst (queryTopK (server := map_order_server)
          (embedding_of (env := mock_environment) "What is quantum computing?") 3
          empty_world) = Ok []
   \/ (forall key stored, ~ vector_record (redis empty_world) key stored))
  /\ exists w',
       queryKnowledge (env := mock_environment) (server := map_order_server)
         "What is quantum computing?" 3 empty_world
       = (Ok {| answer := "No relevant documents found. Please ingest some documents first.";
                contexts := [] |}, w')
       /\ calls w'
          = [CallCreateEmbedding "What is quantum computing?";
             CallQueryTopK
               (embedding_of (env := mock_environment) "What is quantum computing?") 3]
       /\ redis w' = ∅
       /\ sanity w' = ∅.
Proof.
  assert (Hempty : forall key stored, ~ vector_record (redis empty_world) key stored).
  { intros key stored [Hstored _]. simpl in Hstored.
    rewrite lookup_empty in Hstored. discriminate. }
  split; [right; exact Hempty|].
  apply (query_without_hits (env := mock_environment) (server := map_order_server)
           empty_world "What is quantum computing?" 3 (or_intror Hempty)).
Defined.

(** ** The ingest pipeline *)

Lemma trimEnd_empty_blank (s : string) : JS.trimEnd s = "" -> blank s = true.
Proof.
  induction s as [|c s IH]; simpl; [reflexivity|].
  destruct (JS.trimEnd s) as [|c' kept]; [|discriminate].
  destruct (JS.is_white_space c); [|discriminate].
  intros _. apply IH. reflexivity.
Qed.

Lemma trimStart_keeps_first (s : string) :
  match JS.trimStart s with
  | EmptyString => True
  | String c _ => JS.is_white_space c = false
  end.
Proof.
  induction s as [|c s IH]; simpl; [exact I|].
  destruct (JS.is_white_space c) eqn:Hc; [exact IH|exact Hc].
Qed.

(** A text is empty after trimming exactly when it is made of white
    space. *)
Lemma trim_empty_iff_blank (s : string) : JS.trim s = "" <-> blank s = true.
Proof.
  unfold JS.trim. split.
  - intros Htrim. apply trimEnd_empty_blank in Htrim.
    pose proof (trimStart_keeps_first s) as Hfirst.
    induction s as [|c s IH]; simpl in *; [reflexivity|].
    destruct (JS.is_white_space c) eqn:Hc; simpl.
    + apply IH; assumption.
    + simpl in Htrim. rewrite Hc in Htrim. discriminate.
  - intros Hblank. induction s as [|c s IH]; simpl in *; [reflexivity|].
    apply andb_prop in Hblank. destruct Hblank as [Hc Hs].
    rewrite Hc. apply IH. exact Hs.
Qed.

(** C6. When the text that the handler read from the request is empty
    after trimming, the handler answers 400 ["Empty content"] and the
    world is the one it started in: no document was saved, no embedding
    computed, no vector stored, no collaborator called. *)
Theorem blank_text_rejected {env : Environment} (req : IngestRequest) (w : World)
    (text source : string) :
  read_request req = Ok (inr (text, source)) ->
  JS.trim text = "" ->
  post_api_ingest req w = ({| status := 400; body := ErrorBody "Empty content" |}, w).
Proof.
  intros Hread Hblank. unfold post_api_ingest.
  rewrite Hread, Hblank. reflexivity.
Qed.

Lemma blank_text_rejected_witness :
  let req := {| req_file := None; req_text := Some "   " |} in
  read_request (env := mock_environment) req = Ok (inr ("   ", "pasted_text"))
  /\ JS.trim "   " = ""
  /\ post_api_ingest (env := mock_environment) req empty_world
     = ({| status := 400; body := ErrorBody "Empty content" |}, empty_world).
Proof.
  intros req. split; [reflexivity|]. split; [reflexivity|].
  apply (blank_text_rejected (env := mock_environment) req empty_world
           "   " "pasted_text"); reflexivity.
Defined.

(** A pasted text that is the empty string is refused even earlier, as
    a request without text. *)
Lemma empty_pasted_text_rejected {env : Environment} (w : World) :
  post_api_ingest {| req_file := None; req_text := Some "" |} w
  = ({| status := 400; body := ErrorBody "No file or text provided" |}, w).
Proof. reflexivity. Qed.

(** The check is the handler's: [ingestDocument] called on a blank text
    saves a document. *)
Lemma ingestDocument_does_not_validate :
  calls (snd (ingestDocument (env := remote_environment) "   " "direct" empty_world))
  = [CallSaveDocument (ingested_document "   " "direct");
     CallCreateEmbedding "   ";
     CallUpsertVector "d1" [1; 0]
       (ingest_metadata (derive_title "   ") "direct" (derive_snippet "   "))].
Proof. reflexivity. Qed.

Lemma saveDocument_effect {env : Environment} (doc : NewDocument) (w : World) :
  saveDocument doc w
  = match sanity_create (sanity w) (document_of doc (clock w)) with
    | Ok id =>
        let saved := {| _id := id; attributes := document_of doc (clock w) |} in
        (Ok saved,
         {| redis := redis w;
            sanity := <[id := saved]> (sanity w);
            clock := clock w;
            calls := calls w ++ [CallSaveDocument doc] |})
    | Throw m =>
        (Throw ("Failed to save document to Sanity: " ++ m),
         logged (CallSaveDocument doc) w)
    end.
Proof.
  unfold saveDocument, try_catch, bind, record_call, Date_now, client_create, ret, throw,
    document_of, logged.
  simpl. destruct (sanity_create (sanity w) _); reflexivity.
Qed.

Lemma index_joined_more_documents (w w' : World) :
  redis w' = redis w ->
  (forall id, is_Some (sanity w !! id) -> is_Some (sanity w' !! id)) ->
  index_joined w -> index_joined w'.
Proof.
  intros Hdb Hdocs Hjoin key stored Hrec. rewrite Hdb in Hrec.
  destruct (Hjoin key stored Hrec) as [id [Hkey Hdoc]].
  exists id. split; [exact Hkey|apply Hdocs; exact Hdoc].
Qed.

Lemma index_joined_upsert (w w' : World) (id : string) (stored : StoredVector) :
  redis w' = <["doc:" ++ id := stored]> (redis w) ->
  sanity w' = sanity w ->
  is_Some (sanity w !! id) ->
  index_joined w -> index_joined w'.
Proof.
  intros Hdb Hdocs Hdoc Hjoin key stored' [Hstored Hkey].
  rewrite Hdb in Hstored. rewrite Hdocs.
  apply lookup_insert_Some in Hstored.
  destruct Hstored as [[<- _]|[_ Hold]].
  - exists id. split; [reflexivity|exact Hdoc].
  - apply (Hjoin key stored'). split; assumption.
Qed.

(** The three steps of a successful ingest, one after the other. *)
Lemma ingestDocument_steps {env : Environment} (text source : string) (w w' : World)
    (r : IngestResult) :
  ingestDocument text source w = (Ok r, w') ->
  let doc := ingested_document text source in
  let meta := ingest_metadata (derive_title text) source (derive_snippet text) in
  exists saved w1 w2,
    saveDocument doc w = (Ok saved, w1)
    /\ createEmbedding text w1 = (Ok (embedding_of text), w2)
    /\ upsertVector (_id saved) (embedding_of text) meta w2
       = (Ok {| upsert_id := _id saved; upsert_key := "doc:" ++ _id saved |}, w')
    /\ r = {| sanityId := _id saved; redisId := _id saved;
              ingest_title := derive_title text |}.
Proof.
  intros Hrun doc meta.
  unfold ingestDocument, try_catch in Hrun. unfold bind at 1 in Hrun.
  fold (ingested_document text source) in Hrun. fold doc in Hrun.
  destruct (saveDocument doc w) as [[saved|m] w1] eqn:Hsave.
  - step_in Hrun with createEmbedding_effect.
    step_in Hrun with upsertVector_effect.
    unfold ret in Hrun. injection Hrun as <- <-.
    exists saved, w1, (logged (CallCreateEmbedding text) w1).
    split; [reflexivity|]. split; [apply createEmbedding_effect|].
    split; [apply upsertVector_effect|reflexivity].
  - unfold throw in Hrun. discriminate.
Qed.

(** C7. In a successful ingest the document is saved first and its
    identifier obtained, then the embedding is computed, then the vector
    is stored under that identifier; in the worlds between the steps and
    at the end every vector record is keyed by a document of the
    dataset, if that was so at the start. *)
Theorem ingest_persists_before_indexing {env : Environment} (text source : string)
    (w w' : World) (r : IngestResult) :
  ingestDocument text source w = (Ok r, w') ->
  let doc := ingested_document text source in
  let meta := ingest_metadata (derive_title text) source (derive_snippet text) in
  exists saved w1 w2,
    saveDocument doc w = (Ok saved, w1)
    /\ sanity w1 !! _id saved = Some saved
    /\ redis w1 = redis w
    /\ createEmbedding text w1 = (Ok (embedding_of text), w2)
    /\ redis w2 = redis w
    /\ sanity w2 = sanity w1
    /\ upsertVector (_id saved) (embedding_of text) meta w2
       = (Ok {| upsert_id := _id saved; upsert_key := "doc:" ++ _id saved |}, w')
    /\ redis w'
       = <["doc:" ++ _id saved :=
            {| vector := embedding_of text; metadata := meta; timestamp := clock w |}]>
           (redis w)
    /\ sanity w' = sanity w1
    /\ sanityId r = _id saved
    /\ redisId r = _id saved
    /\ calls w'
       = (calls w ++ [CallSaveDocument doc;
                      CallCreateEmbedding text;
                      CallUpsertVector (_id saved) (embedding_of text) meta])%list
    /\ (index_joined w -> index_joined w1 /\ index_joined w2 /\ index_joined w').
Proof.
  intros Hrun doc meta.
  destruct (ingestDocument_steps text source w w' r Hrun)
    as [saved [w1 [w2 [Hsave [Hembed [Hupsert ->]]]]]].
  fold doc in Hsave. fold meta in Hupsert.
  exists saved, w1, w2.
  pose proof Hsave as Hsave'. rewrite saveDocument_effect in Hsave'.
  destruct (sanity_create (sanity w) (document_of doc (clock w))) as [id|m];
    [|discriminate].
  cbn zeta in Hsave'. injection Hsave' as <- <-.
  pose proof Hembed as Hembed'. rewrite createEmbedding_effect in Hembed'.
  injection Hembed' as <-.
  pose proof Hupsert as Hupsert'. rewrite upsertVector_effect in Hupsert'.
  injection Hupsert' as <-.
  set (saved := {| _id := id; attributes := document_of doc (clock w) |}) in *.
  assert (Hdoc : (<[id := saved]> (sanity w) : gmap string SanityDoc) !! id = Some saved)
    by apply lookup_insert_eq.
  repeat (split; [first [exact Hsave | exact Hembed | exact Hupsert | exact Hdoc
                        | reflexivity]|]).
  split.
  { simpl. rewrite <- !List.app_assoc. reflexivity. }
  intros Hjoin.
  assert (Hjoin1 : index_joined
                     {| redis := redis w; sanity := <[id := saved]> (sanity w);
                        clock := clock w; calls := calls w ++ [CallSaveDocument doc] |}).
  { apply (index_joined_more_documents w); [reflexivity| |exact Hjoin].
    intros id' Hsome. simpl. destruct (decide (id = id')) as [<-|Hne].
    - rewrite lookup_insert_eq. eauto.
    - rewrite lookup_insert_ne by exact Hne. exact Hsome. }
  split; [exact Hjoin1|]. split.
  - apply (index_joined_more_documents _ _ eq_refl (fun _ Hsome => Hsome) Hjoin1).
  - match type of Hjoin1 with
    | index_joined ?w1 =>
        apply (index_joined_upsert w1 _ id
                 {| vector := embedding_of text; metadata := meta;
                    timestamp := clock w |});
          [reflexivity|reflexivity| |exact Hjoin1]
    end.
    simpl. rewrite Hdoc. eauto.
Qed.

Lemma ingest_persists_before_indexing_witness :
  let text := "Quantum computing uses superposition." in
  let doc := ingested_document text "pasted_text" in
  let meta := ingest_metadata (derive_title text) "pasted_text" (derive_snippet text) in
  exists r w',
    ingestDocument (env := remote_environment) text "pasted_text" empty_world = (Ok r, w')
    /\ sanityId r = "d1"
    /\ redisId r = "d1"
    /\ is_Some (sanity w' !! "d1")
    /\ is_Some (redis w' !! "doc:d1")
    /\ calls w'
       = [CallSaveDocument doc; CallCreateEmbedding text; CallUpsertVector "d1" [1; 0] meta]
    /\ index_joined w'.
Proof.
  intros text doc meta.
  set (r := {| sanityId := "d1"; redisId := "d1"; ingest_title := derive_title text |}).
  set (w' := snd (ingestDocument (env := remote_environment) text "pasted_text"
                    empty_world)).
  assert (Hrun : ingestDocument (env := remote_environment) text "pasted_text" empty_world
                 = (Ok r, w')) by reflexivity.
  exists r, w'. split; [exact Hrun|].
  destruct (ingest_persists_before_indexing (env := remote_environment)
              text "pasted_text" empty_world w' r Hrun)
    as [saved [w1 [w2 [Hsave [Hdoc [_ [_ [_ [Hdocs2 [_ [Hdb [Hdocs [Hsid [Hrid
         [Hcalls Hjoin]]]]]]]]]]]]]]].
  assert (Hid : _id saved = "d1") by (injection Hsave as <- _; reflexivity).
  rewrite Hid in *.
  split; [exact Hsid|]. split; [exact Hrid|].
  split; [rewrite Hdocs, Hdoc; eauto|].
  split; [rewrite Hdb, lookup_insert_eq; eauto|].
  split; [exact Hcalls|].
  apply Hjoin. intros key stored [Hstored _]. simpl in Hstored.
  rewrite lookup_empty in Hstored. discriminate.
Defined.

(** Whatever its outcome, an ingest keeps every vector record keyed by
    a document of the dataset. *)
Lemma ingest_keeps_index_joined {env : Environment} (text source : string) (w : World) :
  index_joined w -> index_joined (snd (ingestDocument text source w)).
Proof.
  intros Hjoin.
  unfold ingestDocument, try_catch.
  step_with saveDocument_effect.
  destruct (sanity_create (sanity w) _) as [id|m]; [|exact Hjoin].
  cbn zeta.
  step_with createEmbedding_effect.
  step_with upsertVector_effect. cbn [snd ret].
  match goal with
  | |- index_joined {| redis := <[_ := ?stored]> _; sanity := ?docs;
                       clock := ?c; calls := _ |} =>
      apply (index_joined_upsert
               {| redis := redis w; sanity := docs; clock := c; calls := calls w |}
               _ id stored); [reflexivity|reflexivity| |]
  end.
  - simpl. rewrite lookup_insert_eq. eauto.
  - apply (index_joined_more_documents w); [reflexivity| |exact Hjoin].
    intros id' Hsome. simpl. destruct (decide (id = id')) as [<-|Hne].
    + rewrite lookup_insert_eq. eauto.
    + rewrite lookup_insert_ne by exact Hne. exact Hsome.
Qed.

(** ** The mock embedding *)

Example text_hash_abc : text_hash "abc" = 96354%Z.
Proof. reflexivity. Qed.

Lemma fold_left_step {A B : Type} (f : A -> B -> A) (b : B) (l : list B) (a : A) :
  fold_left f (b :: l) a = fold_left f l (f a b).
Proof. reflexivity. Qed.

Lemma to_int32_range (z : Z) : (- 2 ^ 31 <= to_int32 z < 2 ^ 31)%Z.
Proof.
  unfold to_int32.
  pose proof (Z.mod_pos_bound (z + 2 ^ 31) (2 ^ 32) eq_refl). lia.
Qed.

(** The hash stays a 32-bit integer. *)
Lemma text_hash_range (text : string) : (- 2 ^ 31 <= text_hash text < 2 ^ 31)%Z.
Proof.
  unfold text_hash.
  assert (Hfold : forall chars start,
             (- 2 ^ 31 <= start < 2 ^ 31)%Z ->
             (- 2 ^ 31 <= fold_left hash_step chars start < 2 ^ 31)%Z).
  { induction chars as [|c chars IH]; intros start Hstart; [exact Hstart|].
    rewrite fold_left_step. apply IH. unfold hash_step. apply to_int32_range. }
  apply Hfold. lia.
Qed.

Lemma one_lt_PI : 1 < PI.
Proof. pose proof PI2_1. pose proof PI_RGT_0. lra. Qed.

Lemma cos_1_lt_cos_07 : cos 1 < cos (7 / 10).
Proof. pose proof one_lt_PI. apply cos_decreasing_1; lra. Qed.

Lemma sin_1_pos : 0 < sin 1.
Proof. apply sin_gt_0; [lra | apply one_lt_PI]. Qed.

(** Three consecutive zeros of [sin a + cos (0.7 a)] force [sin] to
    vanish at the middle one. *)
Lemma wave_three_zeros (a : R) :
  sin (a - 1) + cos ((a - 1) * (7 / 10)) = 0 ->
  sin a + cos (a * (7 / 10)) = 0 ->
  sin (a + 1) + cos ((a + 1) * (7 / 10)) = 0 ->
  sin a = 0.
Proof.
  intros Hprev Hhere Hnext.
  replace ((a - 1) * (7 / 10)) with (a * (7 / 10) - 7 / 10) in Hprev by lra.
  replace ((a + 1) * (7 / 10)) with (a * (7 / 10) + 7 / 10) in Hnext by lra.
  rewrite sin_minus, cos_minus in Hprev.
  rewrite sin_plus, cos_plus in Hnext.
  assert (Hc : cos (a * (7 / 10)) = - sin a) by lra.
  rewrite Hc in Hprev, Hnext.
  assert (Hprod : sin a * (cos 1 - cos (7 / 10)) = 0) by lra.
  apply Rmult_integral in Hprod.
  pose proof cos_1_lt_cos_07.
  destruct Hprod; lra.
Qed.

(** Four consecutive seeds cannot all give a zero component. *)
Lemma wave_four_zeros (x : R) :
  ~ (sin x + cos (x * (7 / 10)) = 0
     /\ sin (x + 1) + cos ((x + 1) * (7 / 10)) = 0
     /\ sin (x + 2) + cos ((x + 2) * (7 / 10)) = 0
     /\ sin (x + 3) + cos ((x + 3) * (7 / 10)) = 0).
Proof.
  intros [H0 [H1 [H2 H3]]].
  assert (Hs1 : sin (x + 1) = 0).
  { apply wave_three_zeros; [|exact H1|].
    - replace (x + 1 - 1) with x by lra. exact H0.
    - replace (x + 1 + 1) with (x + 2) by lra. exact H2. }
  assert (Hs2 : sin (x + 1 + 1) = 0).
  { replace (x + 1 + 1) with (x + 2) by lra.
    apply wave_three_zeros; [|exact H2|].
    - replace (x + 2 - 1) with (x + 1) by lra. exact H1.
    - replace (x + 2 + 1) with (x + 3) by lra. exact H3. }
  rewrite sin_plus, Hs1 in Hs2.
  assert (Hc1 : cos (x + 1) = 0).
  { pose proof sin_1_pos.
    assert (Hprod : cos (x + 1) * sin 1 = 0) by lra.
    apply Rmult_integral in Hprod. destruct Hprod; lra. }
  pose proof (sin2_cos2 (x + 1)) as Hunit. unfold Rsqr in Hunit.
  rewrite Hs1, Hc1 in Hunit. lra.
Qed.

Lemma mock_component_zero (hash : Z) (i : nat) :
  mock_component hash i = 0 ->
  sin (IZR hash + INR i) + cos ((IZR hash + INR i) * (7 / 10)) = 0.
Proof.
  unfold mock_component. rewrite plus_IZR, <- INR_IZR_INZ. lra.
Qed.

Lemma sum_of_squares_from (vec : list R) (start : R) :
  fold_left (fun sum val => sum + val * val) vec start = start + dot vec vec.
Proof.
  revert start. induction vec as [|x vec IH]; intros start; simpl; [lra|].
  rewrite IH. lra.
Qed.

Lemma sum_of_squares_dot (vec : list R) : sum_of_squares vec = dot vec vec.
Proof. unfold sum_of_squares. rewrite sum_of_squares_from. lra. Qed.

Lemma dot_self_zero (vec : list R) : dot vec vec = 0 -> forall x, In x vec -> x = 0.
Proof.
  induction vec as [|y vec IH]; intros Hzero x Hin; [contradiction|].
  simpl in Hzero. pose proof (dot_self_nonneg vec) as Hrest.
  pose proof (Rle_0_sqr y) as Hy. unfold Rsqr in Hy.
  destruct Hin as [<-|Hin].
  - assert (Hsq : y * y = 0) by lra.
    apply Rmult_integral in Hsq. destruct Hsq; assumption.
  - apply IH; [lra|exact Hin].
Qed.

Lemma mock_vector_nonzero (hash : Z) :
  0 < dot (map (mock_component hash) (seq 0 384)) (map (mock_component hash) (seq 0 384)).
Proof.
  set (vec := map (mock_component hash) (seq 0 384)).
  destruct (Rle_lt_or_eq_dec 0 (dot vec vec) (dot_self_nonneg vec)) as [Hpos|Hzero];
    [exact Hpos|].
  exfalso.
  assert (Hcomp : forall i, (i < 384)%nat -> mock_component hash i = 0).
  { intros i Hi. apply (dot_self_zero vec (eq_sym Hzero)).
    apply List.in_map. apply List.in_seq. lia. }
  apply (wave_four_zeros (IZR hash)).
  pose proof (mock_component_zero hash 0 (Hcomp 0%nat ltac:(lia))) as H0.
  pose proof (mock_component_zero hash 1 (Hcomp 1%nat ltac:(lia))) as H1.
  pose proof (mock_component_zero hash 2 (Hcomp 2%nat ltac:(lia))) as H2.
  pose proof (mock_component_zero hash 3 (Hcomp 3%nat ltac:(lia))) as H3.
  simpl INR in H0, H1, H2, H3.
  replace (IZR hash + 0) with (IZR hash) in H0 by lra.
  replace (IZR hash + (1 + 1)) with (IZR hash + 2) in H2 by lra.
  replace (IZR hash + (1 + 1 + 1)) with (IZR hash + 3) in H3 by lra.
  auto.
Qed.

Lemma dot_scaled (m : R) (vec : list R) :
  m <> 0 ->
  dot (map (fun val => val / m) vec) (map (fun val => val / m) vec)
  = dot vec vec / (m * m).
Proof.
  intros Hm. induction vec as [|x vec IH]; simpl.
  - field. exact Hm.
  - rewrite IH. field. exact Hm.
Qed.

Lemma generateMockEmbedding_length (text : string) :
  length (generateMockEmbedding text) = 384%nat.
Proof.
  unfold generateMockEmbedding. rewrite !List.length_map, List.length_seq. reflexivity.
Qed.

Lemma generateMockEmbedding_unit (text : string) :
  dot (generateMockEmbedding text) (generateMockEmbedding text) = 1.
Proof.
  unfold generateMockEmbedding. cbv zeta.
  set (vec := map (mock_component (text_hash text)) (seq 0 384)).
  pose proof (mock_vector_nonzero (text_hash text)) as Hpos. fold vec in Hpos.
  rewrite sum_of_squares_dot.
  assert (Hm : sqrt (dot vec vec) <> 0).
  { pose proof (sqrt_lt_R0 _ Hpos). lra. }
  rewrite (dot_scaled _ vec Hm), sqrt_sqrt by lra.
  field. lra.
Qed.

(** The dot product of two vectors is bounded by the mean of their
    squared norms. *)
Lemma dot_mean_bound (a b : list R) :
  - (dot a a + dot b b) <= 2 * dot a b <= dot a a + dot b b.
Proof.
  revert b. induction a as [|x a IH]; intros [|y b]; simpl.
  - lra.
  - pose proof (dot_self_nonneg b). pose proof (Rle_0_sqr y) as Hy.
    unfold Rsqr in Hy. lra.
  - pose proof (dot_self_nonneg a). pose proof (Rle_0_sqr x) as Hx.
    unfold Rsqr in Hx. lra.
  - specialize (IH b).
    pose proof (Rle_0_sqr (x - y)) as Hminus. pose proof (Rle_0_sqr (x + y)) as Hplus.
    unfold Rsqr in Hminus, Hplus. lra.
Qed.
(** * Double precision: where the code leaves exact arithmetic *)

(** C8. [cosineSimilarity] guards the division with [magnitude === 0],
    and with a zero vector the guard gives the score 0 as long as the
    other sum of squares stays in range.  When that sum overflows, as
    with the component [1e200], the product of the magnitudes is
    [0 * Infinity], which is [NaN] and not equal to 0: the guard is
    passed and the score is [NaN].  When the squares underflow, as with
    the component [1e-200], the guard gives 0 for two vectors that are
    not zero. *)
Theorem zero_vector_scores_NaN :
  Double.cosineSimilarity [0%float] [1e200%float] = Ok nan
  /\ Double.cosineSimilarity [0%float; 0%float] [3%float; 4%float] = Ok 0%float
  /\ Double.cosineSimilarity [1e-200%float] [1e-200%float] = Ok 0%float.
Proof. repeat split; vm_compute; reflexivity. Qed.

Lemma double_embedding_length {math : Double.MathLibrary} (text : string) :
  length (Double.generateMockEmbedding text) = 384%nat.
Proof.
  unfold Double.generateMockEmbedding. cbv zeta.
  rewrite !List.length_map, List.length_seq. reflexivity.
Qed.

Lemma double_score_defined (vecA vecB : list float) :
  length vecA = length vecB -> exists s, Double.cosineSimilarity vecA vecB = Ok s.
Proof.
  intros Hlen. unfold Double.cosineSimilarity.
  rewrite (proj2 (Nat.eqb_eq _ _) Hlen).
  destruct (Double.cosine_loop vecA vecB) as [[dotProduct magA] magB]. eauto.
Qed.


(** * Further properties of the code *)

(** ** Cosine similarity: symmetry *)

Lemma dot_comm (a b : list R) : dot a b = dot b a.
Proof.
  revert b. induction a as [|x a IH]; intros [|y b]; simpl; try reflexivity.
  rewrite (IH b). ring.
Qed.

(** X2. The score does not depend on the order of the two arguments,
    and neither does the error for vectors of different lengths. *)
Theorem cosineSimilarity_symmetric (a b : list R) :
  cosineSimilarity a b = cosineSimilarity b a.
Proof.
  destruct (Nat.eq_dec (length a) (length b)) as [Hlen|Hlen].
  - rewrite (cosineSimilarity_value a b Hlen), (cosineSimilarity_value b a (eq_sym Hlen)).
    rewrite (dot_comm b a), (Rmult_comm (norm b) (norm a)). reflexivity.
  - rewrite (cosineSimilarity_length_mismatch a b Hlen).
    rewrite cosineSimilarity_length_mismatch; [reflexivity|].
    intros Heq. apply Hlen. symmetry. exact Heq.
Qed.

(** ** The vector index: when a search succeeds, and what it returns *)

(** A scan over a key whose vector has another length throws. *)
Lemma scan_In_record (db : gmap string StoredVector) (q : list R) (keys : list string)
    (key : string) (stored : StoredVector) :
  In key keys -> db !! key = Some stored ->
  length (vector stored) = length q
  \/ scan db q keys = Throw "Vectors must have same length".
Proof.
  intros Hin Hstored.
  destruct (Nat.eq_dec (length (vector stored)) (length q)) as [Hlen|Hlen];
    [left; exact Hlen|right].
  induction keys as [|key' keys IH]; [contradiction|].
  simpl. destruct Hin as [->|Hin].
  - rewrite Hstored. unfold hit_of.
    rewrite cosineSimilarity_length_mismatch
      by (intros Heq; apply Hlen; symmetry; exact Heq).
    reflexivity.
  - specialize (IH Hin).
    destruct (db !! key') as [stored'|]; [|exact IH].
    unfold hit_of.
    destruct (Nat.eq_dec (length q) (length (vector stored'))) as [Hlen'|Hlen'].
    + destruct (cosineSimilarity_defined q (vector stored') Hlen') as [s ->]. simpl.
      rewrite IH. reflexivity.
    + rewrite (cosineSimilarity_length_mismatch q (vector stored') Hlen'). reflexivity.
Qed.

(** X5. A search returns a result exactly when every stored vector has
    the length of the query vector: one record of another length makes
    every search throw, and an empty index never does. *)
Theorem search_succeeds_iff_dimensions_agree {server : RedisServer} (w : World)
    (q : list R) (k : nat) :
  (exists hits, fst (queryTopK q k w) = Ok hits) <-> dimension_agrees (redis w) q.
Proof.
  rewrite queryTopK_effect. cbn [fst]. split.
  - intros [hits Hres] key stored Hrec.
    assert (Hin : In key (index_keys (redis w))) by (apply index_keys_spec; eauto).
    destruct (index_keys (redis w)) as [|key0 keys0] eqn:Hkeys; [contradiction|].
    rewrite <- Hkeys in *.
    destruct (scan_In_record (redis w) q (index_keys (redis w)) key stored Hin (proj1 Hrec))
      as [Hok|Hthrow].
    + exact Hok.
    + rewrite Hthrow in Hres. discriminate.
  - intros Hagree.
    destruct (scan_agreeing (redis w) q (index_keys (redis w)) Hagree
                (index_keys_records (redis w))) as [candidates [Hscan _]].
    rewrite Hscan. destruct (index_keys (redis w)); eauto.
Qed.

Lemma scan_length (db : gmap string StoredVector) (q : list R) (keys : list string)
    (hits : list Hit) :
  Forall (fun key => is_Some (db !! key)) keys ->
  scan db q keys = Ok hits -> length hits = length keys.
Proof.
  intros Hkeys. revert hits.
  induction Hkeys as [|key keys [stored Hstored] _ IH]; intros hits Hscan; simpl in Hscan.
  - injection Hscan as <-. reflexivity.
  - rewrite Hstored in Hscan.
    destruct (hit_of q key stored) as [hit|m]; simpl in Hscan; [|discriminate].
    destruct (scan db q keys) as [others|m]; simpl in Hscan; [|discriminate].
    injection Hscan as <-. simpl. f_equal. apply IH. reflexivity.
Qed.

Lemma index_keys_present {server : RedisServer} (db : gmap string StoredVector) :
  Forall (fun key => is_Some (db !! key)) (index_keys db).
Proof.
  rewrite List.Forall_forall. intros key Hin.
  apply index_keys_spec in Hin. destruct Hin as [stored [Hstored _]]. eauto.
Qed.

(** What a successful search computed: the candidates of the scan, and
    the first [k] of their ranking. *)
Lemma queryTopK_Ok_inv {server : RedisServer} (q : list R) (k : nat) (w : World)
    (hits : list Hit) :
  fst (queryTopK q k w) = Ok hits ->
  exists candidates,
    scan (redis w) q (index_keys (redis w)) = Ok candidates
    /\ hits = firstn k (Array_sort by_score_desc candidates).
Proof.
  rewrite queryTopK_effect. cbn [fst].
  destruct (index_keys (redis w)) as [|key keys] eqn:Hkeys.
  - intros [= <-]. exists []. split; [reflexivity|]. destruct k; reflexivity.
  - destruct (scan (redis w) q (key :: keys)) as [candidates|m]; [|discriminate].
    intros [= <-]. exists candidates. auto.
Qed.

(** X6. A search returns as many hits as it was asked for, or all the
    records when there are fewer. *)
Theorem search_result_size {server : RedisServer} (w : World) (q : list R) (k : nat)
    (hits : list Hit) :
  fst (queryTopK q k w) = Ok hits ->
  length hits = Nat.min k (length (index_keys (redis w)))
  /\ forall key, In key (index_keys (redis w))
                 <-> exists stored, vector_record (redis w) key stored.
Proof.
  intros Hres. split; [|intros key; apply index_keys_spec].
  destruct (queryTopK_Ok_inv q k w hits Hres) as [candidates [Hscan ->]].
  rewrite List.length_firstn.
  rewrite (Permutation_length (Array_sort_perm candidates)).
  rewrite (scan_length _ _ _ _ (index_keys_present (redis w)) Hscan). reflexivity.
Qed.

Lemma search_two_records (k : nat) :
  let w1 := snd (upsertVector "a" [1; 0] ∅ empty_world) in
  let w2 := snd (upsertVector "b" [0; 1] ∅ w1) in
  fst (queryTopK (server := map_order_server) [0; 1] k w2)
  = Ok (firstn k [ {| hit_id := "b"; hit_score := 1; hit_metadata := ∅ |};
                   {| hit_id := "a"; hit_score := 0; hit_metadata := ∅ |} ]).
Proof.
  intros w1 w2.
  assert (Hkeys : index_keys (server := map_order_server) (redis w2) = ["doc:a"; "doc:b"])
    by (vm_compute; reflexivity).
  assert (Ha : redis w2 !! "doc:a"
               = Some {| vector := [1; 0]; metadata := ∅; timestamp := 0 |})
    by (vm_compute; reflexivity).
  assert (Hb : redis w2 !! "doc:b"
               = Some {| vector := [0; 1]; metadata := ∅; timestamp := 0 |})
    by (vm_compute; reflexivity).
  rewrite queryTopK_effect, Hkeys. cbn [fst scan].
  rewrite Ha, Hb. unfold hit_of. cbn [vector metadata].
  rewrite cosine_parallel, cosine_orthogonal.
  cbn [bind_result Array_sort]. simpl (sort_insert _ _ []).
  cbn [sort_insert]. unfold by_score_desc at 1. cbn [hit_score].
  destruct (Rlt_dec 0 (1 - 0)) as [_|Hno]; [reflexivity|lra].
Qed.

Lemma search_result_size_witness :
  let w1 := snd (upsertVector "a" [1; 0] ∅ empty_world) in
  let w2 := snd (upsertVector "b" [0; 1] ∅ w1) in
  fst (queryTopK (server := map_order_server) [0; 1] 1 w2)
  = Ok [ {| hit_id := "b"; hit_score := 1; hit_metadata := ∅ |} ]
  /\ length [ {| hit_id := "b"; hit_score := 1; hit_metadata := ∅ |} ]
     = Nat.min 1 (length (index_keys (server := map_order_server) (redis w2))).
Proof.
  intros w1 w2. pose proof (search_two_records 1) as Hsearch.
  cbv zeta in Hsearch. fold w1 w2 in Hsearch.
  split; [exact Hsearch|].
  exact (proj1 (search_result_size (server := map_order_server) w2 [0; 1] 1 _ Hsearch)).
Defined.

Lemma sorted_app_ranks (l1 l2 : list Hit) :
  StronglySorted ranks_above (l1 ++ l2)%list ->
  forall a b, In a l1 -> In b l2 -> ranks_above a b.
Proof.
  induction l1 as [|x l1 IH]; intros Hsorted a b Ha Hb; [contradiction|].
  simpl in Hsorted. inversion Hsorted as [|? ? Htail Hall]; subst.
  destruct Ha as [<-|Ha].
  - rewrite List.Forall_forall in Hall. apply Hall.
    apply List.in_or_app. right. exact Hb.
  - apply (IH Htail a b Ha Hb).
Qed.

Lemma scan_has_record (db : gmap string StoredVector) (q : list R) (keys : list string)
    (candidates : list Hit) (key : string) (stored : StoredVector) :
  scan db q keys = Ok candidates -> In key keys -> db !! key = Some stored ->
  exists hit, In hit candidates /\ hit_of q key stored = Ok hit.
Proof.
  revert candidates. induction keys as [|key' keys IH]; intros candidates Hscan Hin Hstored;
    [contradiction|].
  simpl in Hscan.
  destruct (db !! key') as [stored'|] eqn:Hstored'.
  - destruct (hit_of q key' stored') as [first|m] eqn:Hfirst; simpl in Hscan;
      [|discriminate].
    destruct (scan db q keys) as [others|m]; simpl in Hscan; [|discriminate].
    injection Hscan as <-.
    destruct Hin as [->|Hin].
    + rewrite Hstored in Hstored'. injection Hstored' as <-.
      exists first. split; [left; reflexivity|exact Hfirst].
    + destruct (IH others eq_refl Hin Hstored) as [hit [Hhit Hof]].
      exists hit. split; [right; exact Hhit|exact Hof].
  - destruct Hin as [->|Hin]; [rewrite Hstored in Hstored'; discriminate|].
    apply (IH candidates Hscan Hin Hstored).
Qed.



(** ** The vector index: round trips and composition *)

(** The hit of a stored record is among the ranked candidates of a
    successful search. *)
Lemma search_candidate {server : RedisServer} (w : World) (q : list R) (k : nat)
    (hits : list Hit) (key : string) (stored : StoredVector) :
  fst (queryTopK q k w) = Ok hits ->
  vector_record (redis w) key stored ->
  exists s ranked,
    cosineSimilarity q (vector stored) = Ok s
    /\ hits = firstn k ranked
    /\ length ranked = length (index_keys (redis w))
    /\ In {| hit_id := JS.replace "doc:" "" key; hit_score := s;
             hit_metadata := metadata stored |} ranked.
Proof.
  intros Hres Hrec.
  destruct (queryTopK_Ok_inv q k w hits Hres) as [candidates [Hscan ->]].
  assert (Hin : In key (index_keys (redis w))) by (apply index_keys_spec; eauto).
  destruct (scan_has_record _ _ _ _ key stored Hscan Hin (proj1 Hrec)) as [hit [Hhit Hof]].
  unfold hit_of in Hof.
  destruct (cosineSimilarity q (vector stored)) as [s|m]; [|discriminate].
  simpl in Hof. injection Hof as <-.
  exists s, (Array_sort by_score_desc candidates).
  split; [reflexivity|]. split; [reflexivity|]. split.
  - rewrite (Permutation_length (Array_sort_perm candidates)).
    apply (scan_length _ _ _ _ (index_keys_present (redis w)) Hscan).
  - apply (Permutation_in _ (Permutation_sym (Array_sort_perm candidates))). exact Hhit.
Qed.

(** X8. What was upserted is found again: a search that asks for at
    least as many hits as there are records returns the record under
    the identifier it was stored with, whatever that identifier is, with
    its payload and the score of its vector. *)
Theorem upserted_record_is_found {server : RedisServer} (w : World) (id : string)
    (v : list R) (p : gmap string string) (q : list R) (k : nat) (hits : list Hit) :
  let w' := snd (upsertVector id v p w) in
  fst (queryTopK q k w') = Ok hits ->
  (length (index_keys (redis w')) <= k)%nat ->
  exists s,
    cosineSimilarity q v = Ok s
    /\ In {| hit_id := id; hit_score := s; hit_metadata := p |} hits.
Proof.
  intros w' Hres Hk.
  assert (Hrec : vector_record (redis w') ("doc:" ++ id)
                   {| vector := v; metadata := p; timestamp := clock w |}).
  { split; [subst w'; simpl; apply lookup_insert_eq|apply prefix_append]. }
  destruct (search_candidate w' q k hits _ _ Hres Hrec)
    as [s [ranked [Hs [-> [Hlen Hin]]]]].
  exists s. split; [exact Hs|].
  rewrite replace_key_prefix in Hin. cbn [metadata] in Hin.
  rewrite List.firstn_all2 by lia. exact Hin.
Qed.

Lemma upserted_record_is_found_witness :
  let w' := snd (upsertVector "b" [0; 1] ∅ (snd (upsertVector "a" [1; 0] ∅ empty_world))) in
  let hits := [ {| hit_id := "b"; hit_score := 1; hit_metadata := ∅ |};
                {| hit_id := "a"; hit_score := 0; hit_metadata := ∅ |} ] in
  fst (queryTopK (server := map_order_server) [0; 1] 2 w') = Ok hits
  /\ (length (index_keys (server := map_order_server) (redis w')) <= 2)%nat
  /\ exists s,
       cosineSimilarity [0; 1] [0; 1] = Ok s
       /\ In {| hit_id := "b"; hit_score := s; hit_metadata := ∅ |} hits.
Proof.
  intros w' hits.
  assert (Hk : (length (index_keys (server := map_order_server) (redis w')) <= 2)%nat)
    by (vm_compute; lia).
  split; [exact (search_two_records 2)|]. split; [exact Hk|].
  apply (upserted_record_is_found (server := map_order_server)
           (snd (upsertVector "a" [1; 0] ∅ empty_world)) "b" [0; 1] ∅ [0; 1] 2 hits
           (search_two_records 2) Hk).
Defined.

(** X9. A search only reads: whether it returns or throws, the
    database, the dataset and the clock are as before, and the same
    search made again gives the same outcome. *)
Theorem search_only_reads {server : RedisServer} (q : list R) (k : nat) (w : World) :
  let w' := snd (queryTopK q k w) in
  redis w' = redis w
  /\ sanity w' = sanity w
  /\ clock w' = clock w
  /\ calls w' = (calls w ++ [CallQueryTopK q k])%list
  /\ fst (queryTopK q k w') = fst (queryTopK q k w).
Proof.
  intros w'. subst w'. rewrite !queryTopK_effect. cbn [fst snd].
  repeat split; reflexivity.
Qed.

(** X10. Deleting what was just stored under a new identifier gives the
    database back as it was. *)
Theorem upsert_then_delete {server : RedisServer} (w : World) (id : string) (v : list R)
    (p : gmap string string) :
  redis w !! ("doc:" ++ id) = None ->
  redis (snd (deleteVector id (snd (upsertVector id v p w)))) = redis w
  /\ forall q k,
       fst (queryTopK q k (snd (deleteVector id (snd (upsertVector id v p w)))))
       = fst (queryTopK q k w).
Proof.
  intros Hnew.
  assert (Hdb : redis (snd (deleteVector id (snd (upsertVector id v p w)))) = redis w).
  { rewrite deleteVector_effect, upsertVector_effect. simpl.
    rewrite delete_insert_eq. apply delete_id, Hnew. }
  split; [exact Hdb|].
  intros q k. apply queryTopK_same_database. exact Hdb.
Qed.

Lemma upsert_then_delete_witness :
  redis empty_world !! ("doc:" ++ "a") = None
  /\ redis (snd (deleteVector "a" (snd (upsertVector "a" [1; 0] ∅ empty_world)))) = ∅.
Proof.
  assert (Hnew : redis empty_world !! ("doc:" ++ "a") = None) by apply lookup_empty.
  split; [exact Hnew|].
  apply (upsert_then_delete (server := map_order_server) empty_world "a" [1; 0] ∅ Hnew).
Defined.

(** X11. After a delete no search returns the deleted identifier, and
    every hit it returns is a record that was there before, with the
    same payload and vector. *)
Theorem deleted_record_is_not_found {server : RedisServer} (w : World) (id : string)
    (q : list R) (k : nat) (hits : list Hit) (hit : Hit) :
  fst (queryTopK q k (snd (deleteVector id w))) = Ok hits ->
  In hit hits ->
  hit_id hit <> id
  /\ exists stored,
       redis w !! ("doc:" ++ hit_id hit) = Some stored
       /\ hit_metadata hit = metadata stored
       /\ cosineSimilarity q (vector stored) = Ok (hit_score hit).
Proof.
  intros Hres Hin.
  destruct (queryTopK_hit_origin q k _ hits hit Hres Hin) as [stored [Hstored [Hm Hs]]].
  rewrite deleteVector_effect in Hstored. simpl in Hstored.
  apply lookup_delete_Some in Hstored. destruct Hstored as [Hne Hstored].
  split; [|exists stored; auto].
  intros Heq. apply Hne. rewrite Heq. reflexivity.
Qed.

Lemma search_after_delete :
  fst (queryTopK (server := map_order_server) [0; 1] 3 (snd (deleteVector "a" two_records)))
  = Ok [ {| hit_id := "b"; hit_score := 1; hit_metadata := ∅ |} ].
Proof.
  assert (Hkeys : index_keys (server := map_order_server)
                    (redis (snd (deleteVector "a" two_records))) = ["doc:b"])
    by (vm_compute; reflexivity).
  assert (Hb : redis (snd (deleteVector "a" two_records)) !! "doc:b"
               = Some {| vector := [0; 1]; metadata := ∅; timestamp := 0 |})
    by (vm_compute; reflexivity).
  rewrite queryTopK_effect, Hkeys. cbn [fst scan].
  rewrite Hb. unfold hit_of. cbn [vector metadata].
  rewrite cosine_parallel. reflexivity.
Qed.

Lemma deleted_record_is_not_found_witness :
  let hit := {| hit_id := "b"; hit_score := 1; hit_metadata := ∅ |} in
  fst (queryTopK (server := map_order_server) [0; 1] 3 (snd (deleteVector "a" two_records)))
  = Ok [hit]
  /\ In hit [hit]
  /\ hit_id hit <> "a"
  /\ exists stored,
       redis two_records !! ("doc:" ++ hit_id hit) = Some stored
       /\ hit_metadata hit = metadata stored
       /\ cosineSimilarity [0; 1] (vector stored) = Ok (hit_score hit).
Proof.
  intros hit.
  assert (Hin : In hit [hit]) by (left; reflexivity).
  split; [exact search_after_delete|]. split; [exact Hin|].
  apply (deleted_record_is_not_found (server := map_order_server) two_records "a"
           [0; 1] 3 [hit] hit search_after_delete Hin).
Defined.

(** X12. Upserts under different identifiers commute: made at one
    reading of the clock, the two orders leave the same database and
    the same answers to every search. *)
Theorem upserts_commute {server : RedisServer} (w : World) (a b : string)
    (va vb : list R) (pa pb : gmap string string) :
  a <> b ->
  let a_then_b := snd (upsertVector b vb pb (snd (upsertVector a va pa w))) in
  let b_then_a := snd (upsertVector a va pa (snd (upsertVector b vb pb w))) in
  redis a_then_b = redis b_then_a
  /\ forall q k, fst (queryTopK q k a_then_b) = fst (queryTopK q k b_then_a).
Proof.
  intros Hne a_then_b b_then_a.
  assert (Hdb : redis a_then_b = redis b_then_a).
  { subst a_then_b b_then_a. rewrite !upsertVector_effect. simpl.
    apply insert_insert_ne.
    intros Heq. apply Hne. symmetry. apply (append_inj_l "doc:" _ _ Heq). }
  split; [exact Hdb|].
  intros q k. apply queryTopK_same_database. exact Hdb.
Qed.

Lemma upserts_commute_witness :
  "a" <> "b"
  /\ redis (snd (upsertVector "b" [0; 1] ∅ (snd (upsertVector "a" [1; 0] ∅ empty_world))))
     = redis (snd (upsertVector "a" [1; 0] ∅ (snd (upsertVector "b" [0; 1] ∅ empty_world)))).
Proof.
  assert (Hne : "a" <> "b") by discriminate.
  split; [exact Hne|].
  apply (upserts_commute (server := map_order_server) empty_world "a" "b"
           [1; 0] [0; 1] ∅ ∅ Hne).
Defined.

(** ** The document store *)

Lemma or_else_nonempty (a b : string) : b <> "" -> JS.or_else a b <> "".
Proof.
  intros Hb. unfold JS.or_else.
  destruct (String.eqb a "") eqn:Ha; [exact Hb|].
  intros Heq. rewrite Heq in Ha. discriminate.
Qed.

Lemma or_else_keeps (a b : string) : a <> "" -> JS.or_else a b = a.
Proof.
  intros Ha. unfold JS.or_else.
  destruct (String.eqb_spec a ""); [contradiction|reflexivity].
Qed.

(** X13. A saved document is read back as it was saved: [getDocument]
    on the identifier that [saveDocument] returned gives the same
    document, whose title is never empty. *)
Theorem saved_document_is_read_back {env : Environment} (doc : NewDocument)
    (w w1 : World) (saved : SanityDoc) :
  saveDocument doc w = (Ok saved, w1) ->
  sanity_fault (_id saved) = None ->
  fst (getDocument (_id saved) w1) = Ok (Some saved)
  /\ fullText (attributes saved) = Some (new_fullText doc)
  /\ contentSnippet (attributes saved) = Some (new_contentSnippet doc)
  /\ source (attributes saved) = Some (new_source doc)
  /\ exists t, title (attributes saved) = Some t /\ t <> ""
               /\ (new_title doc <> "" -> t = new_title doc).
Proof.
  intros Hsave Hup. rewrite saveDocument_effect in Hsave.
  destruct (sanity_create (sanity w) (document_of doc (clock w))) as [id|m];
    [|discriminate].
  cbn zeta in Hsave. injection Hsave as <- <-.
  rewrite getDocument_effect. cbn [fst _id] in *. rewrite Hup. cbn [sanity].
  rewrite lookup_insert_eq.
  repeat (split; [reflexivity|]).
  eexists. split; [reflexivity|]. split.
  - apply or_else_nonempty. discriminate.
  - apply or_else_keeps.
Qed.

Lemma saved_document_is_read_back_witness :
  let doc := {| new_title := ""; new_contentSnippet := "s"; new_fullText := "s";
                new_source := "pasted_text" |} in
  exists saved w1,
    saveDocument (env := remote_environment) doc empty_world = (Ok saved, w1)
    /\ sanity_fault (Environment := remote_environment) (_id saved) = None
    /\ fst (getDocument (env := remote_environment) (_id saved) w1) = Ok (Some saved)
    /\ title (attributes saved) = Some "Untitled Document".
Proof.
  intros doc.
  set (saved := {| _id := "d1";
                   attributes := document_of (env := remote_environment) doc 0 |}).
  set (w1 := snd (saveDocument (env := remote_environment) doc empty_world)).
  assert (Hsave : saveDocument (env := remote_environment) doc empty_world = (Ok saved, w1))
    by reflexivity.
  assert (Hup : sanity_fault (Environment := remote_environment) (_id saved) = None)
    by reflexivity.
  exists saved, w1. split; [exact Hsave|]. split; [exact Hup|].
  destruct (saved_document_is_read_back (env := remote_environment) doc empty_world w1
              saved Hsave Hup) as [Hget _].
  split; [exact Hget|reflexivity].
Defined.

(** ** The ingest pipeline: outcomes *)

(** X14. An ingest whose document cannot be saved throws the error of
    the store, wrapped by [saveDocument] and by [ingestDocument]; it has
    called [saveDocument] only, so no embedding was computed and no
    vector stored, and the database and the dataset are unchanged. *)
Theorem ingest_fails_before_indexing {env : Environment} (text source : string)
    (w : World) (m : string) :
  sanity_create (sanity w) (document_of (ingested_document text source) (clock w))
  = Throw m ->
  ingestDocument text source w
  = (Throw ("Failed to ingest document: " ++ "Failed to save document to Sanity: " ++ m),
     logged (CallSaveDocument (ingested_document text source)) w).
Proof.
  intros Hcreate. unfold ingestDocument, try_catch.
  fold (ingested_document text source).
  step_with saveDocument_effect. rewrite Hcreate. reflexivity.
Qed.

Lemma ingest_fails_before_indexing_witness :
  sanity_create (Environment := offline_environment) (sanity empty_world)
    (document_of (env := offline_environment) (ingested_document "text" "pasted_text") 0)
  = Throw "network error"
  /\ ingestDocument (env := offline_environment) "text" "pasted_text" empty_world
     = (Throw "Failed to ingest document: Failed to save document to Sanity: network error",
        logged (CallSaveDocument (ingested_document "text" "pasted_text")) empty_world).
Proof.
  split; [reflexivity|].
  apply (ingest_fails_before_indexing (env := offline_environment) "text" "pasted_text"
           empty_world "network error"). reflexivity.
Defined.

Lemma ingest_fails_before_vector {env : Environment} (text source : string)
    (w : World) (m : string) :
  sanity_create (sanity w) (document_of (ingested_document text source) (clock w))
  = Throw m ->
  ingestDocument text source w
  = (Throw ("Failed to ingest document: " ++ "Failed to save document to Sanity: " ++ m),
     logged (CallSaveDocument (ingested_document text source)) w).
Proof.
  intros Hcreate. unfold ingestDocument, try_catch.
  fold (ingested_document text source).
  step_with saveDocument_effect. rewrite Hcreate. reflexivity.
Qed.

Lemma ingest_fails_without_vector {env : Environment} (text source : string)
    (w : World) (m : string) :
  sanity_create (sanity w) (document_of (ingested_document text source) (clock w))
  = Throw m ->
  fst (ingestDocument text source w)
  = Throw ("Failed to ingest document: " ++ "Failed to save document to Sanity: " ++ m).
Proof.
  intros Hcreate. unfold ingestDocument, try_catch.
  fold (ingested_document text source).
  step_with saveDocument_effect. rewrite Hcreate. reflexivity.
Qed.

Lemma ingestDocument_effect {env : Environment} (text source : string) (w : World)
    (id : string) :
  sanity_create (sanity w) (document_of (ingested_document text source) (clock w)) = Ok id ->
  ingestDocument text source w
  = (Ok {| sanityId := id; redisId := id; ingest_title := derive_title text |},
     {| redis :=
          <["doc:" ++ id :=
             {| vector := embedding_of text;
                metadata := ingest_metadata (derive_title text) source (derive_snippet text);
                timestamp := clock w |}]> (redis w);
        sanity :=
          <[id := {| _id := id;
                     attributes := document_of (ingested_document text source) (clock w) |}]>
            (sanity w);
        clock := clock w;
        calls := calls w ++ [CallSaveDocument (ingested_document text source);
                             CallCreateEmbedding text;
                             CallUpsertVector id (embedding_of text)
                               (ingest_metadata (derive_title text) source
                                  (derive_snippet text))] |}).
Proof.
  intros Hcreate. unfold ingestDocument, try_catch.
  fold (ingested_document text source).
  step_with saveDocument_effect. rewrite Hcreate. cbn zeta.
  step_with createEmbedding_effect.
  step_with upsertVector_effect.
  unfold ret, logged. cbn [_id upsert_id redis sanity clock calls].
  rewrite <- !List.app_assoc. reflexivity.
Qed.

Lemma derive_title_nonempty (text : string) : derive_title text <> "".
Proof. unfold derive_title. apply or_else_nonempty. discriminate. Qed.

(** X15. With Redis reachable, an ingest succeeds as soon as the document
    store accepts the document, whatever the embedding provider does;
    the stored document then holds the full text, the snippet, the
    source and the derived title (the default title of [saveDocument] is
    never used), and the vector is stored with the same title, source
    and snippet. *)
Theorem ingest_stores_document_and_vector {env : Environment} (text src : string)
    (w : World) (id : string) :
  sanity_create (sanity w) (document_of (ingested_document text src) (clock w)) = Ok id ->
  exists w' doc stored,
    ingestDocument text src w
    = (Ok {| sanityId := id; redisId := id; ingest_title := derive_title text |}, w')
    /\ sanity w' !! id = Some doc
    /\ title (attributes doc) = Some (derive_title text)
    /\ contentSnippet (attributes doc) = Some (derive_snippet text)
    /\ fullText (attributes doc) = Some text
    /\ source (attributes doc) = Some src
    /\ redis w' !! ("doc:" ++ id) = Some stored
    /\ vector stored = embedding_of text
    /\ metadata stored !! "title" = Some (derive_title text)
    /\ metadata stored !! "source" = Some src
    /\ metadata stored !! "snippet" = Some (derive_snippet text).
Proof.
  intros Hcreate. eexists _, _, _.
  split; [apply (ingestDocument_effect text src w id Hcreate)|].
  cbn [sanity redis]. rewrite !lookup_insert_eq.
  split; [reflexivity|]. split.
  { cbn. f_equal. apply or_else_keeps, derive_title_nonempty. }
  repeat (split; [reflexivity|]).
  reflexivity.
Qed.

Lemma ingest_stores_document_and_vector_witness :
  sanity_create (Environment := flaky_environment) (sanity empty_world)
    (document_of (env := flaky_environment) (ingested_document "outage" "pasted_text") 0)
  = Ok "d1"
  /\ exists w' stored,
       fst (ingestDocument (env := flaky_environment) "outage" "pasted_text" empty_world)
       = Ok {| sanityId := "d1"; redisId := "d1"; ingest_title := "outage" |}
       /\ w' = snd (ingestDocument (env := flaky_environment) "outage" "pasted_text"
                      empty_world)
       /\ redis w' !! "doc:d1" = Some stored
       /\ vector stored = generateMockEmbedding "outage".
Proof.
  assert (Hcreate :
            sanity_create (Environment := flaky_environment) (sanity empty_world)
              (document_of (env := flaky_environment)
                 (ingested_document "outage" "pasted_text") 0) = Ok "d1") by reflexivity.
  split; [exact Hcreate|].
  destruct (ingest_stores_document_and_vector (env := flaky_environment) "outage"
              "pasted_text" empty_world "d1" Hcreate)
    as [w' [doc [stored [Hrun [_ [_ [_ [_ [_ [Hstored [Hvec _]]]]]]]]]]].
  exists w', stored. rewrite Hrun. cbn [fst snd].
  split; [reflexivity|]. split; [reflexivity|]. split; [exact Hstored|].
  rewrite Hvec. reflexivity.
Defined.

(** ** Title and snippet: bounds *)

Lemma substring0_get (m n : nat) (s : string) (c : ascii) :
  String.get n (JS.substring0 m s) = Some c -> String.get n s = Some c.
Proof.
  unfold JS.substring0. revert m n.
  induction s as [|c' s IH]; intros m n Hget.
  - destruct m; simpl in Hget; destruct n; discriminate.
  - destruct m as [|m]; simpl in Hget; [destruct n; discriminate|].
    destruct n as [|n]; simpl in *; [exact Hget|]. apply (IH m n Hget).
Qed.

Lemma substring0_length_le (n : nat) (s : string) :
  (String.length (JS.substring0 n s) <= n)%nat.
Proof. destruct (substring0_split n s) as [tail [_ Hlen]]. lia. Qed.

(** X16. The title of an ingested text is never empty, has at most 100
    characters and holds no line feed; the snippet has at most 203
    characters and is not empty unless the text is. *)
Theorem title_and_snippet_bounds (text : string) :
  derive_title text <> ""
  /\ (String.length (derive_title text) <= 100)%nat
  /\ single_line (derive_title text)
  /\ (String.length (derive_snippet text) <= 203)%nat
  /\ (derive_snippet text = "" <-> text = "").
Proof.
  split; [apply derive_title_nonempty|].
  set (line := hd EmptyString (JS.split newline text)).
  assert (Htitle : derive_title text = "Untitled"
                   \/ derive_title text = JS.substring0 100 line).
  { unfold derive_title. fold line. unfold JS.or_else.
    destruct (String.eqb (JS.substring0 100 line) ""); auto. }
  split; [|split; [|split]].
  - destruct Htitle as [->| ->]; [simpl; lia|apply substring0_length_le].
  - destruct Htitle as [->| ->].
    + intros n Hget. do 9 (destruct n as [|n]; [discriminate Hget|]). discriminate Hget.
    + intros n Hget. apply substring0_get in Hget.
      destruct (split_first_piece text) as [Hsingle _]. apply (Hsingle n Hget).
  - unfold derive_snippet. rewrite append_length.
    pose proof (substring0_length_le 200 text).
    destruct (Nat.ltb 200 (String.length text)); simpl; lia.
  - unfold derive_snippet. split.
    + destruct text as [|c text]; [reflexivity|].
      unfold JS.substring0. simpl. rewrite append_cons. discriminate.
    + intros ->. reflexivity.
Qed.

(** ** From ingest to query *)

Lemma singleton_list {A : Type} (l : list A) (a : A) :
  List.NoDup l -> (forall x, In x l <-> x = a) -> l = [a].
Proof.
  intros Hnodup Hmem. destruct l as [|x l].
  - destruct (proj2 (Hmem a) eq_refl).
  - assert (Hx : x = a) by (apply Hmem; left; reflexivity). subst x.
    destruct l as [|y l]; [reflexivity|].
    assert (Hy : y = a) by (apply Hmem; right; left; reflexivity). subst y.
    inversion Hnodup as [|? ? Hnotin _]; subst. destruct Hnotin. left. reflexivity.
Qed.

(** The index keys after the first record was stored. *)
Lemma index_keys_first_record {server : RedisServer} (db : gmap string StoredVector)
    (id : string) (stored : StoredVector) :
  (forall key old, ~ vector_record db key old) ->
  index_keys (<["doc:" ++ id := stored]> db) = ["doc:" ++ id].
Proof.
  intros Hempty. apply singleton_list.
  - unfold index_keys. apply List.NoDup_filter, NoDup_ListNoDup, KEYS_NoDup.
  - intros key. rewrite index_keys_spec. split.
    + intros [old [Hold Hkey]]. apply lookup_insert_Some in Hold.
      destruct Hold as [[<- _]|[_ Hold]]; [reflexivity|].
      destruct (Hempty key old). split; assumption.
    + intros ->. exists stored. split; [apply lookup_insert_eq|apply prefix_append].
Qed.

Lemma derive_snippet_nonempty (text : string) : text <> "" -> derive_snippet text <> "".
Proof.
  intros Htext. destruct text as [|c text]; [contradiction|].
  unfold derive_snippet, JS.substring0. simpl. rewrite append_cons. discriminate.
Qed.

(** The context of an ingested document is the same whether the store
    answers or not. *)
Lemma context_of_ingested {env : Environment} (text source : string) (w : World)
    (id : string) (s : R) :
  text <> "" ->
  sanity w !! id
  = Some {| _id := id;
            attributes := document_of (ingested_document text source) (clock w) |} ->
  context_for w {| hit_id := id; hit_score := s;
                   hit_metadata := ingest_metadata (derive_title text) source
                                     (derive_snippet text) |}
  = {| ctx_text := derive_snippet text; ctx_score := s;
       ctx_title := Some (derive_title text) |}.
Proof.
  intros Htext Hdoc. unfold context_for. cbn [hit_id].
  assert (Hfallback :
            context_of_metadata
              {| hit_id := id; hit_score := s;
                 hit_metadata := ingest_metadata (derive_title text) source
                                   (derive_snippet text) |}
            = {| ctx_text := derive_snippet text; ctx_score := s;
                 ctx_title := Some (derive_title text) |}).
  { unfold context_of_metadata, ingest_metadata. cbn [hit_metadata hit_score].
    rewrite !lookup_insert_ne by discriminate.
    rewrite !lookup_insert_eq. cbn [JS.or_default].
    rewrite (or_else_keeps _ _ (derive_snippet_nonempty text Htext)).
    rewrite (or_else_keeps _ _ (derive_title_nonempty text)). reflexivity. }
  destruct (sanity_fault id); [exact Hfallback|].
  rewrite Hdoc. unfold context_of_document, document_of, ingested_document.
  cbn [attributes contentSnippet fullText title hit_score new_title new_contentSnippet
       new_fullText JS.or_default].
  rewrite (or_else_keeps (derive_snippet text) _ (derive_snippet_nonempty text Htext)).
  rewrite (or_else_keeps (derive_snippet text) _ (derive_snippet_nonempty text Htext)).
  rewrite (or_else_keeps _ _ (derive_title_nonempty text)). reflexivity.
Qed.

(** X17. Ingest then query: on an index that was empty, a query whose
    embedding has the length of the document's embedding returns one
    context, made of the snippet of the ingested text and of the cosine
    similarity of the two embeddings; this is so whether or not the
    document store can be read at query time. *)
Theorem ingested_text_is_retrieved {env : Environment} {server : RedisServer}
    (text source question : string) (k : nat) (w w1 : World) (r : IngestResult) :
  (forall key old, ~ vector_record (redis w) key old) ->
  ingestDocument text source w = (Ok r, w1) ->
  text <> "" ->
  length (embedding_of question) = length (embedding_of text) ->
  (1 <= k)%nat ->
  exists s w2,
    cosineSimilarity (embedding_of question) (embedding_of text) = Ok s
    /\ queryKnowledge question k w1
       = (Ok {| answer :=
                  answer_of
                    (build_prompt
                       [{| ctx_text := derive_snippet text; ctx_score := s;
                           ctx_title := Some (derive_title text) |}] question);
                contexts := [(derive_snippet text, s)] |}, w2).
Proof.
  intros Hempty Hrun Htext Hlen Hk.
  destruct (sanity_create (sanity w) (document_of (ingested_document text source)
                                        (clock w))) as [id|m] eqn:Hcreate.
  2:{ pose proof (ingest_fails_without_vector text source w m Hcreate) as Hfail.
      rewrite Hrun in Hfail. discriminate. }
  rewrite (ingestDocument_effect text source w id Hcreate) in Hrun.
  injection Hrun as <- <-.
  destruct (cosineSimilarity_defined (embedding_of question) (embedding_of text) Hlen)
    as [s Hs].
  exists s. eexists. split; [exact Hs|].
  unfold queryKnowledge, try_catch.
  step_with createEmbedding_effect.
  step_with queryTopK_effect.
  cbn [redis logged].
  rewrite (index_keys_first_record (redis w) id _ Hempty).
  cbn [scan]. rewrite lookup_insert_eq. unfold hit_of. cbn [vector metadata].
  rewrite Hs, replace_key_prefix. cbn [bind_result Array_sort sort_insert].
  destruct k as [|k]; [lia|]. cbn [firstn]. rewrite List.firstn_nil.
  cbn [length Nat.eqb].
  step_with contexts_loop_effect. cbn [app map].
  rewrite context_of_ingested; [|exact Htext|cbn [sanity logged]; apply lookup_insert_eq].
  step_with generateAnswer_effect.
  unfold ret. reflexivity.
Qed.

Lemma ingested_text_is_retrieved_witness :
  let text := "Quantum computing uses superposition." in
  let question := "What is quantum computing?" in
  exists r w1 s w2,
    (forall key old, ~ vector_record (redis empty_world) key old)
    /\ ingestDocument (env := remote_environment) text "pasted_text" empty_world = (Ok r, w1)
    /\ text <> ""
    /\ length (embedding_of (env := remote_environment) question)
       = length (embedding_of (env := remote_environment) text)
    /\ (1 <= 3)%nat
    /\ cosineSimilarity (embedding_of (env := remote_environment) question)
         (embedding_of (env := remote_environment) text) = Ok s
    /\ fst (queryKnowledge (env := remote_environment) (server := map_order_server)
              question 3 w1)
       = Ok {| answer := "answer"; contexts := [(text, s)] |}
    /\ w2 = snd (queryKnowledge (env := remote_environment) (server := map_order_server)
                   question 3 w1).
Proof.
  intros text question.
  set (r := {| sanityId := "d1"; redisId := "d1"; ingest_title := derive_title text |}).
  set (w1 := snd (ingestDocument (env := remote_environment) text "pasted_text"
                    empty_world)).
  assert (Hempty : forall key old, ~ vector_record (redis empty_world) key old).
  { intros key old [Hold _]. simpl in Hold. rewrite lookup_empty in Hold. discriminate. }
  assert (Hrun : ingestDocument (env := remote_environment) text "pasted_text" empty_world
                 = (Ok r, w1)) by reflexivity.
  assert (Htext : text <> "") by discriminate.
  assert (Hlen : length (embedding_of (env := remote_environment) question)
                 = length (embedding_of (env := remote_environment) text)) by reflexivity.
  assert (Hk : (1 <= 3)%nat) by lia.
  destruct (ingested_text_is_retrieved (env := remote_environment)
              (server := map_order_server) text "pasted_text" question 3 empty_world w1 r
              Hempty Hrun Htext Hlen Hk) as [s [w2 [Hs Hquery]]].
  exists r, w1, s, w2. rewrite Hquery. cbn [fst snd].
  repeat (split; [assumption|]). split; [reflexivity|reflexivity].
Defined.

(** ** Embeddings of mixed origin *)

(** X18. Without an API key every embedding is a mock embedding of 384
    components.  So on an index whose vectors all came from
    [createEmbedding] in that mode no query throws: the search returns,
    and [queryKnowledge] returns a result. *)
Theorem mock_mode_queries_never_throw {env : Environment} {server : RedisServer}
    (question : string) (k : nat) (w : World) :
  api_key_missing = true ->
  (forall key stored,
      vector_record (redis w) key stored -> exists text, vector stored = embedding_of text) ->
  (forall text, length (embedding_of text) = 384%nat)
  /\ (exists hits, fst (queryTopK (embedding_of question) k w) = Ok hits)
  /\ exists res w', queryKnowledge question k w = (Ok res, w').
Proof.
  intros Hmock Hbuilt.
  assert (Hlen : forall text, length (embedding_of text) = 384%nat).
  { intros text. unfold embedding_of. rewrite Hmock. apply generateMockEmbedding_length. }
  assert (Hagree : dimension_agrees (redis w) (embedding_of question)).
  { intros key stored Hrec. destruct (Hbuilt key stored Hrec) as [text ->].
    rewrite !Hlen. reflexivity. }
  assert (Hsearch : exists hits, fst (queryTopK (embedding_of question) k w) = Ok hits).
  { rewrite queryTopK_effect. cbn [fst].
    destruct (scan_agreeing (redis w) (embedding_of question) (index_keys (redis w))
                Hagree (index_keys_records (redis w))) as [candidates [Hscan _]].
    rewrite Hscan. destruct (index_keys (redis w)); eauto. }
  split; [exact Hlen|]. split; [exact Hsearch|].
  destruct Hsearch as [[|hit hits] Hhits].
  - eexists _, _. unfold queryKnowledge, try_catch.
    step_with createEmbedding_effect.
    step_with (queryTopK_result _ _ (logged (CallCreateEmbedding question) w) w
                 (Ok []) Hhits eq_refl).
    reflexivity.
  - eexists _, _.
    apply (queryKnowledge_with_hits w question k (hit :: hits) Hhits). discriminate.
Qed.

Lemma mock_mode_queries_never_throw_witness :
  let w := snd (ingestDocument (env := mock_environment) "Some text" "pasted_text"
                  empty_world) in
  api_key_missing (env := mock_environment) = true
  /\ (forall key stored,
         vector_record (redis w) key stored ->
         exists text, vector stored = embedding_of (env := mock_environment) text)
  /\ is_Some (redis w !! "doc:d1")
  /\ exists res w',
       queryKnowledge (env := mock_environment) (server := map_order_server)
         "What is it?" 3 w = (Ok res, w').
Proof.
  intros w.
  assert (Hmock : api_key_missing (env := mock_environment) = true) by reflexivity.
  assert (Hw : redis w
               = <["doc:d1" := {| vector := embedding_of (env := mock_environment)
                                              "Some text";
                                  metadata := ingest_metadata (derive_title "Some text")
                                                "pasted_text" (derive_snippet "Some text");
                                  timestamp := 0 |}]> ∅).
  { subst w.
    rewrite (ingestDocument_effect (env := mock_environment) "Some text" "pasted_text"
               empty_world "d1" eq_refl).
    reflexivity. }
  assert (Hbuilt : forall key stored,
             vector_record (redis w) key stored ->
             exists text, vector stored = embedding_of (env := mock_environment) text).
  { intros key stored [Hstored _]. rewrite Hw in Hstored.
    apply lookup_insert_Some in Hstored.
    destruct Hstored as [[_ <-]|[_ Hstored]]; [exists "Some text"; reflexivity|].
    rewrite lookup_empty in Hstored. discriminate. }
  split; [exact Hmock|]. split; [exact Hbuilt|]. split.
  { rewrite Hw, lookup_insert_eq. eauto. }
  apply (mock_mode_queries_never_throw (env := mock_environment)
           (server := map_order_server) "What is it?" 3 w Hmock Hbuilt).
Defined.

Lemma queryKnowledge_search_throws {env : Environment} {server : RedisServer}
    (question : string) (k : nat) (w : World) (m : string) :
  fst (queryTopK (embedding_of question) k w) = Throw m ->
  queryKnowledge question k w
  = (Throw ("Failed to process query: " ++ m),
     logged (CallQueryTopK (embedding_of question) k)
       (logged (CallCreateEmbedding question) w)).
Proof.
  intros Hsearch. unfold queryKnowledge, try_catch.
  step_with createEmbedding_effect.
  step_with (queryTopK_result _ _ (logged (CallCreateEmbedding question) w) w
               (Throw m) Hsearch eq_refl).
  reflexivity.
Qed.

Lemma search_throws_on_mismatch {server : RedisServer} (q : list R) (k : nat) (w : World)
    (key : string) (stored : StoredVector) :
  vector_record (redis w) key stored ->
  length (vector stored) <> length q ->
  fst (queryTopK q k w) = Throw "Failed to query vectors: Vectors must have same length".
Proof.
  intros Hrec Hlen. rewrite queryTopK_effect. cbn [fst].
  assert (Hin : In key (index_keys (redis w))) by (apply index_keys_spec; eauto).
  destruct (index_keys (redis w)) as [|key0 keys0] eqn:Hkeys; [contradiction|].
  rewrite <- Hkeys in *.
  destruct (scan_In_record (redis w) q (index_keys (redis w)) key stored Hin (proj1 Hrec))
    as [Hok|Hthrow]; [contradiction|].
  rewrite Hthrow. reflexivity.
Qed.

(** X19. A query on an index that holds a vector of another length than
    the embedding of the question throws, with the error of the search
    wrapped by [queryKnowledge]; it has asked for the embedding and
    searched, and called neither the document store nor the generation
    provider. *)
Theorem query_fails_on_dimension_mismatch {env : Environment} {server : RedisServer}
    (question : string) (k : nat) (w : World) (key : string) (stored : StoredVector) :
  vector_record (redis w) key stored ->
  length (vector stored) <> length (embedding_of question) ->
  exists w',
    queryKnowledge question k w
    = (Throw ("Failed to process query: "
                ++ "Failed to query vectors: Vectors must have same length"), w')
    /\ calls w' = (calls w ++ [CallCreateEmbedding question;
                               CallQueryTopK (embedding_of question) k])%list
    /\ redis w' = redis w
    /\ sanity w' = sanity w.
Proof.
  intros Hrec Hlen. eexists.
  split; [apply queryKnowledge_search_throws;
          apply (search_throws_on_mismatch _ _ _ key stored Hrec Hlen)|].
  cbn [calls logged redis sanity]. rewrite <- List.app_assoc.
  repeat split; reflexivity.
Qed.

Lemma query_fails_on_dimension_mismatch_witness :
  let w := snd (upsertVector "a" [1; 0; 0] ∅ empty_world) in
  let stored := {| vector := [1; 0; 0]; metadata := ∅; timestamp := 0 |} in
  vector_record (redis w) "doc:a" stored
  /\ length (vector stored) <> length (embedding_of (env := remote_environment) "q")
  /\ fst (queryKnowledge (env := remote_environment) (server := map_order_server) "q" 3 w)
     = Throw "Failed to process query: Failed to query vectors: Vectors must have same length".
Proof.
  intros w stored.
  assert (Hrec : vector_record (redis w) "doc:a" stored)
    by (split; vm_compute; reflexivity).
  assert (Hlen : length (vector stored)
                 <> length (embedding_of (env := remote_environment) "q"))
    by (simpl; lia).
  split; [exact Hrec|]. split; [exact Hlen|].
  destruct (query_fails_on_dimension_mismatch (env := remote_environment)
              (server := map_order_server) "q" 3 w "doc:a" stored Hrec Hlen)
    as [w' [Hquery _]].
  rewrite Hquery. reflexivity.
Defined.

(** X20. The fallback of [createEmbedding] can spoil an index: when the
    provider fails during an ingest, the document is indexed with a mock
    embedding of 384 components, and from then on every query whose
    embedding comes from the provider with another length throws. *)
Theorem fallback_embedding_breaks_queries {env : Environment} {server : RedisServer}
    (text source question : string) (k : nat) (w w1 : World) (r : IngestResult)
    (m : string) (answered : list R) :
  api_key_missing = false ->
  lightning_embeddings text = Throw m ->
  lightning_embeddings question = Ok answered ->
  length answered <> 384%nat ->
  ingestDocument text source w = (Ok r, w1) ->
  fst (queryKnowledge question k w1)
  = Throw ("Failed to process query: "
             ++ "Failed to query vectors: Vectors must have same length").
Proof.
  intros Hkey Hfail Hanswer Hlen Hrun.
  destruct (sanity_create (sanity w) (document_of (ingested_document text source)
                                        (clock w))) as [id|m'] eqn:Hcreate.
  2:{ pose proof (ingest_fails_without_vector text source w m' Hcreate) as Hno.
      rewrite Hrun in Hno. discriminate. }
  rewrite (ingestDocument_effect text source w id Hcreate) in Hrun.
  injection Hrun as <- <-.
  assert (Hmock : embedding_of text = generateMockEmbedding text).
  { unfold embedding_of. rewrite Hkey, Hfail. reflexivity. }
  assert (Hq : embedding_of question = answered).
  { unfold embedding_of. rewrite Hkey, Hanswer. reflexivity. }
  rewrite queryKnowledge_search_throws
    with (m := "Failed to query vectors: Vectors must have same length");
    [reflexivity|].
  eapply (search_throws_on_mismatch _ _ _ ("doc:" ++ id)).
  - split; [cbn [redis]; apply lookup_insert_eq|apply prefix_append].
  - cbn [vector]. rewrite Hmock, Hq, generateMockEmbedding_length.
    intros Heq. apply Hlen. symmetry. exact Heq.
Qed.

Lemma fallback_embedding_breaks_queries_witness :
  exists r w1,
    api_key_missing (env := flaky_environment) = false
    /\ lightning_embeddings (Environment := flaky_environment) "outage" = Throw "503"
    /\ lightning_embeddings (Environment := flaky_environment) "question" = Ok [1; 0]
    /\ length [1; 0] <> 384%nat
    /\ ingestDocument (env := flaky_environment) "outage" "pasted_text" empty_world
       = (Ok r, w1)
    /\ fst (queryKnowledge (env := flaky_environment) (server := map_order_server)
              "question" 3 w1)
       = Throw "Failed to process query: Failed to query vectors: Vectors must have same length".
Proof.
  set (r := {| sanityId := "d1"; redisId := "d1"; ingest_title := "outage" |}).
  set (w1 := snd (ingestDocument (env := flaky_environment) "outage" "pasted_text"
                    empty_world)).
  assert (Hrun : ingestDocument (env := flaky_environment) "outage" "pasted_text"
                   empty_world = (Ok r, w1)) by reflexivity.
  assert (Hlen : length [1; 0] <> 384%nat) by (simpl; lia).
  exists r, w1.
  split; [reflexivity|]. split; [reflexivity|]. split; [reflexivity|].
  split; [exact Hlen|]. split; [exact Hrun|].
  apply (fallback_embedding_breaks_queries (env := flaky_environment)
           (server := map_order_server) "outage" "pasted_text" "question" 3 empty_world
           w1 r "503" [1; 0] eq_refl eq_refl eq_refl Hlen Hrun).
Defined.

(** ** The query pipeline: size and order of the result *)

Lemma context_scores {env : Environment} (w : World) (hits : list Hit) :
  map snd (map (fun c => (ctx_text c, ctx_score c)) (map (context_for w) hits))
  = map hit_score hits.
Proof.
  rewrite !List.map_map. apply List.map_ext. intros h. cbn [snd].
  unfold context_for.
  destruct (sanity_fault (hit_id h)); [reflexivity|].
  destruct (sanity w !! hit_id h); reflexivity.
Qed.

Lemma queryKnowledge_Ok_inv {env : Environment} {server : RedisServer} (question : string)
    (k : nat) (w w' : World) (res : QueryResult) :
  queryKnowledge question k w = (Ok res, w') ->
  exists hits,
    fst (queryTopK (embedding_of question) k w) = Ok hits
    /\ map snd (contexts res) = map hit_score hits.
Proof.
  intros Hrun. unfold queryKnowledge, try_catch in Hrun.
  step_in Hrun with createEmbedding_effect.
  destruct (fst (queryTopK (embedding_of question) k w)) as [hits|m] eqn:Hsearch.
  - exists hits. split; [reflexivity|].
    step_in Hrun with (queryTopK_result _ _ (logged (CallCreateEmbedding question) w) w
                          (Ok hits) Hsearch eq_refl).
    destruct hits as [|hit hits].
    + cbn in Hrun. injection Hrun as <- _. reflexivity.
    + cbn [length Nat.eqb] in Hrun.
      step_in Hrun with contexts_loop_effect. cbn [app] in Hrun.
      step_in Hrun with generateAnswer_effect.
      unfold ret in Hrun. injection Hrun as <- _.
      exact (context_scores _ (hit :: hits)).
  - step_in Hrun with (queryTopK_result _ _ (logged (CallCreateEmbedding question) w) w
                          (Throw m) Hsearch eq_refl).
    discriminate.
Qed.

Lemma map_sorted_desc (hits : list Hit) :
  StronglySorted ranks_above hits ->
  StronglySorted (fun a b : R => b <= a) (map hit_score hits).
Proof.
  induction 1 as [|hit hits Hsorted IH Hall]; simpl; constructor; [exact IH|].
  rewrite List.Forall_forall in Hall |- *. intros s Hs.
  apply List.in_map_iff in Hs. destruct Hs as [other [<- Hother]].
  apply (Hall other Hother).
Qed.



(** ** The providers never fail *)

(** X22. [createEmbedding] and [generateAnswer] always resolve: with an
    API key and a provider that answers they pass its answer on
    unchanged, and when the key is missing or the provider fails they
    resolve to the mock embedding and the mock answer. *)
Theorem providers_fall_back {env : Environment} (text : string) (w : World) :
  (exists vec, createEmbedding text w = (Ok vec, logged (CallCreateEmbedding text) w)
               /\ (api_key_missing = false ->
                   forall answered, lightning_embeddings text = Ok answered ->
                                    vec = answered)
               /\ (api_key_missing = true \/ (exists m, lightning_embeddings text = Throw m)
                   -> vec = generateMockEmbedding text))
  /\ (exists reply, generateAnswer text w = (Ok reply, logged (CallGenerateAnswer text) w)
                    /\ (api_key_missing = false ->
                        forall content, lightning_chat_completions text = Ok content ->
                                        reply = content)
                    /\ (api_key_missing = true
                        \/ (exists m, lightning_chat_completions text = Throw m)
                        -> reply = generateMockAnswer text)).
Proof.
  split.
  - exists (embedding_of text). split; [apply createEmbedding_effect|].
    unfold embedding_of. split.
    + intros -> answered ->. reflexivity.
    + intros [-> | [m ->]]; [reflexivity|]. destruct api_key_missing; reflexivity.
  - exists (answer_of text). split; [apply generateAnswer_effect|].
    unfold answer_of. split.
    + intros -> content ->. reflexivity.
    + intros [-> | [m ->]]; [reflexivity|]. destruct api_key_missing; reflexivity.
Qed.

(** ** The handlers of [server.js] *)

(** X23. [POST /api/ingest]: a 400 response is sent before anything is
    touched (the world is the one the handler started in), and a 500
    response leaves the index as it was. *)
Theorem ingest_handler_rejects_cleanly {env : Environment} (req : IngestRequest)
    (w w' : World) (resp : Response) :
  post_api_ingest req w = (resp, w') ->
  (status resp = 200%nat \/ status resp = 400%nat \/ status resp = 500%nat)
  /\ (status resp = 400%nat -> w' = w)
  /\ (status resp = 500%nat -> redis w' = redis w).
Proof.
  unfold post_api_ingest. intros Hrun.
  destruct (read_request req) as [[early|[text source]]|m] eqn:Hread.
  - injection Hrun as <- <-.
    assert (Hearly : status early = 400%nat).
    { unfold read_request in Hread.
      destruct (req_file req) as [file|].
      - destruct (String.eqb (mimetype file) "application/pdf").
        + destruct (pdfParse (buffer file)); simpl in Hread; discriminate.
        + destruct (String.eqb (mimetype file) "text/plain"); [discriminate|].
          injection Hread as <-. reflexivity.
      - destruct (req_text req) as [text|].
        + destruct (JS.truthy text); [discriminate|].
          injection Hread as <-. reflexivity.
        + injection Hread as <-. reflexivity. }
    rewrite Hearly. split; [auto|]. split; [reflexivity|discriminate].
  - destruct (negb (JS.truthy (JS.trim text))).
    + injection Hrun as <- <-. simpl. split; [auto|]. split; [reflexivity|discriminate].
    + destruct (sanity_create (sanity w)
                  (document_of (ingested_document text source) (clock w)))
        as [id|m] eqn:Hcreate.
      * rewrite (ingestDocument_effect text source w id Hcreate) in Hrun.
        injection Hrun as <- <-. simpl. split; [auto|]. split; discriminate.
      * rewrite (ingest_fails_before_vector text source w m Hcreate) in Hrun.
        injection Hrun as <- <-. simpl. split; [auto|]. split; [discriminate|reflexivity].
  - injection Hrun as <- <-. simpl. split; [auto|]. split; [discriminate|reflexivity].
Qed.

Lemma ingest_handler_rejects_cleanly_witness :
  let req := {| req_file := Some {| originalname := "notes.docx";
                                    mimetype := "application/msword";
                                    buffer := "..." |};
                req_text := Some "ignored" |} in
  let resp := {| status := 400; body := ErrorBody "Unsupported file type. Use PDF or TXT." |} in
  post_api_ingest (env := remote_environment) req empty_world = (resp, empty_world)
  /\ (status resp = 400%nat -> empty_world = empty_world).
Proof.
  intros req resp.
  assert (Hrun : post_api_ingest (env := remote_environment) req empty_world
                 = (resp, empty_world)) by reflexivity.
  split; [exact Hrun|].
  apply (ingest_handler_rejects_cleanly (env := remote_environment) req empty_world
           empty_world resp Hrun).
Defined.

(** X24. [POST /api/ingest]: a 200 response names one identifier twice,
    and under that identifier the dataset holds the document with the
    full text that the handler read, which is not blank, and the index
    holds the vector of that text. *)
Theorem ingest_handler_success {env : Environment} (req : IngestRequest) (w w' : World)
    (resp : Response) :
  post_api_ingest req w = (resp, w') ->
  status resp = 200%nat ->
  exists id text source doc stored,
    body resp = IngestSuccess id id "Document ingested and vectorized successfully"
    /\ read_request req = Ok (inr (text, source))
    /\ JS.trim text <> ""
    /\ sanity w' !! id = Some doc
    /\ fullText (attributes doc) = Some text
    /\ redis w' !! ("doc:" ++ id) = Some stored
    /\ vector stored = embedding_of text.
Proof.
  unfold post_api_ingest. intros Hrun Hstatus.
  destruct (read_request req) as [[early|[text source]]|m] eqn:Hread.
  - injection Hrun as <- <-. exfalso.
    unfold read_request in Hread.
    destruct (req_file req) as [file|].
    + destruct (String.eqb (mimetype file) "application/pdf").
      * destruct (pdfParse (buffer file)); simpl in Hread; discriminate.
      * destruct (String.eqb (mimetype file) "text/plain"); [discriminate|].
        injection Hread as <-. discriminate.
    + destruct (req_text req) as [text|].
      * destruct (JS.truthy text); [discriminate|]. injection Hread as <-. discriminate.
      * injection Hread as <-. discriminate.
  - destruct (JS.truthy (JS.trim text)) eqn:Htrim; cbn [negb] in Hrun.
    2:{ injection Hrun as <- <-. discriminate. }
    destruct (sanity_create (sanity w)
                (document_of (ingested_document text source) (clock w)))
      as [id|m] eqn:Hcreate.
    + rewrite (ingestDocument_effect text source w id Hcreate) in Hrun.
      injection Hrun as <- <-. cbn [body sanityId redisId sanity redis].
      eexists id, text, source, _, _.
      rewrite !lookup_insert_eq.
      split; [reflexivity|]. split; [reflexivity|]. split.
      { intros Hblank. rewrite Hblank in Htrim. discriminate. }
      repeat split; reflexivity.
    + rewrite (ingest_fails_before_vector text source w m Hcreate) in Hrun.
      injection Hrun as <- <-. discriminate.
  - injection Hrun as <- <-. discriminate.
Qed.

Lemma ingest_handler_success_witness :
  let req := {| req_file := Some {| originalname := "notes.txt"; mimetype := "text/plain";
                                    buffer := "Quantum computing uses superposition." |};
                req_text := None |} in
  exists resp w',
    post_api_ingest (env := remote_environment) req empty_world = (resp, w')
    /\ status resp = 200%nat
    /\ body resp = IngestSuccess "d1" "d1" "Document ingested and vectorized successfully"
    /\ is_Some (sanity w' !! "d1")
    /\ is_Some (redis w' !! "doc:d1").
Proof.
  intros req.
  set (resp := fst (post_api_ingest (env := remote_environment) req empty_world)).
  set (w' := snd (post_api_ingest (env := remote_environment) req empty_world)).
  assert (Hrun : post_api_ingest (env := remote_environment) req empty_world = (resp, w'))
    by reflexivity.
  assert (Hstatus : status resp = 200%nat) by reflexivity.
  exists resp, w'. split; [exact Hrun|]. split; [exact Hstatus|].
  destruct (ingest_handler_success (env := remote_environment) req empty_world w' resp
              Hrun Hstatus)
    as [id [text [source [doc [stored [Hbody [_ [_ [Hdoc [_ [Hstored _]]]]]]]]]]].
  assert (Hid : id = "d1").
  { assert (Hb : body resp = IngestSuccess "d1" "d1"
                               "Document ingested and vectorized successfully")
      by reflexivity.
    rewrite Hb in Hbody. injection Hbody as <-. reflexivity. }
  subst id. split; [exact Hbody|]. split; eauto.
Defined.

Lemma accepted_question_spec (req : QueryRequest) (q : string) :
  accepted_question req = Some q
  <-> req_q req = Some (BodyString q) /\ JS.trim q <> "".
Proof.
  unfold accepted_question. destruct (req_q req) as [[s|]|].
  - destruct (String.eqb_spec (JS.trim s) "") as [Hblank|Hblank].
    + replace (JS.truthy (JS.trim s)) with false
        by (unfold JS.truthy; rewrite Hblank; reflexivity).
      rewrite andb_false_r. split; [discriminate|].
      intros [[= <-] Hq]. contradiction.
    + assert (Hs : JS.truthy s = true).
      { unfold JS.truthy. destruct (String.eqb_spec s "") as [->|]; [|reflexivity].
        destruct Hblank. reflexivity. }
      assert (Ht : JS.truthy (JS.trim s) = true).
      { unfold JS.truthy. destruct (String.eqb_spec (JS.trim s) ""); [contradiction|].
        reflexivity. }
      rewrite Hs, Ht. simpl. split.
      * intros [= <-]. auto.
      * intros [[= <-] _]. reflexivity.
  - split; [discriminate|]. intros [Hq _]. discriminate.
  - split; [discriminate|]. intros [Hq _]. discriminate.
Qed.


(** ** The workflow client and [POST /api/parallel/start] *)

(** X26. [POST /api/parallel/start] never changes the world.  It answers
    500 exactly when the API key is set and the workflow identifier is
    not, with the message of [startParallelWorkflow]; otherwise it
    answers 200, with a mock identifier made from the clock when the key
    is unset, and with the configured identifier and the request body
    when the key is set.  [checkWorkflowStatus] never throws and gives
    the identifier back. *)
Theorem parallel_start_outcomes {cfg : ParallelConfig} {env : Environment}
    (payload : string) (w : World) :
  (exists resp,
     post_api_parallel_start payload w = (resp, w)
     /\ (parallel_status resp = 500%nat
         <-> unset PARALLEL_API_KEY = false /\ unset PARALLEL_WORKFLOW_ID = true)
     /\ (parallel_status resp = 500%nat ->
         parallel_body resp
         = ParallelError "Failed to start workflow: PARALLEL_WORKFLOW_ID not configured")
     /\ (parallel_status resp <> 500%nat ->
         exists started,
           parallel_status resp = 200%nat
           /\ parallel_body resp = ParallelStarted started
           /\ (unset PARALLEL_API_KEY = true ->
               workflowId started = "mock-workflow-" ++ string_of_Z (clock w)
               /\ workflow_status started = "started"
               /\ workflow_payload started = None)
           /\ (unset PARALLEL_API_KEY = false ->
               PARALLEL_WORKFLOW_ID = Some (workflowId started)
               /\ workflow_status started = "mock_started"
               /\ workflow_payload started = Some payload
               /\ workflow_timestamp started = Some (toISOString (clock w)))))
  /\ (forall id, exists st,
        checkWorkflowStatus id w = (Ok st, w) /\ checked_workflowId st = id).
Proof.
  split.
  - unfold post_api_parallel_start, startParallelWorkflow, try_catch.
    destruct (unset PARALLEL_API_KEY) eqn:Hkey.
    + eexists. split; [reflexivity|]. cbn [parallel_status parallel_body].
      split; [split; [discriminate|intros [Hno _]; discriminate]|].
      split; [discriminate|]. intros _. eexists. split; [reflexivity|].
      split; [reflexivity|]. split; [|discriminate].
      intros _. repeat split; reflexivity.
    + unfold unset. destruct PARALLEL_WORKFLOW_ID as [id|] eqn:Hid.
      * destruct (JS.truthy id) eqn:Htruthy.
        -- eexists. split; [reflexivity|]. cbn [parallel_status parallel_body negb].
           split; [split; [discriminate|intros [_ Hno]; discriminate]|].
           split; [discriminate|]. intros _. eexists. split; [reflexivity|].
           split; [reflexivity|]. split; [discriminate|].
           intros _. repeat split; reflexivity.
        -- eexists. split; [reflexivity|]. cbn [parallel_status parallel_body negb].
           split; [split; auto|]. split; [reflexivity|]. intros Hno. contradiction.
      * eexists. split; [reflexivity|]. cbn [parallel_status parallel_body].
        split; [split; auto|]. split; [reflexivity|]. intros Hno. contradiction.
  - intros id. unfold checkWorkflowStatus, try_catch.
    destruct (unset PARALLEL_API_KEY); eexists; split; reflexivity.
Qed.

(** ** The hash of [generateMockEmbedding] *)

Lemma to_int32_congruent (a b : Z) :
  (a mod 2 ^ 32 = b mod 2 ^ 32)%Z -> to_int32 a = to_int32 b.
Proof.
  unfold to_int32. change (2 ^ 32)%Z with 4294967296%Z.
  change (2 ^ 31)%Z with 2147483648%Z. intros Hmod.
  Z.div_mod_to_equations. lia.
Qed.

Lemma to_int32_mod (a : Z) : (to_int32 a mod 2 ^ 32 = a mod 2 ^ 32)%Z.
Proof.
  unfold to_int32. change (2 ^ 32)%Z with 4294967296%Z.
  change (2 ^ 31)%Z with 2147483648%Z.
  Z.div_mod_to_equations. lia.
Qed.

(** One round of the loop multiplies by 31 and adds the code unit,
    modulo [2^32]. *)
Lemma hash_step_polynomial (z : Z) (c : ascii) :
  hash_step (to_int32 z) c = to_int32 (31 * z + charCode c).
Proof.
  unfold hash_step. cbv zeta. rewrite Z.land_diag.
  rewrite Z.shiftl_mul_pow2 by lia.
  apply to_int32_congruent. rewrite to_int32_mod.
  pose proof (to_int32_mod (to_int32 (to_int32 z) * 2 ^ 5)) as H1.
  pose proof (to_int32_mod (to_int32 z)) as H2.
  pose proof (to_int32_mod z) as H3.
  revert H1 H2 H3.
  generalize (to_int32 (to_int32 (to_int32 z) * 2 ^ 5)).
  generalize (to_int32 (to_int32 z)). generalize (to_int32 z).
  intros h1 h2 h3. change (2 ^ 32)%Z with 4294967296%Z. change (2 ^ 5)%Z with 32%Z.
  generalize (charCode c). intros code H1 H2 H3.
  Z.div_mod_to_equations. lia.
Qed.

Lemma fold_hash_polynomial (chars : list ascii) (z : Z) :
  fold_left hash_step chars (to_int32 z) = to_int32 (polynomial31 z chars).
Proof.
  unfold polynomial31. revert z.
  induction chars as [|c chars IH]; intros z; [reflexivity|].
  rewrite !fold_left_step, hash_step_polynomial. apply IH.
Qed.

(** X27. The hash of [generateMockEmbedding] is the polynomial
    [31^(n-1) c_1 + ... + c_n] of the code units of the text, taken
    modulo [2^32] into the signed 32-bit range. *)
Theorem text_hash_is_polynomial (text : string) :
  text_hash text = to_int32 (polynomial31 0 (list_ascii_of_string text))
  /\ (text_hash text mod 2 ^ 32
      = polynomial31 0 (list_ascii_of_string text) mod 2 ^ 32)%Z
  /\ (- 2 ^ 31 <= text_hash text < 2 ^ 31)%Z.
Proof.
  assert (Hhash : text_hash text
                  = to_int32 (polynomial31 0 (list_ascii_of_string text))).
  { unfold text_hash. change 0%Z with (to_int32 0) at 1. apply fold_hash_polynomial. }
  split; [exact Hhash|]. split.
  - rewrite Hhash. apply to_int32_mod.
  - rewrite Hhash. apply to_int32_range.
Qed.

Lemma list_ascii_of_string_app (a b : string) :
  list_ascii_of_string (a ++ b) = (list_ascii_of_string a ++ list_ascii_of_string b)%list.
Proof.
  induction a as [|c a IH]; [reflexivity|].
  rewrite append_cons. simpl. rewrite IH. reflexivity.
Qed.

Lemma polynomial31_app (l1 l2 : list ascii) (z : Z) :
  polynomial31 z (l1 ++ l2) = polynomial31 (polynomial31 z l1) l2.
Proof. unfold polynomial31. apply List.fold_left_app. Qed.

(** X28. The mock embedding is not injective: replacing an occurrence of
    [Aa] by [BB] anywhere in a text gives a different text with the same
    hash and the same embedding. *)
Theorem mock_embedding_collides (before after : string) :
  before ++ "Aa" ++ after <> before ++ "BB" ++ after
  /\ text_hash (before ++ "Aa" ++ after) = text_hash (before ++ "BB" ++ after)
  /\ generateMockEmbedding (before ++ "Aa" ++ after)
     = generateMockEmbedding (before ++ "BB" ++ after).
Proof.
  assert (Hhash : text_hash (before ++ "Aa" ++ after)
                  = text_hash (before ++ "BB" ++ after)).
  { assert (Hpair : forall z, polynomial31 z (list_ascii_of_string "Aa")
                              = polynomial31 z (list_ascii_of_string "BB")).
    { intros z. unfold polynomial31. cbn [list_ascii_of_string].
      rewrite !fold_left_step. cbn [fold_left].
      change (charCode "A") with 65%Z. change (charCode "a") with 97%Z.
      change (charCode "B") with 66%Z. lia. }
    unfold text_hash. change 0%Z with (to_int32 0).
    rewrite !fold_hash_polynomial, !list_ascii_of_string_app, !polynomial31_app.
    rewrite Hpair. reflexivity. }
  split; [|split; [exact Hhash|]].
  - intros Heq. apply append_inj_l in Heq. discriminate Heq.
  - unfold generateMockEmbedding. rewrite Hhash. reflexivity.
Qed.
